(** * SMXDevice: the host-side session layer of the StepManiaX SDK

    A shallow embedding of [sdk/Windows/SMXDevice.cpp]: the configuration
    synchronisation, the sensor-test request/response protocol and its
    bit-level decoder, and the packet dispatcher.

    Conventions.
    - A [std::string] used as a binary buffer is a [list byte]; [buf[i]] is
      the stdpp lookup [buf !! i].
    - C integers are [Z]; every narrowing conversion of the source
      ([uint8_t], [uint32_t], [int16_t], [char]) is written out.
    - A [for] loop over [0 .. n-1] is a left fold over [seq 0 n]. *)

From Stdlib Require Import ZArith Lia Bool String.
From Stdlib.Strings Require Import Byte.
From stdpp Require Import base list.

Local Open Scope Z_scope.

(** ** Bytes and C conversions *)

Definition byte_Z (b : byte) : Z := Z.of_N (Byte.to_N b).

(** [uint8_t(x)]: keep the low eight bits. *)
Definition to_uint8 (x : Z) : Z := x mod 256.

(** [uint32_t(x)]. *)
Definition to_uint32 (x : Z) : Z := x mod 2 ^ 32.

(** [int16_t] read back from its 16-bit pattern. *)
Definition to_int16 (x : Z) : Z :=
  let u := x mod 65536 in if u <? 32768 then u else u - 65536.

(** [char] is signed with the compiler this file is built with: the value
    of a [char] holding byte [b]. *)
Definition char_Z (b : byte) : Z :=
  let u := byte_Z b in if u <? 128 then u else u - 256.

(** The byte with value [x mod 256]. *)
Definition Z_byte (x : Z) : byte :=
  match Byte.of_N (Z.to_N (x mod 256)) with
  | Some b => b
  | None => Byte.x00
  end.

(** ** ReadDataForPanel *)

(** One pass of the inner loop body: [j] is the bit position in the byte
    being assembled, the state is the cursor [m_iBit] and [result]. *)
Definition ReadDataForPanel_bit (data : list Z) (iPanel : Z)
    (st : nat * Z) (j : nat) : nat * Z :=
  let '(m_iBit, result) := st in
  let '(bit, m_iBit') :=
    if (m_iBit <? length data)%nat
    then (negb (Z.land (default 0 (data !! m_iBit)) (Z.shiftl 1 iPanel) =? 0),
          S m_iBit)
    else (false, m_iBit) in
  (m_iBit', to_uint8 (Z.lor result (Z.shiftl (Z.b2z bit) (Z.of_nat j)))).

(** One pass of the outer loop body: assemble a byte and store it through
    [p++]. The state is the cursor and the bytes written so far. *)
Definition ReadDataForPanel_byte (data : list Z) (iPanel : Z)
    (st : nat * list Z) (i : nat) : nat * list Z :=
  let '(m_iBit, out) := st in
  let '(m_iBit', result) :=
    foldl (ReadDataForPanel_bit data iPanel) (m_iBit, 0) (seq 0 8) in
  (m_iBit', out ++ [result]).

(** [ReadDataForPanel(data, iPanel, pOut, iOutSize)]: the [iOutSize] bytes
    written to [pOut]. *)
Definition ReadDataForPanel (data : list Z) (iPanel : Z) (iOutSize : nat)
    : list Z :=
  snd (foldl (ReadDataForPanel_byte data iPanel) (0%nat, []) (seq 0 iOutSize)).

(** ** Data model *)

(** [SMXUpdateCallbackReason]. *)
Inductive SMXUpdateCallbackReason :=
  | SMXUpdateCallback_Updated
  | SMXUpdateCallback_FactoryResetCommandComplete.

(** The completion closures this file hands to [SendCommandLocked],
    defunctionalised: no closure, the lambda of [SendConfig], the lambda of
    [FactoryReset], and a closure supplied by a caller of [SendCommand]. *)
Inductive Completion :=
  | NoCompletion
  | SendConfigComplete
  | FactoryResetReadback
  | CallerCompletion.

(** What [Log] is called with. *)
Inductive LogEntry :=
  | LogInvalidConfigurationPacket
      (* "Communication error: invalid configuration packet" *)
  | LogUnexpectedSensorData
      (* "Ignoring unexpected sensor data request.  It may have been sent by
         another application." *)
  | LogSensorModeMismatch (got expected : Z)
      (* "Ignoring unexpected sensor data request (got %i, expected %i)" *).

(** [SMXConfig] is a fixed-size record that this file only copies byte by
    byte; a value is its bytes. *)
Definition SMXConfig := list byte.

(** Modelled from the spec: [SMXSensorTestModeData] is declared in SMX.h,
    which is not part of the sources. Per panel (9 panels): a have-data
    flag, 4 signed 16-bit sensor readings, 4 bad-sensor flags and a
    DIP-switch value; the fields are the ones this file writes. *)
Record SMXSensorTestModeData := {
  bHaveDataFromPanel : list bool;
  sensorLevel : list (list Z);
  bBadSensorInput : list (list bool);
  iDIPSwitchPerPanel : list Z
}.

(** Modelled from the spec: [SMXDeviceConnection], the transport, is not
    part of the sources. It is open or not ([isOpen]), has read the device
    identity or not ([hasIdentity]), carries the per-connection "activated"
    flag, the "is second unit" flag of the identity, the live input bitmask,
    the framed packets waiting for [pollIncoming], and the commands given to
    [sendRaw] that are not fully sent yet, each with its completion. *)
Record SMXDeviceConnection := {
  m_bOpen : bool;
  m_bGotInfo : bool;
  m_bActive : bool;
  m_bP2 : bool;
  m_iInputState : Z;
  m_sReadBuffers : list (list byte);
  m_aPendingCommands : list (list byte * Completion)
}.

(** The members of [SMXDevice] that this file reads or writes, followed by
    three observation traces: what was logged, which update callbacks were
    delivered (pad number and reason), and which commands were handed to the
    transport. [m_pUpdateCallback] records whether a callback is set. *)
Record SMXDevice := {
  m_pConnection : SMXDeviceConnection;
  m_pUpdateCallback : bool;
  config : SMXConfig;
  wanted_config : SMXConfig;
  m_bHaveConfig : bool;
  m_bSendConfig : bool;
  m_bSendingConfig : bool;
  m_SensorTestMode : Z;
  m_WaitingForSensorTestModeResponse : Z;
  m_SentSensorTestModeRequestAtTicks : Z;
  m_HaveSensorTestModeData : bool;
  m_SensorTestData : SMXSensorTestModeData;
  logged : list LogEntry;
  delivered : list (Z * SMXUpdateCallbackReason);
  emitted : list (list byte)
}.

(** Field updates. *)
Definition set_m_pConnection (c : SMXDeviceConnection) (s : SMXDevice) :=
  {| m_pConnection := c; m_pUpdateCallback := m_pUpdateCallback s;
     config := config s; wanted_config := wanted_config s;
     m_bHaveConfig := m_bHaveConfig s; m_bSendConfig := m_bSendConfig s;
     m_bSendingConfig := m_bSendingConfig s;
     m_SensorTestMode := m_SensorTestMode s;
     m_WaitingForSensorTestModeResponse := m_WaitingForSensorTestModeResponse s;
     m_SentSensorTestModeRequestAtTicks := m_SentSensorTestModeRequestAtTicks s;
     m_HaveSensorTestModeData := m_HaveSensorTestModeData s;
     m_SensorTestData := m_SensorTestData s;
     logged := logged s; delivered := delivered s; emitted := emitted s |}.

Definition set_m_pUpdateCallback (b : bool) (s : SMXDevice) :=
  {| m_pConnection := m_pConnection s; m_pUpdateCallback := b;
     config := config s; wanted_config := wanted_config s;
     m_bHaveConfig := m_bHaveConfig s; m_bSendConfig := m_bSendConfig s;
     m_bSendingConfig := m_bSendingConfig s;
     m_SensorTestMode := m_SensorTestMode s;
     m_WaitingForSensorTestModeResponse := m_WaitingForSensorTestModeResponse s;
     m_SentSensorTestModeRequestAtTicks := m_SentSensorTestModeRequestAtTicks s;
     m_HaveSensorTestModeData := m_HaveSensorTestModeData s;
     m_SensorTestData := m_SensorTestData s;
     logged := logged s; delivered := delivered s; emitted := emitted s |}.

Definition set_config (c : SMXConfig) (s : SMXDevice) :=
  {| m_pConnection := m_pConnection s; m_pUpdateCallback := m_pUpdateCallback s;
     config := c; wanted_config := wanted_config s;
     m_bHaveConfig := m_bHaveConfig s; m_bSendConfig := m_bSendConfig s;
     m_bSendingConfig := m_bSendingConfig s;
     m_SensorTestMode := m_SensorTestMode s;
     m_WaitingForSensorTestModeResponse := m_WaitingForSensorTestModeResponse s;
     m_SentSensorTestModeRequestAtTicks := m_SentSensorTestModeRequestAtTicks s;
     m_HaveSensorTestModeData := m_HaveSensorTestModeData s;
     m_SensorTestData := m_SensorTestData s;
     logged := logged s; delivered := delivered s; emitted := emitted s |}.

Definition set_wanted_config (c : SMXConfig) (s : SMXDevice) :=
  {| m_pConnection := m_pConnection s; m_pUpdateCallback := m_pUpdateCallback s;
     config := config s; wanted_config := c;
     m_bHaveConfig := m_bHaveConfig s; m_bSendConfig := m_bSendConfig s;
     m_bSendingConfig := m_bSendingConfig s;
     m_SensorTestMode := m_SensorTestMode s;
     m_WaitingForSensorTestModeResponse := m_WaitingForSensorTestModeResponse s;
     m_SentSensorTestModeRequestAtTicks := m_SentSensorTestModeRequestAtTicks s;
     m_HaveSensorTestModeData := m_HaveSensorTestModeData s;
     m_SensorTestData := m_SensorTestData s;
     logged := logged s; delivered := delivered s; emitted := emitted s |}.

Definition set_m_bHaveConfig (b : bool) (s : SMXDevice) :=
  {| m_pConnection := m_pConnection s; m_pUpdateCallback := m_pUpdateCallback s;
     config := config s; wanted_config := wanted_config s;
     m_bHaveConfig := b; m_bSendConfig := m_bSendConfig s;
     m_bSendingConfig := m_bSendingConfig s;
     m_SensorTestMode := m_SensorTestMode s;
     m_WaitingForSensorTestModeResponse := m_WaitingForSensorTestModeResponse s;
     m_SentSensorTestModeRequestAtTicks := m_SentSensorTestModeRequestAtTicks s;
     m_HaveSensorTestModeData := m_HaveSensorTestModeData s;
     m_SensorTestData := m_SensorTestData s;
     logged := logged s; delivered := delivered s; emitted := emitted s |}.

Definition set_m_bSendConfig (b : bool) (s : SMXDevice) :=
  {| m_pConnection := m_pConnection s; m_pUpdateCallback := m_pUpdateCallback s;
     config := config s; wanted_config := wanted_config s;
     m_bHaveConfig := m_bHaveConfig s; m_bSendConfig := b;
     m_bSendingConfig := m_bSendingConfig s;
     m_SensorTestMode := m_SensorTestMode s;
     m_WaitingForSensorTestModeResponse := m_WaitingForSensorTestModeResponse s;
     m_SentSensorTestModeRequestAtTicks := m_SentSensorTestModeRequestAtTicks s;
     m_HaveSensorTestModeData := m_HaveSensorTestModeData s;
     m_SensorTestData := m_SensorTestData s;
     logged := logged s; delivered := delivered s; emitted := emitted s |}.

Definition set_m_bSendingConfig (b : bool) (s : SMXDevice) :=
  {| m_pConnection := m_pConnection s; m_pUpdateCallback := m_pUpdateCallback s;
     config := config s; wanted_config := wanted_config s;
     m_bHaveConfig := m_bHaveConfig s; m_bSendConfig := m_bSendConfig s;
     m_bSendingConfig := b;
     m_SensorTestMode := m_SensorTestMode s;
     m_WaitingForSensorTestModeResponse := m_WaitingForSensorTestModeResponse s;
     m_SentSensorTestModeRequestAtTicks := m_SentSensorTestModeRequestAtTicks s;
     m_HaveSensorTestModeData := m_HaveSensorTestModeData s;
     m_SensorTestData := m_SensorTestData s;
     logged := logged s; delivered := delivered s; emitted := emitted s |}.

Definition set_m_SensorTestMode (m : Z) (s : SMXDevice) :=
  {| m_pConnection := m_pConnection s; m_pUpdateCallback := m_pUpdateCallback s;
     config := config s; wanted_config := wanted_config s;
     m_bHaveConfig := m_bHaveConfig s; m_bSendConfig := m_bSendConfig s;
     m_bSendingConfig := m_bSendingConfig s;
     m_SensorTestMode := m;
     m_WaitingForSensorTestModeResponse := m_WaitingForSensorTestModeResponse s;
     m_SentSensorTestModeRequestAtTicks := m_SentSensorTestModeRequestAtTicks s;
     m_HaveSensorTestModeData := m_HaveSensorTestModeData s;
     m_SensorTestData := m_SensorTestData s;
     logged := logged s; delivered := delivered s; emitted := emitted s |}.

Definition set_m_WaitingForSensorTestModeResponse (m : Z) (s : SMXDevice) :=
  {| m_pConnection := m_pConnection s; m_pUpdateCallback := m_pUpdateCallback s;
     config := config s; wanted_config := wanted_config s;
     m_bHaveConfig := m_bHaveConfig s; m_bSendConfig := m_bSendConfig s;
     m_bSendingConfig := m_bSendingConfig s;
     m_SensorTestMode := m_SensorTestMode s;
     m_WaitingForSensorTestModeResponse := m;
     m_SentSensorTestModeRequestAtTicks := m_SentSensorTestModeRequestAtTicks s;
     m_HaveSensorTestModeData := m_HaveSensorTestModeData s;
     m_SensorTestData := m_SensorTestData s;
     logged := logged s; delivered := delivered s; emitted := emitted s |}.

Definition set_m_SentSensorTestModeRequestAtTicks (t : Z) (s : SMXDevice) :=
  {| m_pConnection := m_pConnection s; m_pUpdateCallback := m_pUpdateCallback s;
     config := config s; wanted_config := wanted_config s;
     m_bHaveConfig := m_bHaveConfig s; m_bSendConfig := m_bSendConfig s;
     m_bSendingConfig := m_bSendingConfig s;
     m_SensorTestMode := m_SensorTestMode s;
     m_WaitingForSensorTestModeResponse := m_WaitingForSensorTestModeResponse s;
     m_SentSensorTestModeRequestAtTicks := t;
     m_HaveSensorTestModeData := m_HaveSensorTestModeData s;
     m_SensorTestData := m_SensorTestData s;
     logged := logged s; delivered := delivered s; emitted := emitted s |}.

Definition set_m_HaveSensorTestModeData (b : bool) (s : SMXDevice) :=
  {| m_pConnection := m_pConnection s; m_pUpdateCallback := m_pUpdateCallback s;
     config := config s; wanted_config := wanted_config s;
     m_bHaveConfig := m_bHaveConfig s; m_bSendConfig := m_bSendConfig s;
     m_bSendingConfig := m_bSendingConfig s;
     m_SensorTestMode := m_SensorTestMode s;
     m_WaitingForSensorTestModeResponse := m_WaitingForSensorTestModeResponse s;
     m_SentSensorTestModeRequestAtTicks := m_SentSensorTestModeRequestAtTicks s;
     m_HaveSensorTestModeData := b;
     m_SensorTestData := m_SensorTestData s;
     logged := logged s; delivered := delivered s; emitted := emitted s |}.

Definition set_m_SensorTestData (d : SMXSensorTestModeData) (s : SMXDevice) :=
  {| m_pConnection := m_pConnection s; m_pUpdateCallback := m_pUpdateCallback s;
     config := config s; wanted_config := wanted_config s;
     m_bHaveConfig := m_bHaveConfig s; m_bSendConfig := m_bSendConfig s;
     m_bSendingConfig := m_bSendingConfig s;
     m_SensorTestMode := m_SensorTestMode s;
     m_WaitingForSensorTestModeResponse := m_WaitingForSensorTestModeResponse s;
     m_SentSensorTestModeRequestAtTicks := m_SentSensorTestModeRequestAtTicks s;
     m_HaveSensorTestModeData := m_HaveSensorTestModeData s;
     m_SensorTestData := d;
     logged := logged s; delivered := delivered s; emitted := emitted s |}.

Definition set_logged (l : list LogEntry) (s : SMXDevice) :=
  {| m_pConnection := m_pConnection s; m_pUpdateCallback := m_pUpdateCallback s;
     config := config s; wanted_config := wanted_config s;
     m_bHaveConfig := m_bHaveConfig s; m_bSendConfig := m_bSendConfig s;
     m_bSendingConfig := m_bSendingConfig s;
     m_SensorTestMode := m_SensorTestMode s;
     m_WaitingForSensorTestModeResponse := m_WaitingForSensorTestModeResponse s;
     m_SentSensorTestModeRequestAtTicks := m_SentSensorTestModeRequestAtTicks s;
     m_HaveSensorTestModeData := m_HaveSensorTestModeData s;
     m_SensorTestData := m_SensorTestData s;
     logged := l; delivered := delivered s; emitted := emitted s |}.

Definition set_delivered (l : list (Z * SMXUpdateCallbackReason)) (s : SMXDevice) :=
  {| m_pConnection := m_pConnection s; m_pUpdateCallback := m_pUpdateCallback s;
     config := config s; wanted_config := wanted_config s;
     m_bHaveConfig := m_bHaveConfig s; m_bSendConfig := m_bSendConfig s;
     m_bSendingConfig := m_bSendingConfig s;
     m_SensorTestMode := m_SensorTestMode s;
     m_WaitingForSensorTestModeResponse := m_WaitingForSensorTestModeResponse s;
     m_SentSensorTestModeRequestAtTicks := m_SentSensorTestModeRequestAtTicks s;
     m_HaveSensorTestModeData := m_HaveSensorTestModeData s;
     m_SensorTestData := m_SensorTestData s;
     logged := logged s; delivered := l; emitted := emitted s |}.

Definition set_emitted (l : list (list byte)) (s : SMXDevice) :=
  {| m_pConnection := m_pConnection s; m_pUpdateCallback := m_pUpdateCallback s;
     config := config s; wanted_config := wanted_config s;
     m_bHaveConfig := m_bHaveConfig s; m_bSendConfig := m_bSendConfig s;
     m_bSendingConfig := m_bSendingConfig s;
     m_SensorTestMode := m_SensorTestMode s;
     m_WaitingForSensorTestModeResponse := m_WaitingForSensorTestModeResponse s;
     m_SentSensorTestModeRequestAtTicks := m_SentSensorTestModeRequestAtTicks s;
     m_HaveSensorTestModeData := m_HaveSensorTestModeData s;
     m_SensorTestData := m_SensorTestData s;
     logged := logged s; delivered := delivered s; emitted := l |}.

(** ** The transport, at its interface *)

(** Modelled from the spec: [IsConnected] is the transport's [isOpen]. *)
Definition conn_IsConnected (c : SMXDeviceConnection) : bool := m_bOpen c.

(** Modelled from the spec: [IsConnectedWithDeviceInfo] is [isOpen] together
    with [hasIdentity]. *)
Definition conn_IsConnectedWithDeviceInfo (c : SMXDeviceConnection) : bool :=
  m_bOpen c && m_bGotInfo c.

Definition conn_blank : SMXDeviceConnection :=
  {| m_bOpen := false; m_bGotInfo := false; m_bActive := false;
     m_bP2 := false; m_iInputState := 0; m_sReadBuffers := [];
     m_aPendingCommands := [] |}.

(** Modelled from the spec: [Open] succeeds or not ([ok], decided by the
    operating system); on success the transport is open. *)
Definition conn_Open (ok : bool) (c : SMXDeviceConnection) : SMXDeviceConnection :=
  if ok
  then {| m_bOpen := true; m_bGotInfo := m_bGotInfo c; m_bActive := m_bActive c;
          m_bP2 := m_bP2 c; m_iInputState := m_iInputState c;
          m_sReadBuffers := m_sReadBuffers c;
          m_aPendingCommands := m_aPendingCommands c |}
  else c.

(** Modelled from the spec: [Close] ends the physical connection; identity,
    the "activated" flag, buffered packets and unsent commands (whose
    completions then never fire) go with it. The specification names
    [close()] without saying what becomes of commands still queued; dropping
    them is the reading taken here. *)
Definition conn_Close (c : SMXDeviceConnection) : SMXDeviceConnection := conn_blank.

Definition conn_SetActive (b : bool) (c : SMXDeviceConnection) : SMXDeviceConnection :=
  {| m_bOpen := m_bOpen c; m_bGotInfo := m_bGotInfo c; m_bActive := b;
     m_bP2 := m_bP2 c; m_iInputState := m_iInputState c;
     m_sReadBuffers := m_sReadBuffers c;
     m_aPendingCommands := m_aPendingCommands c |}.

(** Modelled from the spec: [sendRaw(bytes, onComplete)] queues the command
    with its completion. *)
Definition conn_SendCommand (cmd : list byte) (k : Completion)
    (c : SMXDeviceConnection) : SMXDeviceConnection :=
  {| m_bOpen := m_bOpen c; m_bGotInfo := m_bGotInfo c; m_bActive := m_bActive c;
     m_bP2 := m_bP2 c; m_iInputState := m_iInputState c;
     m_sReadBuffers := m_sReadBuffers c;
     m_aPendingCommands := m_aPendingCommands c ++ [(cmd, k)] |}.

Definition conn_set_ReadBuffers (q : list (list byte))
    (c : SMXDeviceConnection) : SMXDeviceConnection :=
  {| m_bOpen := m_bOpen c; m_bGotInfo := m_bGotInfo c; m_bActive := m_bActive c;
     m_bP2 := m_bP2 c; m_iInputState := m_iInputState c;
     m_sReadBuffers := q;
     m_aPendingCommands := m_aPendingCommands c |}.

(** Modelled from the spec: [ReadPacket] is [pollIncoming]: one fully framed
    packet at a time, removed from the queue, or nothing. *)
Definition conn_ReadPacket (c : SMXDeviceConnection)
    : option (list byte * SMXDeviceConnection) :=
  match m_sReadBuffers c with
  | [] => None
  | buf :: rest => Some (buf, conn_set_ReadBuffers rest c)
  end.

(** What the device and the operating system did during one call of the
    transport's I/O pump: whether it failed, whether the identity arrived
    (with its "second unit" flag), the input bitmask afterwards, the packets
    framed, and how many queued commands were fully sent. *)
Record PumpIO := {
  io_fail : bool;
  io_identity : option bool;
  io_input : Z;
  io_received : list (list byte);
  io_sent : nat
}.

(** Modelled from the spec: [Update] is [pumpIO]; the completions of the
    commands that were fully sent are returned in queue order, to be run by
    the caller. *)
Definition conn_Update (io : PumpIO) (c : SMXDeviceConnection)
    : SMXDeviceConnection * list Completion :=
  ({| m_bOpen := m_bOpen c;
      m_bGotInfo := m_bGotInfo c || bool_decide (is_Some (io_identity io));
      m_bActive := m_bActive c;
      m_bP2 := default (m_bP2 c) (io_identity io);
      m_iInputState := io_input io;
      m_sReadBuffers := m_sReadBuffers c ++ io_received io;
      m_aPendingCommands := drop (io_sent io) (m_aPendingCommands c) |},
   (take (io_sent io) (m_aPendingCommands c)).*2).

(** ** SMXDevice *)

Section Device.

(** Declared in SMX.h, which is not part of the sources:
    [sizeof(SMXConfig)] and the value of the enumerator
    [SensorTestMode_Off]. A [SensorTestMode] is its integer value. *)
Variable sizeof_SMXConfig : nat.
Variable SensorTestMode_Off : Z.

Definition Log (e : LogEntry) (s : SMXDevice) : SMXDevice :=
  set_logged (logged s ++ [e]) s.

Definition OpenDeviceHandle (ok : bool) (s : SMXDevice) : SMXDevice :=
  set_m_pConnection (conn_Open ok (m_pConnection s)) s.

Definition CallUpdateCallback (reason : SMXUpdateCallbackReason)
    (s : SMXDevice) : SMXDevice :=
  if negb (m_pUpdateCallback s) then s
  else set_delivered
         (delivered s ++ [(if m_bP2 (m_pConnection s) then 1 else 0, reason)]) s.

Definition CloseDevice (s : SMXDevice) : SMXDevice :=
  let s := set_m_pConnection (conn_Close (m_pConnection s)) s in
  let s := set_m_bHaveConfig false s in
  let s := set_m_bSendConfig false s in
  CallUpdateCallback SMXUpdateCallback_Updated s.

Definition SetUpdateCallback (registered : bool) (s : SMXDevice) : SMXDevice :=
  set_m_pUpdateCallback registered s.

Definition IsConnectedLocked (s : SMXDevice) : bool :=
  conn_IsConnectedWithDeviceInfo (m_pConnection s) && m_bHaveConfig s.

Definition IsConnected (s : SMXDevice) : bool := IsConnectedLocked s.

(** The wake-up of the communications thread ([SetEvent]) is not part of
    the state. *)
Definition SendCommandLocked (cmd : list byte) (pComplete : Completion)
    (s : SMXDevice) : SMXDevice :=
  if conn_IsConnected (m_pConnection s)
  then set_emitted (emitted s ++ [cmd])
         (set_m_pConnection (conn_SendCommand cmd pComplete (m_pConnection s)) s)
  else s.

Definition SendCommand (cmd : list byte) (s : SMXDevice) : SMXDevice :=
  SendCommandLocked cmd CallerCompletion s.

Definition GetConfig (s : SMXDevice) : SMXConfig * bool :=
  let configOut := if m_bSendConfig s then wanted_config s else config s in
  (configOut, m_bHaveConfig s).

Definition SetConfig (newConfig : SMXConfig) (s : SMXDevice) : SMXDevice :=
  let s := set_wanted_config newConfig s in
  set_m_bSendConfig true s.

(** ["f\n"], ["g\n"], ["C\n"], ["R\n"]. *)
Definition cmd_f : list byte := [x66; x0a].
Definition cmd_g : list byte := [x67; x0a].
Definition cmd_C : list byte := [x43; x0a].
Definition cmd_R : list byte := [x52; x0a].

Definition FactoryReset (s : SMXDevice) : SMXDevice :=
  let s := SendCommandLocked cmd_f NoCompletion s in
  SendCommandLocked cmd_g FactoryResetReadback s.

Definition ForceRecalibration (s : SMXDevice) : SMXDevice :=
  SendCommandLocked cmd_C NoCompletion s.

Definition SetSensorTestMode (mode : Z) (s : SMXDevice) : SMXDevice :=
  set_m_SensorTestMode mode s.

Definition GetTestData (s : SMXDevice) : option SMXSensorTestModeData :=
  if negb (m_HaveSensorTestModeData s) then None
  else Some (m_SensorTestData s).

(** Running a completion closure when the transport reports its command
    fully sent. *)
Definition run_completion (k : Completion) (s : SMXDevice) : SMXDevice :=
  match k with
  | NoCompletion => s
  | SendConfigComplete => set_m_bSendingConfig false s
  | FactoryResetReadback =>
      CallUpdateCallback SMXUpdateCallback_FactoryResetCommandComplete s
  | CallerCompletion => s
  end.

(** The write command: ["w"], the one-byte [int8_t iSize = sizeof(SMXConfig)],
    then the bytes of [wanted_config]. *)
Definition write_command (wanted : SMXConfig) : list byte :=
  [x77] ++ [Z_byte (Z.of_nat sizeof_SMXConfig)] ++ wanted.

Definition SendConfig (s : SMXDevice) : SMXDevice :=
  if negb (conn_IsConnected (m_pConnection s)) || negb (m_bSendConfig s)
     || m_bSendingConfig s
  then s
  else if negb (m_bHaveConfig s) then s
  else
    let sData := write_command (wanted_config s) in
    let s := set_m_bSendingConfig true s in
    let s := SendCommandLocked sData SendConfigComplete s in
    let s := set_m_bSendConfig false s in
    let s := set_config (wanted_config s) s in
    SendCommandLocked cmd_g NoCompletion s.

Definition CheckActive (s : SMXDevice) : SMXDevice :=
  if negb (conn_IsConnectedWithDeviceInfo (m_pConnection s))
     || m_bActive (m_pConnection s)
  then s
  else
    let s := set_m_pConnection (conn_SetActive true (m_pConnection s)) s in
    let s := SendCommandLocked cmd_R NoCompletion s in
    SendCommandLocked cmd_g NoCompletion s.

(** [ssprintf("y%c\n", m_SensorTestMode)]: [%c] writes the argument
    converted to [unsigned char]. *)
Definition test_mode_command (mode : Z) : list byte :=
  [x79; Z_byte mode; x0a].

(** [ticks] is what [GetTickCount()] returns;
    [m_SentSensorTestModeRequestAtTicks] holds such a 32-bit tick count, and
    the difference is taken in [uint32_t]. *)
Definition UpdateTestMode (ticks : Z) (s : SMXDevice) : SMXDevice :=
  if m_SensorTestMode s =? SensorTestMode_Off then s
  else
    let now := to_uint32 ticks in
    if negb (m_WaitingForSensorTestModeResponse s =? SensorTestMode_Off)
       && (to_uint32 (now - m_SentSensorTestModeRequestAtTicks s) <? 2000)
    then s
    else
      let s := set_m_WaitingForSensorTestModeResponse (m_SensorTestMode s) s in
      let s := set_m_SentSensorTestModeRequestAtTicks now s in
      SendCommandLocked (test_mode_command (m_SensorTestMode s)) NoCompletion s.

(** *** Sensor-test responses *)

(** [buf[i]] on a buffer; every read of the source is in range. *)
Definition at_byte (buf : list byte) (i : nat) : byte := default x00 (buf !! i).

(** The values [i] takes in [for(int i = 3; i < iSize + 3; i += 2)]. *)
Definition word_offsets (iSize : Z) : list nat :=
  (λ k, 3 + 2 * k)%nat <$> seq 0 (Z.to_nat ((iSize + 1) / 2)).

(** [uint16_t iValue = (uint8_t(buf[i+1]) << 8) | (uint8_t(buf[i+0]) << 0)]. *)
Definition read_word (sReadBuffer : list byte) (i : nat) : Z :=
  (Z.lor (Z.shiftl (to_uint8 (char_Z (at_byte sReadBuffer (i + 1)))) 8)
         (Z.shiftl (to_uint8 (char_Z (at_byte sReadBuffer (i + 0)))) 0))
  mod 65536.

(** [uint8_t iSize = sReadBuffer[2] * 2]. *)
Definition response_iSize (sReadBuffer : list byte) : Z :=
  to_uint8 (char_Z (at_byte sReadBuffer 2) * 2).

(** The vector [data] after the copy loop. *)
Definition response_words (sReadBuffer : list byte) : list Z :=
  read_word sReadBuffer <$> word_offsets (response_iSize sReadBuffer).

(** [struct detail_data] under [#pragma pack(push,1)]: ten bytes. Bit-fields
    are allocated from the least significant bit of their byte and
    [int16_t] is little-endian, as on the platform of this file. *)
Record detail_data := {
  sig1 : Z; sig2 : Z; sig3 : Z;
  bad_sensor_0 : Z; bad_sensor_1 : Z; bad_sensor_2 : Z; bad_sensor_3 : Z;
  dummy : Z;
  sensors : list Z;
  dip : Z; dummy2 : Z
}.

Definition sizeof_detail_data : nat := 10.

Definition bitfield (b : Z) (pos width : Z) : Z :=
  Z.land (Z.shiftr b pos) (Z.ones width).

Definition detail_data_overlay (bytes : list Z) : detail_data :=
  let byte_at i := default 0 (bytes !! i) in
  {| sig1 := bitfield (byte_at 0%nat) 0 1;
     sig2 := bitfield (byte_at 0%nat) 1 1;
     sig3 := bitfield (byte_at 0%nat) 2 1;
     bad_sensor_0 := bitfield (byte_at 0%nat) 3 1;
     bad_sensor_1 := bitfield (byte_at 0%nat) 4 1;
     bad_sensor_2 := bitfield (byte_at 0%nat) 5 1;
     bad_sensor_3 := bitfield (byte_at 0%nat) 6 1;
     dummy := bitfield (byte_at 0%nat) 7 1;
     sensors :=
       (λ k, to_int16 (byte_at (1 + 2 * k)%nat + 256 * byte_at (2 + 2 * k)%nat))
       <$> seq 0 4;
     dip := bitfield (byte_at 9%nat) 0 4;
     dummy2 := bitfield (byte_at 9%nat) 4 4 |}.

(** The four [memset] calls. *)
Definition clear_output (output : SMXSensorTestModeData) : SMXSensorTestModeData :=
  let output :=
    {| bHaveDataFromPanel := replicate 9 false;
       sensorLevel := sensorLevel output;
       bBadSensorInput := bBadSensorInput output;
       iDIPSwitchPerPanel := iDIPSwitchPerPanel output |} in
  let output :=
    {| bHaveDataFromPanel := bHaveDataFromPanel output;
       sensorLevel := replicate 9 (replicate 4 0);
       bBadSensorInput := bBadSensorInput output;
       iDIPSwitchPerPanel := iDIPSwitchPerPanel output |} in
  let output :=
    {| bHaveDataFromPanel := bHaveDataFromPanel output;
       sensorLevel := sensorLevel output;
       bBadSensorInput := replicate 9 (replicate 4 false);
       iDIPSwitchPerPanel := iDIPSwitchPerPanel output |} in
  {| bHaveDataFromPanel := bHaveDataFromPanel output;
     sensorLevel := sensorLevel output;
     bBadSensorInput := bBadSensorInput output;
     iDIPSwitchPerPanel := replicate 9 0 |}.

Definition set_bHaveDataFromPanel (iPanel : nat) (v : bool)
    (output : SMXSensorTestModeData) : SMXSensorTestModeData :=
  {| bHaveDataFromPanel := <[iPanel := v]> (bHaveDataFromPanel output);
     sensorLevel := sensorLevel output;
     bBadSensorInput := bBadSensorInput output;
     iDIPSwitchPerPanel := iDIPSwitchPerPanel output |}.

Definition set_bBadSensorInput (iPanel iSensor : nat) (v : bool)
    (output : SMXSensorTestModeData) : SMXSensorTestModeData :=
  {| bHaveDataFromPanel := bHaveDataFromPanel output;
     sensorLevel := sensorLevel output;
     bBadSensorInput := alter (<[iSensor := v]>) iPanel (bBadSensorInput output);
     iDIPSwitchPerPanel := iDIPSwitchPerPanel output |}.

Definition set_iDIPSwitchPerPanel (iPanel : nat) (v : Z)
    (output : SMXSensorTestModeData) : SMXSensorTestModeData :=
  {| bHaveDataFromPanel := bHaveDataFromPanel output;
     sensorLevel := sensorLevel output;
     bBadSensorInput := bBadSensorInput output;
     iDIPSwitchPerPanel := <[iPanel := v]> (iDIPSwitchPerPanel output) |}.

Definition set_sensorLevel (iPanel iSensor : nat) (v : Z)
    (output : SMXSensorTestModeData) : SMXSensorTestModeData :=
  {| bHaveDataFromPanel := bHaveDataFromPanel output;
     sensorLevel := alter (<[iSensor := v]>) iPanel (sensorLevel output);
     bBadSensorInput := bBadSensorInput output;
     iDIPSwitchPerPanel := iDIPSwitchPerPanel output |}.

(** The body of [for(int iPanel = 0; iPanel < 9; ++iPanel)]. *)
Definition decode_panel (data : list Z) (output : SMXSensorTestModeData)
    (iPanel : nat) : SMXSensorTestModeData :=
  let pad_data :=
    detail_data_overlay
      (ReadDataForPanel data (Z.of_nat iPanel) sizeof_detail_data) in
  if negb (sig1 pad_data =? 0) || negb (sig2 pad_data =? 1)
     || negb (sig3 pad_data =? 0)
  then set_bHaveDataFromPanel iPanel false output
  else
    let output := set_bHaveDataFromPanel iPanel true output in
    let output := set_bBadSensorInput iPanel 0 (negb (bad_sensor_0 pad_data =? 0)) output in
    let output := set_bBadSensorInput iPanel 1 (negb (bad_sensor_1 pad_data =? 0)) output in
    let output := set_bBadSensorInput iPanel 2 (negb (bad_sensor_2 pad_data =? 0)) output in
    let output := set_bBadSensorInput iPanel 3 (negb (bad_sensor_3 pad_data =? 0)) output in
    let output := set_iDIPSwitchPerPanel iPanel (dip pad_data) output in
    foldl (λ output iSensor,
             set_sensorLevel iPanel iSensor
               (default 0 (sensors pad_data !! iSensor)) output)
          output (seq 0 4).

Definition HandleSensorTestDataResponse (sReadBuffer : list byte)
    (s : SMXDevice) : SMXDevice :=
  if (length sReadBuffer <? 3)%nat then s
  else
    let iSize := response_iSize sReadBuffer in
    if Z.of_nat (length sReadBuffer) <? iSize + 3 then s
    else
      let iMode := char_Z (at_byte sReadBuffer 1) in
      let data := response_words sReadBuffer in
      if m_WaitingForSensorTestModeResponse s =? SensorTestMode_Off
      then Log LogUnexpectedSensorData s
      else if negb (iMode =? m_WaitingForSensorTestModeResponse s)
      then Log (LogSensorModeMismatch iMode
                  (m_WaitingForSensorTestModeResponse s)) s
      else
        let s := set_m_WaitingForSensorTestModeResponse SensorTestMode_Off s in
        if negb (iMode =? m_SensorTestMode s) then s
        else
          let s := set_m_HaveSensorTestModeData true s in
          let output := clear_output (m_SensorTestData s) in
          let output := foldl (decode_panel data) output (seq 0 9) in
          let s := set_m_SensorTestData output s in
          CallUpdateCallback SMXUpdateCallback_Updated s.

(** *** The packet dispatcher *)

(** The ['g'] case of the switch. *)
Definition handle_config_packet (buf : list byte) (s : SMXDevice) : SMXDevice :=
  if (length buf <? 2)%nat
  then Log LogInvalidConfigurationPacket s
  else
    let iSize := to_uint8 (char_Z (at_byte buf 1)) in
    if Z.of_nat (length buf) <? iSize + 2
    then Log LogInvalidConfigurationPacket s
    else
      let n := Z.to_nat (Z.min iSize (Z.of_nat sizeof_SMXConfig)) in
      let s := set_config (take n (drop 2 buf) ++ drop n (config s)) s in
      let s := set_m_bHaveConfig true s in
      CallUpdateCallback SMXUpdateCallback_Updated s.

(** The body of the [while(1)] loop for one packet returned by
    [ReadPacket]. *)
Definition dispatch_packet (buf : list byte) (s : SMXDevice) : SMXDevice :=
  match buf with
  | [] => s
  | x79 :: _ => HandleSensorTestDataResponse buf s
  | x67 :: _ => handle_config_packet buf s
  | _ :: _ => s
  end.

(** The loop runs until [ReadPacket] returns nothing. Nothing in the loop
    body adds to the transport's queue, so the packets it sees are those
    [queue]d at entry; each pass stores the connection [ReadPacket] leaves
    behind. *)
Fixpoint HandlePackets_loop (queue : list (list byte)) (s : SMXDevice)
    : SMXDevice :=
  match queue with
  | [] => s
  | _ :: queue' =>
      match conn_ReadPacket (m_pConnection s) with
      | None => s
      | Some (buf, c) =>
          HandlePackets_loop queue' (dispatch_packet buf (set_m_pConnection c s))
      end
  end.

Definition HandlePackets (s : SMXDevice) : SMXDevice :=
  HandlePackets_loop (m_sReadBuffers (m_pConnection s)) s.

(** *** The pump *)

Definition Update (ticks : Z) (io : PumpIO) (s : SMXDevice) : SMXDevice :=
  if negb (conn_IsConnected (m_pConnection s)) then s
  else
    let s := CheckActive s in
    let s := SendConfig s in
    let s := UpdateTestMode ticks s in
    let iOldState := m_iInputState (m_pConnection s) in
    let '(c, completed) := conn_Update io (m_pConnection s) in
    let s := foldl (λ s k, run_completion k s) (set_m_pConnection c s) completed in
    if io_fail io then s
    else
      let s :=
        if negb (iOldState =? m_iInputState (m_pConnection s))
        then CallUpdateCallback SMXUpdateCallback_Updated s
        else s in
      HandlePackets s.

(** Modelled from the spec: the members' initial values are given in
    SMXDevice.h, which is not part of the sources. Nothing is known about
    the device, nothing is pending and no sensor-test data was received. *)
Definition SMXDevice_new : SMXDevice :=
  {| m_pConnection := conn_blank; m_pUpdateCallback := false;
     config := replicate sizeof_SMXConfig x00;
     wanted_config := replicate sizeof_SMXConfig x00;
     m_bHaveConfig := false; m_bSendConfig := false;
     m_bSendingConfig := false;
     m_SensorTestMode := SensorTestMode_Off;
     m_WaitingForSensorTestModeResponse := SensorTestMode_Off;
     m_SentSensorTestModeRequestAtTicks := 0;
     m_HaveSensorTestModeData := false;
     m_SensorTestData :=
       {| bHaveDataFromPanel := replicate 9 false;
          sensorLevel := replicate 9 (replicate 4 0);
          bBadSensorInput := replicate 9 (replicate 4 false);
          iDIPSwitchPerPanel := replicate 9 0 |};
     logged := []; delivered := []; emitted := [] |}.

(** *** Calls on a device, and runs of calls *)

Inductive Call :=
  | CallOpenDeviceHandle (ok : bool)
  | CallCloseDevice
  | CallSetUpdateCallback (registered : bool)
  | CallSendCommand (cmd : list byte)
  | CallSetConfig (newConfig : SMXConfig)
  | CallFactoryReset
  | CallForceRecalibration
  | CallSetSensorTestMode (mode : Z)
  | CallUpdate (ticks : Z) (io : PumpIO).

Definition call (s : SMXDevice) (c : Call) : SMXDevice :=
  match c with
  | CallOpenDeviceHandle ok => OpenDeviceHandle ok s
  | CallCloseDevice => CloseDevice s
  | CallSetUpdateCallback registered => SetUpdateCallback registered s
  | CallSendCommand cmd => SendCommand cmd s
  | CallSetConfig newConfig => SetConfig newConfig s
  | CallFactoryReset => FactoryReset s
  | CallForceRecalibration => ForceRecalibration s
  | CallSetSensorTestMode mode => SetSensorTestMode mode s
  | CallUpdate ticks io => Update ticks io s
  end.

Definition run (s : SMXDevice) (calls : list Call) : SMXDevice :=
  foldl call s calls.


(** ** Notions used to state the properties *)

(** Bit [k] of the stream of panel [p]: bit [p] of word [k], and 0 once the
    words are exhausted. *)
Definition panel_bit (data : list Z) (p : Z) (k : nat) : bool :=
  match data !! k with
  | Some w => Z.testbit w p
  | None => false
  end.

(** The number written by the bits [b start], [b (start+1)], ...,
    [b (start+len-1)], least significant first. *)
Fixpoint bits_value (b : nat → bool) (start len : nat) : Z :=
  match len with
  | O => 0
  | S len' => 2 * bits_value b (S start) len' + Z.b2z (b start)
  end.

(** What one panel reports, read off its bit stream: header 0,1,0, four
    bad-sensor flags, a reserved bit, four signed 16-bit readings, a 4-bit
    DIP value and four reserved bits. Without the header, nothing. *)
Record PanelReport := {
  have_data : bool;
  bad_sensor : list bool;
  level : list Z;
  dip_switch : Z
}.

Definition no_report : PanelReport :=
  {| have_data := false; bad_sensor := replicate 4 false;
     level := replicate 4 0; dip_switch := 0 |}.

Definition panel_report (data : list Z) (p : nat) : PanelReport :=
  let b := panel_bit data (Z.of_nat p) in
  if negb (b 0%nat) && b 1%nat && negb (b 2%nat)
  then {| have_data := true;
          bad_sensor := (λ k, b (3 + k)%nat) <$> seq 0 4;
          level := (λ k, to_int16 (bits_value b (8 + 16 * k) 16)) <$> seq 0 4;
          dip_switch := bits_value b 72 4 |}
  else no_report.

(** The [SMXSensorTestModeData] holding the reports of the nine panels. *)
Definition reports_output (data : list Z) : SMXSensorTestModeData :=
  {| bHaveDataFromPanel := (λ p, have_data (panel_report data p)) <$> seq 0 9;
     sensorLevel := (λ p, level (panel_report data p)) <$> seq 0 9;
     bBadSensorInput := (λ p, bad_sensor (panel_report data p)) <$> seq 0 9;
     iDIPSwitchPerPanel := (λ p, dip_switch (panel_report data p)) <$> seq 0 9 |}.

(** A sensor-test response passes the size checks of its handler. *)
Definition response_complete (buf : list byte) : bool :=
  negb (length buf <? 3)%nat
  && negb (Z.of_nat (length buf) <? response_iSize buf + 3).

(** The mode a response echoes. *)
Definition response_mode (buf : list byte) : Z := char_Z (at_byte buf 1).

(** A configuration readback that the dispatcher accepts: tag ['g'], a
    length byte, and at least as many bytes as it declares. *)
Definition config_packet_ok (buf : list byte) : bool :=
  match buf with
  | x67 :: _ =>
      negb (length buf <? 2)%nat
      && negb (Z.of_nat (length buf) <? byte_Z (at_byte buf 1) + 2)
  | _ => false
  end.

(** A configuration readback that the dispatcher rejects. *)
Definition config_packet_malformed (buf : list byte) : bool :=
  match buf with
  | x67 :: _ => negb (config_packet_ok buf)
  | _ => false
  end.

(** The configuration writes of [SendConfig] that the transport has not
    reported as sent. *)
#[local] Instance Completion_eq_dec : EqDecision Completion.
Proof. solve_decision. Defined.

Definition writes_in_flight (s : SMXDevice) : nat :=
  length (filter (λ e, e.2 = SendConfigComplete)
            (m_aPendingCommands (m_pConnection s))).

(** A call during which the dispatcher meets an acceptable configuration
    readback. *)
Definition accepts_readback (s : SMXDevice) (c : Call) : bool :=
  match c with
  | CallUpdate ticks io =>
      conn_IsConnected (m_pConnection s) && negb (io_fail io)
      && existsb config_packet_ok
           (m_sReadBuffers (m_pConnection s) ++ io_received io)
  | _ => false
  end.

(** A run of calls none of which accepts a readback. *)
Fixpoint readback_free (s : SMXDevice) (calls : list Call) : bool :=
  match calls with
  | [] => true
  | c :: calls' =>
      negb (accepts_readback s c) && readback_free (call s c) calls'
  end.

(** The device with [queue] as the packets waiting in the transport. *)
Definition with_packets (queue : list (list byte)) (s : SMXDevice) : SMXDevice :=
  set_m_pConnection (conn_set_ReadBuffers queue (m_pConnection s)) s.

(** The output once the first [n] panels are decoded: their reports, and
    zeroes for the panels still to come. *)
Definition reports_upto (data : list Z) (n : nat) : SMXSensorTestModeData :=
  {| bHaveDataFromPanel :=
       ((λ p, have_data (panel_report data p)) <$> seq 0 n)
       ++ replicate (9 - n) false;
     sensorLevel :=
       ((λ p, level (panel_report data p)) <$> seq 0 n)
       ++ replicate (9 - n) (replicate 4 0);
     bBadSensorInput :=
       ((λ p, bad_sensor (panel_report data p)) <$> seq 0 n)
       ++ replicate (9 - n) (replicate 4 false);
     iDIPSwitchPerPanel :=
       ((λ p, dip_switch (panel_report data p)) <$> seq 0 n)
       ++ replicate (9 - n) 0 |}.

(** The in-flight flag accounts for every configuration write that is still
    queued: there is none unless [m_bSendingConfig], and then at most one. *)
Definition in_flight_ok (s : SMXDevice) : Prop :=
  (writes_in_flight s <= if m_bSendingConfig s then 1 else 0)%nat.

(** [s'] has the readback state of [s]: the same [m_bHaveConfig] and the
    same packets waiting in the transport. *)
Definition same_readback_state (s s' : SMXDevice) : Prop :=
  m_bHaveConfig s' = m_bHaveConfig s
  ∧ m_sReadBuffers (m_pConnection s') = m_sReadBuffers (m_pConnection s).

(** Three readings of the specification that the code does not bear out,
    stated so that they can be tested against it. *)

(** A complete response that echoes another mode than the outstanding
    request's clears the outstanding request. *)
Definition mismatch_clears_request (buf : list byte) (s : SMXDevice) : Prop :=
  response_complete buf = true →
  m_WaitingForSensorTestModeResponse s ≠ SensorTestMode_Off →
  response_mode buf ≠ m_WaitingForSensorTestModeResponse s →
  m_WaitingForSensorTestModeResponse (HandleSensorTestDataResponse buf s)
  = SensorTestMode_Off.

(** A malformed configuration readback at the head of the queue is logged
    and ends the dispatch loop, with the queue as it was. *)
Definition malformed_stops_dispatch (bad : list byte)
    (rest : list (list byte)) (s : SMXDevice) : Prop :=
  config_packet_malformed bad = true →
  HandlePackets (with_packets (bad :: rest) s)
  = Log LogInvalidConfigurationPacket (with_packets (bad :: rest) s).

(** Closing keeps the sensor-test mode and resets the outstanding request
    and the received data to their initial values. *)
Definition close_resets_sensor_test (s : SMXDevice) : Prop :=
  let s' := CloseDevice s in
  m_SensorTestMode s' = m_SensorTestMode s
  ∧ m_WaitingForSensorTestModeResponse s' = SensorTestMode_Off
  ∧ m_SentSensorTestModeRequestAtTicks s'
    = m_SentSensorTestModeRequestAtTicks SMXDevice_new
  ∧ m_HaveSensorTestModeData s' = false
  ∧ m_SensorTestData s' = m_SensorTestData SMXDevice_new.

(** ** Arithmetic of the conversions *)

Lemma byte_Z_range (b : byte) : 0 <= byte_Z b < 256.
Proof.
  unfold byte_Z. pose proof (to_N_bounded b) as Hb. lia.
Qed.

Lemma to_uint8_char_Z (b : byte) : to_uint8 (char_Z b) = byte_Z b.
Proof.
  unfold to_uint8, char_Z. pose proof (byte_Z_range b) as Hb.
  destruct (byte_Z b <? 128) eqn:Hlt.
  - apply Z.mod_small. lia.
  - replace (byte_Z b - 256) with (byte_Z b + (-1) * 256) by lia.
    rewrite Z.mod_add by lia. apply Z.mod_small. lia.
Qed.

Lemma lor_shiftl_add (r v j : Z) :
  0 <= j → 0 <= r < 2 ^ j → 0 <= v → Z.lor r (Z.shiftl v j) = v * 2 ^ j + r.
Proof.
  intros Hj Hr Hv.
  rewrite Z.shiftl_mul_pow2 by lia.
  rewrite <- Z.lxor_lor, <- Z.add_nocarry_lxor; [lia | |].
  all: apply Z.bits_inj'; intros n Hn; rewrite Z.land_spec, Z.bits_0.
  all: destruct (Z.lt_ge_cases n j) as [Hlt | Hge].
  all: try (rewrite (Z.mul_pow2_bits_low v j n) by lia; apply andb_false_r).
  all: destruct (Z.eq_dec r 0) as [-> | Hne];
       [ rewrite Z.bits_0; reflexivity | ].
  all: rewrite (Z.bits_above_log2 r n); [ reflexivity | lia | ].
  all: apply Z.log2_lt_pow2; try lia;
       apply Z.lt_le_trans with (2 ^ j); try lia;
       apply Z.pow_le_mono_r; lia.
Qed.

(** ** The bit stream of a panel *)

Lemma bits_value_range (b : nat → bool) (len start : nat) :
  0 <= bits_value b start len < 2 ^ Z.of_nat len.
Proof.
  revert start. induction len as [| len IH]; intros start.
  - simpl. lia.
  - cbn [bits_value]. specialize (IH (S start)).
    rewrite Nat2Z.inj_succ, Z.pow_succ_r by lia.
    destruct (b start); simpl; lia.
Qed.

Lemma bits_value_app (b : nat → bool) (n m start : nat) :
  bits_value b start (n + m)
  = bits_value b start n + 2 ^ Z.of_nat n * bits_value b (start + n) m.
Proof.
  revert start. induction n as [| n IH]; intros start.
  - simpl. rewrite Nat.add_0_r. lia.
  - cbn [Nat.add bits_value]. rewrite IH.
    rewrite Nat2Z.inj_succ, Z.pow_succ_r by lia.
    replace (S start + n)%nat with (start + S n)%nat by lia. lia.
Qed.

Lemma bits_value_testbit (b : nat → bool) (len start j : nat) :
  Z.testbit (bits_value b start len) (Z.of_nat j)
  = if (j <? len)%nat then b (start + j)%nat else false.
Proof.
  revert start j. induction len as [| len IH]; intros start j.
  - simpl. apply Z.bits_0.
  - cbn [bits_value]. destruct j as [| j].
    + rewrite Nat.add_0_r. apply Z.testbit_0_r.
    + rewrite Nat2Z.inj_succ, Z.testbit_succ_r by lia. rewrite IH.
      replace (S start + j)%nat with (start + S j)%nat by lia.
      reflexivity.
Qed.

Lemma land_pow2_testbit (w p : Z) :
  0 <= p → negb (Z.land w (Z.shiftl 1 p) =? 0) = Z.testbit w p.
Proof.
  intros Hp. rewrite Z.shiftl_1_l.
  destruct (Z.testbit w p) eqn:Hbit.
  - apply negb_true_iff, Z.eqb_neq. intros Hz.
    assert (Z.testbit (Z.land w (2 ^ p)) p = false) as Hf
      by (rewrite Hz; apply Z.bits_0).
    rewrite Z.land_spec, Hbit, Z.pow2_bits_true in Hf by lia. discriminate.
  - apply negb_false_iff, Z.eqb_eq. apply Z.bits_inj'. intros n Hn.
    rewrite Z.land_spec, Z.bits_0, Z.pow2_bits_eqb by lia.
    destruct (Z.eqb_spec p n) as [-> | Hne]; [| apply andb_false_r].
    rewrite Hbit. reflexivity.
Qed.

(** The inner loop for the byte whose first bit is stream position [s0],
    with the low [j] bits assembled, run for [n] more bit positions. *)
Lemma ReadDataForPanel_bit_loop (data : list Z) (p : Z) (n j s0 : nat) :
  0 <= p → (j + n <= 8)%nat →
  foldl (ReadDataForPanel_bit data p)
        ((s0 + j) `min` length data, bits_value (panel_bit data p) s0 j)%nat
        (seq j n)
  = ((s0 + j + n) `min` length data,
     bits_value (panel_bit data p) s0 (j + n))%nat.
Proof.
  intros Hp. revert j. induction n as [| n IH]; intros j Hjn.
  - simpl. rewrite !Nat.add_0_r. reflexivity.
  - cbn [seq foldl].
    replace (s0 + j + S n)%nat with (s0 + S j + n)%nat by lia.
    replace (j + S n)%nat with (S j + n)%nat by lia.
    rewrite <- IH by lia. f_equal.
    unfold ReadDataForPanel_bit.
    pose proof (bits_value_range (panel_bit data p) j s0) as Hr.
    assert (2 ^ Z.of_nat j <= 128) as Hpow.
    { change 128 with (2 ^ 7). apply Z.pow_le_mono_r; lia. }
    replace (S j) with (j + 1)%nat by lia.
    rewrite (bits_value_app _ j 1). cbn [bits_value].
    unfold panel_bit at 3.
    destruct (Nat.ltb_spec ((s0 + j) `min` length data) (length data))
      as [Hin | Hout].
    + assert ((s0 + j) `min` length data = s0 + j)%nat as -> by lia.
      destruct (lookup_lt_is_Some_2 data (s0 + j)%nat ltac:(lia)) as [w Hw].
      rewrite Hw. cbn [default from_option id]. rewrite land_pow2_testbit by lia.
      f_equal; [lia |].
      rewrite lor_shiftl_add by (destruct (Z.testbit w p); simpl; lia).
      unfold to_uint8. rewrite Z.mod_small; [lia |].
      destruct (Z.testbit w p); simpl; lia.
    + rewrite (lookup_ge_None_2 data (s0 + j)%nat) by lia.
      f_equal; [lia |].
      rewrite lor_shiftl_add by (simpl; lia).
      unfold to_uint8. rewrite Z.mod_small; simpl; lia.
Qed.

Lemma ReadDataForPanel_byte_loop (data : list Z) (p : Z) (n i0 : nat)
    (out : list Z) :
  0 <= p →
  foldl (ReadDataForPanel_byte data p)
        ((8 * i0) `min` length data, out)%nat (seq i0 n)
  = ((8 * (i0 + n)) `min` length data,
     out ++ ((λ i, bits_value (panel_bit data p) (8 * i) 8) <$> seq i0 n))%nat.
Proof.
  intros Hp. revert i0 out. induction n as [| n IH]; intros i0 out.
  - cbn [seq foldl fmap list_fmap].
    replace (i0 + 0)%nat with i0 by lia. rewrite app_nil_r. reflexivity.
  - cbn [seq foldl fmap list_fmap]. unfold ReadDataForPanel_byte at 2.
    pose proof (ReadDataForPanel_bit_loop data p 8 0 (8 * i0) Hp ltac:(lia)) as Hbits.
    change (bits_value (panel_bit data p) (8 * i0) 0) with 0 in Hbits.
    replace (8 * i0 + 0)%nat with (8 * i0)%nat in Hbits by lia.
    rewrite Hbits. change (0 + 8)%nat with 8%nat.
    replace (8 * i0 + 8)%nat with (8 * S i0)%nat by lia.
    rewrite IH. rewrite <- app_assoc.
    replace (S i0 + n)%nat with (i0 + S n)%nat by lia. reflexivity.
Qed.

(** The bytes [ReadDataForPanel] writes, as values of the stream's bits. *)
Lemma ReadDataForPanel_bytes (data : list Z) (p : Z) (N : nat) :
  0 <= p →
  ReadDataForPanel data p N
  = (λ i, bits_value (panel_bit data p) (8 * i) 8) <$> seq 0 N.
Proof.
  intros Hp. unfold ReadDataForPanel.
  pose proof (ReadDataForPanel_byte_loop data p N 0 [] Hp) as Hloop.
  change (8 * 0)%nat with 0%nat in Hloop. change (0 `min` length data)%nat with 0%nat in Hloop.
  rewrite Hloop. reflexivity.
Qed.

(** C3. Sensor-test bit-unpacking: for every word sequence, panel index
    [p] in 0..8 and output size [N], [ReadDataForPanel] writes [N] bytes,
    and bit [j] (0..7, least significant first) of output byte [i] is bit
    [p] of word [8*i + j] when that word exists, and 0 once the words are
    exhausted; the bits above the eighth are 0. Word [k]'s bit [p] thus
    belongs to panel [p]'s stream, one bit per word per panel. *)
Theorem ReadDataForPanel_unpacks (data : list Z) (p : Z) (N : nat) :
  0 <= p <= 8 →
  length (ReadDataForPanel data p N) = N
  ∧ ∀ i, (i < N)%nat →
      ∃ out_i, ReadDataForPanel data p N !! i = Some out_i
        ∧ 0 <= out_i < 256
        ∧ ∀ j, (j < 8)%nat →
            Z.testbit out_i (Z.of_nat j)
            = match data !! (8 * i + j)%nat with
              | Some w => Z.testbit w p
              | None => false
              end.
Proof.
  intros Hp. rewrite ReadDataForPanel_bytes by lia. split.
  - rewrite length_fmap, length_seq. reflexivity.
  - intros i Hi. eexists. split; [| split].
    + rewrite list_lookup_fmap, lookup_seq_lt by lia. reflexivity.
    + apply (bits_value_range _ 8).
    + intros j Hj. cbn [Nat.add]. rewrite bits_value_testbit.
      destruct (Nat.ltb_spec j 8) as [_ | Hge]; [reflexivity | lia].
Qed.

(** ** Decoding a panel *)

Lemma bitfield_bit (b : Z) (pos : nat) :
  bitfield b (Z.of_nat pos) 1 = Z.b2z (Z.testbit b (Z.of_nat pos)).
Proof.
  unfold bitfield. rewrite Z.land_ones, Z.shiftr_div_pow2 by lia.
  rewrite Z.testbit_spec' by lia. reflexivity.
Qed.

Lemma b2z_eqb_0 (b : bool) : (Z.b2z b =? 0) = negb b.
Proof. destruct b; reflexivity. Qed.

Lemma b2z_eqb_1 (b : bool) : (Z.b2z b =? 1) = b.
Proof. destruct b; reflexivity. Qed.

(** The overlay of [detail_data] on the ten bytes of a panel, field by
    field, in terms of the panel's bit stream. *)
Lemma overlay_fields (data : list Z) (p : nat) :
  let b := panel_bit data (Z.of_nat p) in
  let pad_data :=
    detail_data_overlay
      (ReadDataForPanel data (Z.of_nat p) sizeof_detail_data) in
  sig1 pad_data = Z.b2z (b 0%nat)
  ∧ sig2 pad_data = Z.b2z (b 1%nat)
  ∧ sig3 pad_data = Z.b2z (b 2%nat)
  ∧ bad_sensor_0 pad_data = Z.b2z (b 3%nat)
  ∧ bad_sensor_1 pad_data = Z.b2z (b 4%nat)
  ∧ bad_sensor_2 pad_data = Z.b2z (b 5%nat)
  ∧ bad_sensor_3 pad_data = Z.b2z (b 6%nat)
  ∧ sensors pad_data
    = (λ k, to_int16 (bits_value b (8 + 16 * k) 16)) <$> seq 0 4
  ∧ dip pad_data = bits_value b 72 4.
Proof.
  intros b pad_data. subst pad_data.
  rewrite ReadDataForPanel_bytes by lia. fold b.
  unfold detail_data_overlay, sizeof_detail_data.
  cbn [sig1 sig2 sig3 bad_sensor_0 bad_sensor_1 bad_sensor_2 bad_sensor_3
       sensors dip].
  cbn [seq fmap list_fmap lookup list_lookup default from_option id Nat.mul Nat.add].
  repeat split.
  1-7: match goal with
       | |- bitfield _ ?n 1 = _ =>
           let k := eval compute in (Z.to_nat n) in
           change n with (Z.of_nat k);
           rewrite bitfield_bit, (bits_value_testbit b 8 0 k); reflexivity
       end.
  - repeat f_equal.
    all: match goal with
         | |- _ = bits_value _ ?s 16 =>
             symmetry; exact (bits_value_app b 8 8 s)
         end.
  - unfold bitfield. rewrite Z.shiftr_0_r, Z.land_ones by lia.
    rewrite (bits_value_app b 4 4 72 : bits_value b 72 8 = _).
    pose proof (bits_value_range b 4 72) as Hr.
    set (lo := bits_value b 72 4) in *.
    set (hi := bits_value b (72 + 4) 4).
    change (2 ^ Z.of_nat 4) with 16 in *. change (2 ^ 4) with 16.
    rewrite (Z.mul_comm 16 hi), Z.mod_add by lia.
    apply Z.mod_small. lia.
Qed.

Lemma insert_next {A} (l : list A) (n : nat) (x z : A) :
  length l = n → (n < 9)%nat →
  <[n := x]> (l ++ replicate (9 - n) z) = (l ++ [x]) ++ replicate (9 - S n) z.
Proof.
  intros Hl Hn. rewrite insert_app_r_alt by lia.
  replace (n - length l)%nat with 0%nat by lia.
  replace (9 - n)%nat with (S (9 - S n)) by lia.
  rewrite <- app_assoc. reflexivity.
Qed.

Lemma alter_next {A} (f : A → A) (l : list A) (n : nat) (z : A) :
  length l = n → (n < 9)%nat →
  alter f n (l ++ replicate (9 - n) z)
  = (l ++ [f z]) ++ replicate (9 - S n) z.
Proof.
  intros Hl Hn. rewrite alter_app_r_alt by lia.
  replace (n - length l)%nat with 0%nat by lia.
  replace (9 - n)%nat with (S (9 - S n)) by lia.
  rewrite <- app_assoc. reflexivity.
Qed.

Lemma keep_next {A} (l : list A) (n : nat) (z : A) :
  (n < 9)%nat →
  l ++ replicate (9 - n) z = (l ++ [z]) ++ replicate (9 - S n) z.
Proof.
  intros Hn. replace (9 - n)%nat with (S (9 - S n)) by lia.
  rewrite <- app_assoc. reflexivity.
Qed.

(** One pass of the panel loop extends the reports by one panel. *)
Lemma decode_panel_next (data : list Z) (n : nat) :
  (n < 9)%nat →
  decode_panel data (reports_upto data n) n = reports_upto data (S n).
Proof.
  intros Hn. unfold decode_panel.
  destruct (overlay_fields data n)
    as (H1 & H2 & H3 & Hb0 & Hb1 & Hb2 & Hb3 & Hs & Hd).
  rewrite H1, H2, H3, Hb0, Hb1, Hb2, Hb3, Hs, Hd.
  rewrite !b2z_eqb_0, b2z_eqb_1, !negb_involutive.
  unfold reports_upto. rewrite !(seq_S n 0), !fmap_app.
  change (0 + n)%nat with n. cbn [fmap list_fmap].
  unfold panel_report.
  set (b := panel_bit data (Z.of_nat n)).
  destruct (b 0%nat), (b 1%nat), (b 2%nat); cbn [negb orb andb].
  all: unfold set_bHaveDataFromPanel, set_bBadSensorInput,
         set_iDIPSwitchPerPanel, set_sensorLevel.
  all: cbn [foldl seq bHaveDataFromPanel sensorLevel bBadSensorInput
            iDIPSwitchPerPanel have_data bad_sensor level dip_switch no_report].
  all: rewrite ?list_alter_alter_eq.
  all: f_equal.
  all: first
    [ apply insert_next; [rewrite length_fmap, length_seq; reflexivity | lia]
    | apply keep_next; lia
    | rewrite alter_next by
        (first [rewrite length_fmap, length_seq; reflexivity | lia]);
      reflexivity ].
Qed.

Lemma decode_panels (data : list Z) (n : nat) (output : SMXSensorTestModeData) :
  (n <= 9)%nat →
  foldl (decode_panel data) (clear_output output) (seq 0 n)
  = reports_upto data n.
Proof.
  induction n as [| n IH]; intros Hn.
  - reflexivity.
  - rewrite seq_S, foldl_app, IH by lia. apply decode_panel_next. lia.
Qed.

(** The panel loop after the four [memset]s leaves the reports of the nine
    panels and nothing of the previous contents. *)
Lemma decode_all (data : list Z) (output : SMXSensorTestModeData) :
  foldl (decode_panel data) (clear_output output) (seq 0 9)
  = reports_output data.
Proof.
  rewrite decode_panels by lia. unfold reports_upto, reports_output.
  change (9 - 9)%nat with 0%nat. cbn [replicate]. rewrite !app_nil_r.
  reflexivity.
Qed.

Lemma bits_value_zero (b : nat → bool) (len start : nat) :
  (∀ k, (start <= k < start + len)%nat → b k = false) →
  bits_value b start len = 0.
Proof.
  revert start. induction len as [| len IH]; intros start Hb; [reflexivity |].
  cbn [bits_value]. rewrite (IH (S start)), (Hb start); [reflexivity | lia |].
  intros k Hk. apply Hb. lia.
Qed.

Lemma reports_output_lookup (data : list Z) (p : nat) :
  (p < 9)%nat →
  bHaveDataFromPanel (reports_output data) !! p
    = Some (have_data (panel_report data p))
  ∧ bBadSensorInput (reports_output data) !! p
    = Some (bad_sensor (panel_report data p))
  ∧ sensorLevel (reports_output data) !! p
    = Some (level (panel_report data p))
  ∧ iDIPSwitchPerPanel (reports_output data) !! p
    = Some (dip_switch (panel_report data p)).
Proof.
  intros Hp. unfold reports_output.
  cbn [bHaveDataFromPanel bBadSensorInput sensorLevel iDIPSwitchPerPanel].
  rewrite !list_lookup_fmap, !lookup_seq_lt by lia. auto.
Qed.

(** ** Frame properties of the update callback and the log *)

Lemma CallUpdateCallback_frame (reason : SMXUpdateCallbackReason) (s : SMXDevice) :
  ∃ d, CallUpdateCallback reason s = set_delivered d s.
Proof.
  unfold CallUpdateCallback. destruct (m_pUpdateCallback s); cbn [negb].
  - eexists. reflexivity.
  - exists (delivered s). destruct s. reflexivity.
Qed.

(** The handler on a response that is complete, expected and current. *)
Lemma HandleSensorTestDataResponse_accepted (buf : list byte) (s : SMXDevice) :
  response_complete buf = true →
  m_WaitingForSensorTestModeResponse s ≠ SensorTestMode_Off →
  response_mode buf = m_WaitingForSensorTestModeResponse s →
  response_mode buf = m_SensorTestMode s →
  HandleSensorTestDataResponse buf s
  = CallUpdateCallback SMXUpdateCallback_Updated
      (set_m_SensorTestData (reports_output (response_words buf))
         (set_m_HaveSensorTestModeData true
            (set_m_WaitingForSensorTestModeResponse SensorTestMode_Off s))).
Proof.
  unfold response_complete, response_mode, HandleSensorTestDataResponse.
  intros Hc Hw Hm Ha. apply andb_true_iff in Hc as [Hc1 Hc2].
  apply negb_true_iff in Hc1, Hc2. rewrite Hc1, Hc2.
  destruct (Z.eqb_spec (m_WaitingForSensorTestModeResponse s) SensorTestMode_Off)
    as [Heq | _]; [contradiction |].
  destruct (Z.eqb_spec (char_Z (at_byte buf 1))
              (m_WaitingForSensorTestModeResponse s)) as [_ | Hne];
    [| contradiction].
  cbn [negb set_m_WaitingForSensorTestModeResponse m_SensorTestMode].
  destruct (Z.eqb_spec (char_Z (at_byte buf 1)) (m_SensorTestMode s))
    as [_ | Hne]; [| contradiction].
  cbn [negb set_m_HaveSensorTestModeData m_SensorTestData].
  rewrite decode_all. reflexivity.
Qed.

(** C4. On every accepted sensor-test response the stored
    [SMXSensorTestModeData] is zeroed and rebuilt from the words alone,
    whatever it held before. For each of the 9 panels, the panel's bit
    stream is read as 3 header bits that must be 0,1,0, then 4 bad-sensor
    flags, 1 reserved bit, four signed 16-bit readings, and a 4-bit DIP
    value followed by 4 reserved bits. With the header, the panel has data
    and its flags, readings and DIP value are copied; without it the panel
    has no data and stays zeroed, and the other panels are decoded all the
    same. A panel with header 0,1,0 and every later bit 0 has data, readings
    0, flags false and DIP 0; a panel with header 1,1,0 has no data. *)
Theorem sensor_test_response_decoded (buf : list byte) (s : SMXDevice) :
  response_complete buf = true →
  m_WaitingForSensorTestModeResponse s ≠ SensorTestMode_Off →
  response_mode buf = m_WaitingForSensorTestModeResponse s →
  response_mode buf = m_SensorTestMode s →
  let s' := HandleSensorTestDataResponse buf s in
  let data := response_words buf in
  let output := m_SensorTestData s' in
  m_HaveSensorTestModeData s' = true
  ∧ output = reports_output data
  ∧ ∀ p, (p < 9)%nat →
      let b := panel_bit data (Z.of_nat p) in
      let header := negb (b 0%nat) && b 1%nat && negb (b 2%nat) in
      bHaveDataFromPanel output !! p = Some header
      ∧ (header = true →
           bBadSensorInput output !! p
             = Some [b 3%nat; b 4%nat; b 5%nat; b 6%nat]
           ∧ sensorLevel output !! p
             = Some [to_int16 (bits_value b 8 16);
                     to_int16 (bits_value b 24 16);
                     to_int16 (bits_value b 40 16);
                     to_int16 (bits_value b 56 16)]
           ∧ iDIPSwitchPerPanel output !! p = Some (bits_value b 72 4))
      ∧ (header = false →
           bBadSensorInput output !! p = Some [false; false; false; false]
           ∧ sensorLevel output !! p = Some [0; 0; 0; 0]
           ∧ iDIPSwitchPerPanel output !! p = Some 0)
      ∧ (b 0%nat = false → b 1%nat = true → b 2%nat = false →
         (∀ k, (3 <= k)%nat → b k = false) →
           bHaveDataFromPanel output !! p = Some true
           ∧ bBadSensorInput output !! p = Some [false; false; false; false]
           ∧ sensorLevel output !! p = Some [0; 0; 0; 0]
           ∧ iDIPSwitchPerPanel output !! p = Some 0)
      ∧ (b 0%nat = true → b 1%nat = true → b 2%nat = false →
           bHaveDataFromPanel output !! p = Some false
           ∧ bBadSensorInput output !! p = Some [false; false; false; false]
           ∧ sensorLevel output !! p = Some [0; 0; 0; 0]
           ∧ iDIPSwitchPerPanel output !! p = Some 0).
Proof.
  intros Hc Hw Hm Ha s' data output.
  assert (output = reports_output data) as Hout.
  { subst output s'. rewrite HandleSensorTestDataResponse_accepted by assumption.
    destruct (CallUpdateCallback_frame SMXUpdateCallback_Updated
                (set_m_SensorTestData (reports_output (response_words buf))
                   (set_m_HaveSensorTestModeData true
                      (set_m_WaitingForSensorTestModeResponse
                         SensorTestMode_Off s)))) as [d ->].
    reflexivity. }
  split; [| split; [exact Hout |]].
  - subst s'. rewrite HandleSensorTestDataResponse_accepted by assumption.
    destruct (CallUpdateCallback_frame SMXUpdateCallback_Updated
                (set_m_SensorTestData (reports_output (response_words buf))
                   (set_m_HaveSensorTestModeData true
                      (set_m_WaitingForSensorTestModeResponse
                         SensorTestMode_Off s)))) as [d ->].
    reflexivity.
  - intros p Hp b header. rewrite Hout.
    destruct (reports_output_lookup data p Hp) as (-> & -> & -> & ->).
    unfold panel_report. fold b. fold header.
    split; [destruct header; reflexivity |].
    split; [intros ->; repeat split; reflexivity |].
    split; [intros ->; repeat split; reflexivity |].
    split.
    + intros H0 H1 H2 Hz. subst header. rewrite H0, H1, H2.
      cbn [negb andb have_data bad_sensor level dip_switch
           fmap list_fmap seq Nat.add].
      rewrite !Hz by lia.
      rewrite !(bits_value_zero b 16), (bits_value_zero b 4)
        by (intros k Hk; apply Hz; lia).
      repeat split; reflexivity.
    + intros H0 H1 H2. subst header. rewrite H0, H1, H2.
      repeat split; reflexivity.
Qed.

(** ** The words of a sensor-test response *)

Lemma response_iSize_byte (buf : list byte) :
  response_iSize buf = (byte_Z (at_byte buf 2) * 2) mod 256.
Proof.
  unfold response_iSize, to_uint8, char_Z.
  destruct (byte_Z (at_byte buf 2) <? 128); [reflexivity |].
  replace ((byte_Z (at_byte buf 2) - 256) * 2)
    with (byte_Z (at_byte buf 2) * 2 + (-2) * 256) by lia.
  apply Z.mod_add. lia.
Qed.

Lemma read_word_value (buf : list byte) (i : nat) :
  read_word buf i
  = byte_Z (at_byte buf i) + 256 * byte_Z (at_byte buf (i + 1)).
Proof.
  unfold read_word. rewrite !to_uint8_char_Z, Nat.add_0_r, Z.shiftl_0_r.
  pose proof (byte_Z_range (at_byte buf i)) as Hlo.
  pose proof (byte_Z_range (at_byte buf (i + 1))) as Hhi.
  rewrite Z.lor_comm, lor_shiftl_add by lia.
  rewrite Z.mod_small; lia.
Qed.

Lemma response_words_length (buf : list byte) :
  Z.of_nat (length (response_words buf)) = response_iSize buf / 2.
Proof.
  unfold response_words, word_offsets.
  rewrite !length_fmap, length_seq, response_iSize_byte.
  pose proof (byte_Z_range (at_byte buf 2)) as Hb.
  pose proof (Z.mod_pos_bound (byte_Z (at_byte buf 2) * 2) 256 ltac:(lia)) as Hm.
  rewrite Z2Nat.id by (apply Z.div_pos; lia).
  destruct (Z_lt_ge_dec (byte_Z (at_byte buf 2)) 128) as [Hlt | Hge].
  - rewrite Z.mod_small by lia.
    replace (byte_Z (at_byte buf 2) * 2 + 1)
      with (1 + byte_Z (at_byte buf 2) * 2) by lia.
    rewrite Z.div_add, Z.div_mul by lia. reflexivity.
  - replace (byte_Z (at_byte buf 2) * 2)
      with ((byte_Z (at_byte buf 2) - 128) * 2 + 1 * 256) by lia.
    rewrite Z.mod_add, Z.mod_small by lia.
    replace ((byte_Z (at_byte buf 2) - 128) * 2 + 1)
      with (1 + (byte_Z (at_byte buf 2) - 128) * 2) by lia.
    rewrite Z.div_add, Z.div_mul by lia. reflexivity.
Qed.

Lemma response_words_lookup (buf : list byte) (k : nat) :
  (k < length (response_words buf))%nat →
  response_words buf !! k
  = Some (byte_Z (at_byte buf (3 + 2 * k))
          + 256 * byte_Z (at_byte buf (4 + 2 * k))).
Proof.
  unfold response_words, word_offsets. rewrite !length_fmap, length_seq.
  intros Hk. rewrite !list_lookup_fmap, lookup_seq_lt by lia.
  cbn [fmap option_fmap option_map]. rewrite read_word_value.
  replace (3 + 2 * (0 + k) + 1)%nat with (4 + 2 * k)%nat by lia.
  reflexivity.
Qed.

Lemma HandleSensorTestDataResponse_incomplete (buf : list byte) (s : SMXDevice) :
  Z.of_nat (length buf) < response_iSize buf + 3 →
  HandleSensorTestDataResponse buf s = s.
Proof.
  intros Hshort. unfold HandleSensorTestDataResponse.
  destruct (length buf <? 3)%nat; [reflexivity |].
  destruct (Z.ltb_spec (Z.of_nat (length buf)) (response_iSize buf + 3));
    [reflexivity | lia].
Qed.

(** C10. The expected payload size of a sensor-test response is the
    declared word-count byte times 2, truncated to 8 bits. The words
    extracted number [((wordCount * 2) mod 256) / 2]: for a declared count
    of 128 or more that is [wordCount - 128], not [wordCount]; below 128 it
    is exactly [wordCount]. Each extracted word is little-endian. While
    fewer than the computed payload size plus 3 header bytes are buffered
    the handler returns with the device unchanged; once that many bytes are
    buffered the handler goes on with exactly these words: an unsolicited
    response is logged, and an awaited response of the selected mode is
    stored as the decoding of these words. *)
Theorem sensor_test_response_word_count (buf : list byte) (s : SMXDevice) :
  let wordCount := byte_Z (at_byte buf 2) in
  let data := response_words buf in
  response_iSize buf = (wordCount * 2) mod 256
  ∧ Z.of_nat (length data) = ((wordCount * 2) mod 256) / 2
  ∧ (128 <= wordCount →
       Z.of_nat (length data) = wordCount - 128
       ∧ Z.of_nat (length data) ≠ wordCount)
  ∧ (wordCount < 128 → Z.of_nat (length data) = wordCount)
  ∧ (∀ k, (k < length data)%nat →
       data !! k = Some (byte_Z (at_byte buf (3 + 2 * k))
                         + 256 * byte_Z (at_byte buf (4 + 2 * k))))
  ∧ (Z.of_nat (length buf) < (wordCount * 2) mod 256 + 3 →
       HandleSensorTestDataResponse buf s = s)
  ∧ ((wordCount * 2) mod 256 + 3 <= Z.of_nat (length buf) →
       (m_WaitingForSensorTestModeResponse s = SensorTestMode_Off →
          HandleSensorTestDataResponse buf s = Log LogUnexpectedSensorData s)
       ∧ (m_WaitingForSensorTestModeResponse s ≠ SensorTestMode_Off →
          response_mode buf = m_WaitingForSensorTestModeResponse s →
          response_mode buf = m_SensorTestMode s →
          let s' := HandleSensorTestDataResponse buf s in
          m_HaveSensorTestModeData s' = true
          ∧ m_SensorTestData s' = reports_output data
          ∧ m_WaitingForSensorTestModeResponse s' = SensorTestMode_Off)).
Proof.
  intros wordCount data.
  pose proof (byte_Z_range (at_byte buf 2)) as Hb. fold wordCount in Hb.
  pose proof (response_words_length buf) as Hlen. fold data in Hlen.
  rewrite response_iSize_byte in Hlen. fold wordCount in Hlen.
  split; [apply response_iSize_byte |].
  split; [exact Hlen |].
  split; [| split; [| split; [| split]]].
  - intros Hge. rewrite Hlen.
    replace (wordCount * 2) with ((wordCount - 128) * 2 + 1 * 256) by lia.
    rewrite Z.mod_add, Z.mod_small, Z.div_mul by lia. lia.
  - intros Hlt. rewrite Hlen, Z.mod_small, Z.div_mul by lia. reflexivity.
  - intros k Hk. apply response_words_lookup. exact Hk.
  - intros Hshort. apply HandleSensorTestDataResponse_incomplete.
    rewrite response_iSize_byte. exact Hshort.
  - intros Hfull.
    pose proof (Z.mod_pos_bound (wordCount * 2) 256 ltac:(lia)) as Hmod.
    assert (Hthree : (length buf <? 3)%nat = false)
      by (apply Nat.ltb_ge; lia).
    assert (Hsize : (Z.of_nat (length buf) <? response_iSize buf + 3) = false)
      by (apply Z.ltb_ge; rewrite response_iSize_byte; exact Hfull).
    split.
    + intros Hoff. unfold HandleSensorTestDataResponse.
      rewrite Hthree. cbv zeta. rewrite Hsize.
      rewrite Hoff, Z.eqb_refl. reflexivity.
    + intros Hw Hm Ha s'. subst s'.
      rewrite HandleSensorTestDataResponse_accepted; try assumption.
      * destruct (CallUpdateCallback_frame SMXUpdateCallback_Updated
                    (set_m_SensorTestData (reports_output (response_words buf))
                       (set_m_HaveSensorTestModeData true
                          (set_m_WaitingForSensorTestModeResponse
                             SensorTestMode_Off s)))) as [d ->].
        repeat split.
      * unfold response_complete. rewrite Hthree, Hsize. reflexivity.
Qed.

(** ** Responses that do not match the outstanding request *)

(** The handler on a complete response whose mode is not the awaited one. *)
Lemma HandleSensorTestDataResponse_mismatch (buf : list byte) (s : SMXDevice) :
  response_complete buf = true →
  m_WaitingForSensorTestModeResponse s ≠ SensorTestMode_Off →
  response_mode buf ≠ m_WaitingForSensorTestModeResponse s →
  HandleSensorTestDataResponse buf s
  = Log (LogSensorModeMismatch (response_mode buf)
           (m_WaitingForSensorTestModeResponse s)) s.
Proof.
  unfold response_complete, response_mode, HandleSensorTestDataResponse.
  intros Hc Hw Hm. apply andb_true_iff in Hc as [Hc1 Hc2].
  apply negb_true_iff in Hc1, Hc2. rewrite Hc1, Hc2.
  destruct (Z.eqb_spec (m_WaitingForSensorTestModeResponse s) SensorTestMode_Off)
    as [Heq | _]; [contradiction |].
  destruct (Z.eqb_spec (char_Z (at_byte buf 1))
              (m_WaitingForSensorTestModeResponse s)) as [Heq | _];
    [contradiction |].
  reflexivity.
Qed.

(** C5, as the code has it. When a request is outstanding and a complete
    response echoes another mode, the response is logged and discarded and
    the device is otherwise unchanged: the request stays outstanding
    ([m_WaitingForSensorTestModeResponse] keeps its value, it is not set to
    Off). A later response echoing the requested mode is therefore accepted
    without any new request having been sent. *)
Theorem mismatched_response_keeps_request (buf buf' : list byte) (s : SMXDevice) :
  response_complete buf = true →
  m_WaitingForSensorTestModeResponse s ≠ SensorTestMode_Off →
  response_mode buf ≠ m_WaitingForSensorTestModeResponse s →
  let s1 := HandleSensorTestDataResponse buf s in
  s1 = Log (LogSensorModeMismatch (response_mode buf)
              (m_WaitingForSensorTestModeResponse s)) s
  ∧ m_WaitingForSensorTestModeResponse s1
    = m_WaitingForSensorTestModeResponse s
  ∧ m_SentSensorTestModeRequestAtTicks s1
    = m_SentSensorTestModeRequestAtTicks s
  ∧ m_HaveSensorTestModeData s1 = m_HaveSensorTestModeData s
  ∧ m_SensorTestData s1 = m_SensorTestData s
  ∧ emitted s1 = emitted s
  ∧ (response_complete buf' = true →
     response_mode buf' = m_WaitingForSensorTestModeResponse s →
     response_mode buf' = m_SensorTestMode s →
     let s2 := HandleSensorTestDataResponse buf' s1 in
     m_WaitingForSensorTestModeResponse s2 = SensorTestMode_Off
     ∧ m_HaveSensorTestModeData s2 = true
     ∧ m_SensorTestData s2 = reports_output (response_words buf')
     ∧ emitted s2 = emitted s).
Proof.
  intros Hc Hw Hm s1.
  assert (s1 = Log (LogSensorModeMismatch (response_mode buf)
                      (m_WaitingForSensorTestModeResponse s)) s) as Hs1
    by (apply HandleSensorTestDataResponse_mismatch; assumption).
  split; [exact Hs1 |]. rewrite Hs1.
  repeat (split; [reflexivity |]).
  intros Hc' Hm' Ha' s2. subst s2.
  rewrite HandleSensorTestDataResponse_accepted by assumption.
  match goal with
  | |- context [CallUpdateCallback ?r ?t] =>
      destruct (CallUpdateCallback_frame r t) as [d ->]
  end.
  repeat split; reflexivity.
Qed.

(** ** The configuration sync step *)

Lemma SendConfig_idle (s : SMXDevice) :
  conn_IsConnected (m_pConnection s) = false ∨ m_bHaveConfig s = false
  ∨ m_bSendConfig s = false ∨ m_bSendingConfig s = true →
  SendConfig s = s.
Proof.
  unfold SendConfig. intros [H | [H | [H | H]]]; rewrite H.
  - reflexivity.
  - destruct (_ || _); reflexivity.
  - rewrite orb_true_r. reflexivity.
  - rewrite orb_true_r. reflexivity.
Qed.

Lemma SendConfig_writes (s : SMXDevice) :
  conn_IsConnected (m_pConnection s) = true → m_bHaveConfig s = true →
  m_bSendConfig s = true → m_bSendingConfig s = false →
  SendConfig s
  = set_emitted (emitted s ++ [write_command (wanted_config s); cmd_g])
      (set_m_pConnection
         (conn_SendCommand cmd_g NoCompletion
            (conn_SendCommand (write_command (wanted_config s))
               SendConfigComplete (m_pConnection s)))
         (set_config (wanted_config s)
            (set_m_bSendConfig false (set_m_bSendingConfig true s)))).
Proof.
  destruct s as [c cb cfg wanted have pend flight m w t hd d lg dl em].
  destruct c as [op gi ac p2 inp rd pc].
  unfold SendConfig, SendCommandLocked, conn_IsConnected.
  cbn -[write_command]. intros -> -> -> ->. cbn -[write_command].
  rewrite <- !app_assoc. reflexivity.
Qed.

(** ** What each step leaves alone *)

Ltac destruct_device s :=
  destruct s as [[? ? ? ? ? ? ?] ? ? ? ? ? ? ? ? ? ? ? ? ? ?].

Lemma dispatch_packet_cases (buf : list byte) (s : SMXDevice) :
  dispatch_packet buf s
  = match buf with
    | [] => s
    | tag :: _ =>
        if Byte.eqb tag x79 then HandleSensorTestDataResponse buf s
        else if Byte.eqb tag x67 then handle_config_packet buf s
        else s
    end.
Proof. destruct buf as [| tag rest]; [reflexivity |]. destruct tag; reflexivity. Qed.

Lemma config_packet_ok_cases (buf : list byte) :
  config_packet_ok buf
  = match buf with
    | [] => false
    | tag :: _ =>
        Byte.eqb tag x67
        && (negb (length buf <? 2)%nat
            && negb (Z.of_nat (length buf) <? byte_Z (at_byte buf 1) + 2))
    end.
Proof. destruct buf as [| tag rest]; [reflexivity |]. destruct tag; reflexivity. Qed.

Lemma handle_config_packet_ok (buf : list byte) (s : SMXDevice) :
  negb (length buf <? 2)%nat
  && negb (Z.of_nat (length buf) <? byte_Z (at_byte buf 1) + 2) = true →
  handle_config_packet buf s
  = CallUpdateCallback SMXUpdateCallback_Updated
      (set_m_bHaveConfig true
         (set_config
            (take (Z.to_nat (Z.min (byte_Z (at_byte buf 1))
                               (Z.of_nat sizeof_SMXConfig)))
                  (drop 2 buf)
             ++ drop (Z.to_nat (Z.min (byte_Z (at_byte buf 1))
                                  (Z.of_nat sizeof_SMXConfig)))
                     (config s)) s)).
Proof.
  intros Hok. apply andb_true_iff in Hok as [H1 H2].
  apply negb_true_iff in H1, H2.
  unfold handle_config_packet. rewrite to_uint8_char_Z, H1, H2. reflexivity.
Qed.

Lemma handle_config_packet_bad (buf : list byte) (s : SMXDevice) :
  negb (length buf <? 2)%nat
  && negb (Z.of_nat (length buf) <? byte_Z (at_byte buf 1) + 2) = false →
  handle_config_packet buf s = Log LogInvalidConfigurationPacket s.
Proof.
  intros Hbad. unfold handle_config_packet. rewrite to_uint8_char_Z.
  destruct (length buf <? 2)%nat; [reflexivity |].
  destruct (Z.of_nat (length buf) <? byte_Z (at_byte buf 1) + 2);
    [reflexivity | discriminate].
Qed.

(** The parts of the device that the sensor-test handler never touches. *)
Lemma HandleSensorTestDataResponse_frame (buf : list byte) (s : SMXDevice) :
  let s' := HandleSensorTestDataResponse buf s in
  m_pConnection s' = m_pConnection s
  ∧ m_bHaveConfig s' = m_bHaveConfig s
  ∧ m_bSendConfig s' = m_bSendConfig s
  ∧ m_bSendingConfig s' = m_bSendingConfig s
  ∧ config s' = config s
  ∧ wanted_config s' = wanted_config s
  ∧ emitted s' = emitted s.
Proof.
  cbv zeta. unfold HandleSensorTestDataResponse, CallUpdateCallback, Log.
  repeat case_match; repeat split; reflexivity.
Qed.

Lemma dispatch_packet_frame (buf : list byte) (s : SMXDevice) :
  let s' := dispatch_packet buf s in
  m_pConnection s' = m_pConnection s
  ∧ m_bSendConfig s' = m_bSendConfig s
  ∧ m_bSendingConfig s' = m_bSendingConfig s
  ∧ wanted_config s' = wanted_config s
  ∧ emitted s' = emitted s
  ∧ (m_bHaveConfig s = true → m_bHaveConfig s' = true)
  ∧ (config_packet_ok buf = false →
       m_bHaveConfig s' = m_bHaveConfig s ∧ config s' = config s)
  ∧ (config_packet_ok buf = true → m_bHaveConfig s' = true).
Proof.
  cbv zeta. rewrite dispatch_packet_cases, config_packet_ok_cases.
  destruct buf as [| tag rest]; [repeat split; auto; discriminate |].
  destruct (Byte.eqb tag x79) eqn:Hy.
  { apply byte_dec_bl in Hy. subst tag. cbn [Byte.eqb andb].
    destruct (HandleSensorTestDataResponse_frame (x79 :: rest) s)
      as (-> & -> & -> & -> & -> & -> & ->).
    repeat split; auto; discriminate. }
  destruct (Byte.eqb tag x67) eqn:Hg; [| repeat split; auto; discriminate].
  cbn [andb].
  destruct (negb (length (tag :: rest) <? 2)%nat
            && negb (Z.of_nat (length (tag :: rest))
                     <? byte_Z (at_byte (tag :: rest) 1) + 2)) eqn:Hok.
  - rewrite handle_config_packet_ok by exact Hok.
    unfold CallUpdateCallback. repeat case_match; repeat split; auto; discriminate.
  - rewrite handle_config_packet_bad by exact Hok.
    repeat split; auto; discriminate.
Qed.

(** ** The dispatch loop *)

Lemma HandlePackets_loop_step (buf : list byte) (rest : list (list byte))
    (s : SMXDevice) :
  m_sReadBuffers (m_pConnection s) = buf :: rest →
  HandlePackets_loop (buf :: rest) s
  = HandlePackets_loop rest (dispatch_packet buf (with_packets rest s))
  ∧ m_sReadBuffers (m_pConnection (dispatch_packet buf (with_packets rest s)))
    = rest.
Proof.
  intros Hq. split.
  - cbn [HandlePackets_loop]. unfold conn_ReadPacket. rewrite Hq. reflexivity.
  - destruct (dispatch_packet_frame buf (with_packets rest s)) as (-> & _).
    reflexivity.
Qed.

Lemma HandlePackets_cons (buf : list byte) (rest : list (list byte))
    (s : SMXDevice) :
  HandlePackets (with_packets (buf :: rest) s)
  = HandlePackets (dispatch_packet buf (with_packets rest s)).
Proof.
  unfold HandlePackets at 1.
  destruct (HandlePackets_loop_step buf rest (with_packets (buf :: rest) s))
    as [Hstep Hrest]; [reflexivity |].
  change (m_sReadBuffers (m_pConnection (with_packets (buf :: rest) s)))
    with (buf :: rest).
  rewrite Hstep. unfold HandlePackets.
  replace (with_packets rest (with_packets (buf :: rest) s))
    with (with_packets rest s) in * by reflexivity.
  rewrite Hrest. reflexivity.
Qed.

(** The loop drains the queue and leaves the rest of the connection and
    the write bookkeeping alone. *)
Lemma HandlePackets_loop_frame (queue : list (list byte)) (s : SMXDevice) :
  m_sReadBuffers (m_pConnection s) = queue →
  let s' := HandlePackets_loop queue s in
  m_pConnection s' = conn_set_ReadBuffers [] (m_pConnection s)
  ∧ m_bSendConfig s' = m_bSendConfig s
  ∧ m_bSendingConfig s' = m_bSendingConfig s
  ∧ wanted_config s' = wanted_config s
  ∧ emitted s' = emitted s
  ∧ (m_bHaveConfig s = true → m_bHaveConfig s' = true).
Proof.
  revert s. induction queue as [| buf rest IH]; intros s Hq; cbv zeta.
  - cbn [HandlePackets_loop]. repeat split; auto.
    destruct_device s. cbn in Hq. subst. reflexivity.
  - destruct (HandlePackets_loop_step buf rest s Hq) as [-> Hrest].
    destruct (IH _ Hrest) as (-> & -> & -> & -> & -> & Hmono).
    destruct (dispatch_packet_frame buf (with_packets rest s))
      as (-> & -> & -> & -> & -> & Hmono' & _).
    repeat split; auto.
Qed.

Lemma HandlePackets_loop_no_readback (queue : list (list byte)) (s : SMXDevice) :
  m_sReadBuffers (m_pConnection s) = queue →
  existsb config_packet_ok queue = false →
  m_bHaveConfig (HandlePackets_loop queue s) = m_bHaveConfig s
  ∧ config (HandlePackets_loop queue s) = config s.
Proof.
  revert s. induction queue as [| buf rest IH]; intros s Hq Hno.
  - split; reflexivity.
  - cbn [existsb] in Hno. apply orb_false_iff in Hno as [Hbuf Hrest].
    destruct (HandlePackets_loop_step buf rest s Hq) as [-> Hq'].
    destruct (IH _ Hq' Hrest) as [-> ->].
    destruct (dispatch_packet_frame buf (with_packets rest s))
      as (_ & _ & _ & _ & _ & _ & Hsame & _).
    destruct (Hsame Hbuf) as [-> ->]. split; reflexivity.
Qed.

Lemma HandlePackets_loop_readback (queue : list (list byte)) (s : SMXDevice) :
  m_sReadBuffers (m_pConnection s) = queue →
  existsb config_packet_ok queue = true →
  m_bHaveConfig (HandlePackets_loop queue s) = true.
Proof.
  revert s. induction queue as [| buf rest IH]; intros s Hq Hex.
  - discriminate.
  - cbn [existsb] in Hex.
    destruct (HandlePackets_loop_step buf rest s Hq) as [-> Hq'].
    destruct (config_packet_ok buf) eqn:Hbuf.
    + destruct (HandlePackets_loop_frame rest _ Hq')
        as (_ & _ & _ & _ & _ & Hmono).
      apply Hmono.
      destruct (dispatch_packet_frame buf (with_packets rest s))
        as (_ & _ & _ & _ & _ & _ & _ & Hset).
      apply Hset. exact Hbuf.
    + apply IH; assumption.
Qed.

(** ** The readback state across the steps of a cycle *)

Lemma same_readback_state_refl (s : SMXDevice) : same_readback_state s s.
Proof. split; reflexivity. Qed.

Lemma same_readback_state_trans (s1 s2 s3 : SMXDevice) :
  same_readback_state s1 s2 → same_readback_state s2 s3 →
  same_readback_state s1 s3.
Proof. intros [H1 H2] [H3 H4]. split; congruence. Qed.

Lemma SendCommandLocked_readback (cmd : list byte) (k : Completion) (s : SMXDevice) :
  same_readback_state s (SendCommandLocked cmd k s).
Proof.
  unfold same_readback_state, SendCommandLocked.
  destruct (conn_IsConnected (m_pConnection s)); split; reflexivity.
Qed.

Lemma CallUpdateCallback_readback (r : SMXUpdateCallbackReason) (s : SMXDevice) :
  same_readback_state s (CallUpdateCallback r s).
Proof.
  destruct (CallUpdateCallback_frame r s) as [d ->]. split; reflexivity.
Qed.

Lemma CheckActive_readback (s : SMXDevice) :
  same_readback_state s (CheckActive s).
Proof.
  unfold CheckActive. destruct (_ || _); [apply same_readback_state_refl |].
  eapply same_readback_state_trans; [| apply SendCommandLocked_readback].
  eapply same_readback_state_trans; [| apply SendCommandLocked_readback].
  split; reflexivity.
Qed.

Lemma SendConfig_readback (s : SMXDevice) :
  same_readback_state s (SendConfig s).
Proof.
  unfold SendConfig. destruct (_ || _); [apply same_readback_state_refl |].
  destruct (negb _); [apply same_readback_state_refl |].
  eapply same_readback_state_trans; [| apply SendCommandLocked_readback].
  match goal with
  | |- same_readback_state _ (set_config _ (set_m_bSendConfig _ ?t)) =>
      apply (same_readback_state_trans _ t);
        [| split; reflexivity]
  end.
  eapply same_readback_state_trans; [| apply SendCommandLocked_readback].
  split; reflexivity.
Qed.

Lemma UpdateTestMode_readback (ticks : Z) (s : SMXDevice) :
  same_readback_state s (UpdateTestMode ticks s).
Proof.
  unfold UpdateTestMode.
  destruct (_ =? _); [apply same_readback_state_refl |].
  destruct (_ && _); [apply same_readback_state_refl |].
  eapply same_readback_state_trans; [| apply SendCommandLocked_readback].
  split; reflexivity.
Qed.

Lemma run_completion_readback (k : Completion) (s : SMXDevice) :
  same_readback_state s (run_completion k s).
Proof.
  destruct k; cbn [run_completion];
    first [apply same_readback_state_refl
          | apply CallUpdateCallback_readback
          | split; reflexivity].
Qed.

Lemma run_completions_readback (ks : list Completion) (s : SMXDevice) :
  same_readback_state s (foldl (λ s k, run_completion k s) s ks).
Proof.
  revert s. induction ks as [| k ks IH]; intros s.
  - apply same_readback_state_refl.
  - cbn [foldl]. eapply same_readback_state_trans; [| apply IH].
    apply run_completion_readback.
Qed.

(** The device as [HandlePackets] finds it in a cycle that gets that far. *)
Lemma Update_before_dispatch (ticks : Z) (io : PumpIO) (s : SMXDevice) :
  conn_IsConnected (m_pConnection s) = true → io_fail io = false →
  ∃ t, Update ticks io s = HandlePackets t
       ∧ m_bHaveConfig t = m_bHaveConfig s
       ∧ m_sReadBuffers (m_pConnection t)
         = m_sReadBuffers (m_pConnection s) ++ io_received io.
Proof.
  intros Hc Hf. unfold Update. rewrite Hc, Hf. cbn [negb].
  set (pre := UpdateTestMode ticks (SendConfig (CheckActive s))).
  assert (same_readback_state s pre) as [Hh Hq].
  { eapply same_readback_state_trans; [apply CheckActive_readback |].
    eapply same_readback_state_trans; [apply SendConfig_readback |].
    apply UpdateTestMode_readback. }
  unfold conn_Update.
  match goal with
  | |- context [foldl ?f ?t0 ?ks] =>
      destruct (run_completions_readback ks t0) as [Hh' Hq'];
      set (t1 := foldl f t0 ks) in *
  end.
  cbn [set_m_pConnection m_bHaveConfig m_pConnection m_sReadBuffers] in Hh', Hq'.
  rewrite Hh in Hh'. rewrite Hq in Hq'.
  destruct (negb _).
  - eexists. split; [reflexivity |].
    destruct (CallUpdateCallback_readback SMXUpdateCallback_Updated t1)
      as [-> ->]. split; assumption.
  - eexists. split; [reflexivity |]. split; assumption.
Qed.

Lemma Update_no_readback (ticks : Z) (io : PumpIO) (s : SMXDevice) :
  accepts_readback s (CallUpdate ticks io) = false →
  m_bHaveConfig (Update ticks io s) = m_bHaveConfig s.
Proof.
  cbn [accepts_readback]. intros Hno.
  destruct (conn_IsConnected (m_pConnection s)) eqn:Hc;
    [| unfold Update; rewrite Hc; reflexivity].
  destruct (io_fail io) eqn:Hf.
  - unfold Update. rewrite Hc, Hf. cbn [negb].
    unfold conn_Update.
    match goal with
    | |- context [foldl ?f ?t0 ?ks] =>
        destruct (run_completions_readback ks t0) as [-> _]
    end.
    cbn [set_m_pConnection m_bHaveConfig].
    destruct (UpdateTestMode_readback ticks (SendConfig (CheckActive s)))
      as [-> _].
    destruct (SendConfig_readback (CheckActive s)) as [-> _].
    destruct (CheckActive_readback s) as [-> _]. reflexivity.
  - destruct (Update_before_dispatch ticks io s Hc Hf) as (t & -> & <- & Hq).
    cbn [negb andb] in Hno. rewrite <- Hq in Hno.
    apply HandlePackets_loop_no_readback; [reflexivity | exact Hno].
Qed.

Lemma Update_readback (ticks : Z) (io : PumpIO) (s : SMXDevice) :
  accepts_readback s (CallUpdate ticks io) = true →
  m_bHaveConfig (Update ticks io s) = true.
Proof.
  cbn [accepts_readback]. intros Hyes.
  apply andb_true_iff in Hyes as [Hyes Hex].
  apply andb_true_iff in Hyes as [Hc Hf]. apply negb_true_iff in Hf.
  destruct (Update_before_dispatch ticks io s Hc Hf) as (t & -> & _ & Hq).
  rewrite <- Hq in Hex.
  apply HandlePackets_loop_readback; [reflexivity | exact Hex].
Qed.

Lemma call_no_readback (c : Call) (s : SMXDevice) :
  m_bHaveConfig s = false → accepts_readback s c = false →
  m_bHaveConfig (call s c) = false.
Proof.
  intros Hs Hno. destruct c; cbn [call].
  - exact Hs.
  - unfold CloseDevice.
    match goal with
    | |- context [CallUpdateCallback ?r ?t] =>
        destruct (CallUpdateCallback_readback r t) as [-> _]
    end.
    reflexivity.
  - exact Hs.
  - destruct (SendCommandLocked_readback cmd CallerCompletion s) as [Hh _].
    unfold SendCommand. congruence.
  - exact Hs.
  - unfold FactoryReset.
    destruct (SendCommandLocked_readback cmd_g FactoryResetReadback
                (SendCommandLocked cmd_f NoCompletion s)) as [-> _].
    destruct (SendCommandLocked_readback cmd_f NoCompletion s) as [-> _].
    exact Hs.
  - unfold ForceRecalibration.
    destruct (SendCommandLocked_readback cmd_C NoCompletion s) as [-> _].
    exact Hs.
  - exact Hs.
  - rewrite Update_no_readback by exact Hno. exact Hs.
Qed.

(** [m_bHaveConfig] stays false along a run that accepts no readback. *)
Lemma run_no_readback (calls : list Call) (s : SMXDevice) :
  m_bHaveConfig s = false → readback_free s calls = true →
  m_bHaveConfig (run s calls) = false.
Proof.
  revert s. induction calls as [| c calls IH]; intros s Hs Hfree.
  - exact Hs.
  - cbn [readback_free] in Hfree. apply andb_true_iff in Hfree as [Hc Hrest].
    apply negb_true_iff in Hc. unfold run. cbn [foldl].
    apply IH; [apply call_no_readback; assumption | exact Hrest].
Qed.

(** ** Configuration writes in flight *)

Lemma in_flight_ok_same (s s' : SMXDevice) :
  m_aPendingCommands (m_pConnection s') = m_aPendingCommands (m_pConnection s) →
  m_bSendingConfig s' = m_bSendingConfig s →
  in_flight_ok s → in_flight_ok s'.
Proof.
  unfold in_flight_ok, writes_in_flight. intros -> ->. auto.
Qed.

Lemma SendCommandLocked_in_flight (cmd : list byte) (k : Completion) (s : SMXDevice) :
  k ≠ SendConfigComplete →
  in_flight_ok s → in_flight_ok (SendCommandLocked cmd k s).
Proof.
  intros Hk. unfold in_flight_ok, writes_in_flight, SendCommandLocked.
  destruct (conn_IsConnected (m_pConnection s)); [| auto].
  cbn [set_emitted set_m_pConnection m_pConnection m_bSendingConfig
       conn_SendCommand m_aPendingCommands].
  rewrite filter_app, length_app.
  rewrite (filter_cons_False _ (cmd, k)) by exact Hk.
  rewrite filter_nil, Nat.add_0_r. auto.
Qed.

Lemma CallUpdateCallback_in_flight (r : SMXUpdateCallbackReason) (s : SMXDevice) :
  in_flight_ok s → in_flight_ok (CallUpdateCallback r s).
Proof.
  destruct (CallUpdateCallback_frame r s) as [d ->].
  apply in_flight_ok_same; reflexivity.
Qed.

Lemma CheckActive_in_flight (s : SMXDevice) :
  in_flight_ok s → in_flight_ok (CheckActive s).
Proof.
  intros Hs. unfold CheckActive. destruct (_ || _); [exact Hs |].
  do 2 (apply SendCommandLocked_in_flight; [discriminate |]).
  revert Hs. apply in_flight_ok_same; reflexivity.
Qed.

Lemma UpdateTestMode_in_flight (ticks : Z) (s : SMXDevice) :
  in_flight_ok s → in_flight_ok (UpdateTestMode ticks s).
Proof.
  intros Hs. unfold UpdateTestMode.
  destruct (_ =? _); [exact Hs |]. destruct (_ && _); [exact Hs |].
  apply SendCommandLocked_in_flight; [discriminate |].
  revert Hs. apply in_flight_ok_same; reflexivity.
Qed.

Lemma SendConfig_in_flight (s : SMXDevice) :
  in_flight_ok s → in_flight_ok (SendConfig s).
Proof.
  intros Hs.
  destruct (conn_IsConnected (m_pConnection s)) eqn:Hc;
    [| rewrite SendConfig_idle by auto; exact Hs].
  destruct (m_bHaveConfig s) eqn:Hh;
    [| rewrite SendConfig_idle by auto; exact Hs].
  destruct (m_bSendConfig s) eqn:Hp;
    [| rewrite SendConfig_idle by auto; exact Hs].
  destruct (m_bSendingConfig s) eqn:Hf;
    [rewrite SendConfig_idle by auto; exact Hs |].
  rewrite SendConfig_writes by assumption.
  unfold in_flight_ok, writes_in_flight in *. rewrite Hf in Hs.
  cbn [set_emitted set_m_pConnection set_config set_m_bSendConfig
       set_m_bSendingConfig m_pConnection m_bSendingConfig
       conn_SendCommand m_aPendingCommands].
  rewrite !filter_app, !length_app.
  rewrite (filter_cons_True _ (write_command (wanted_config s), SendConfigComplete))
    by reflexivity.
  rewrite (filter_cons_False _ (cmd_g, NoCompletion)) by discriminate.
  rewrite !filter_nil. cbn [length]. lia.
Qed.

Lemma run_completions_sending (ks : list Completion) (s : SMXDevice) :
  let s' := foldl (λ s k, run_completion k s) s ks in
  m_pConnection s' = m_pConnection s
  ∧ m_bSendingConfig s'
    = (if decide (SendConfigComplete ∈ ks) then false else m_bSendingConfig s).
Proof.
  cbv zeta. revert s. induction ks as [| k ks IH]; intros s.
  - cbn [foldl]. split; [reflexivity |].
    destruct (decide _) as [Hin | _]; [| reflexivity].
    apply elem_of_nil in Hin. contradiction.
  - cbn [foldl]. destruct (IH (run_completion k s)) as [-> ->].
    destruct k; cbn [run_completion].
    + split; [reflexivity |].
      repeat destruct (decide _) as [? | ?]; try reflexivity;
        exfalso; rewrite elem_of_cons in *; intuition congruence.
    + split; [reflexivity |].
      repeat destruct (decide _) as [? | ?]; try reflexivity;
        exfalso; rewrite elem_of_cons in *; intuition congruence.
    + destruct (CallUpdateCallback_frame
                  SMXUpdateCallback_FactoryResetCommandComplete s) as [d ->].
      split; [reflexivity |].
      repeat destruct (decide _) as [? | ?]; try reflexivity;
        exfalso; rewrite elem_of_cons in *; intuition congruence.
    + split; [reflexivity |].
      repeat destruct (decide _) as [? | ?]; try reflexivity;
        exfalso; rewrite elem_of_cons in *; intuition congruence.
Qed.

Lemma filter_writes_elem (l : list (list byte * Completion)) :
  SendConfigComplete ∈ l.*2 →
  (1 <= length (filter (λ e, e.2 = SendConfigComplete) l))%nat.
Proof.
  induction l as [| [cmd k] l IH]; intros Hin.
  - apply elem_of_nil in Hin. contradiction.
  - cbn [fmap list_fmap snd] in Hin. apply elem_of_cons in Hin as [Heq | Hin].
    + rewrite filter_cons_True by (symmetry; exact Heq). cbn [length]. lia.
    + specialize (IH Hin).
      destruct (decide (k = SendConfigComplete)) as [Hk | Hk].
      * rewrite filter_cons_True by exact Hk. cbn [length]. lia.
      * rewrite filter_cons_False by exact Hk. exact IH.
Qed.

(** The transport's pump followed by the completions it reports. *)
Lemma pump_in_flight (io : PumpIO) (s : SMXDevice) :
  in_flight_ok s →
  in_flight_ok
    (foldl (λ s k, run_completion k s)
       (set_m_pConnection (conn_Update io (m_pConnection s)).1 s)
       (conn_Update io (m_pConnection s)).2).
Proof.
  unfold in_flight_ok, writes_in_flight. intros Hs.
  match goal with
  | |- context [foldl ?f ?t0 ?ks] =>
      destruct (run_completions_sending ks t0) as [-> ->]
  end.
  cbn [conn_Update fst snd set_m_pConnection m_pConnection
       m_aPendingCommands m_bSendingConfig].
  set (pending := m_aPendingCommands (m_pConnection s)) in *.
  set (P := λ e : list byte * Completion, e.2 = SendConfigComplete) in *.
  assert (length (filter P pending)
          = length (filter P (take (io_sent io) pending))
            + length (filter P (drop (io_sent io) pending)))%nat as Hsplit.
  { rewrite <- (take_drop (io_sent io) pending) at 1.
    rewrite filter_app, length_app. reflexivity. }
  destruct (decide _) as [Hin | Hnot].
  - apply filter_writes_elem in Hin. fold P in Hin.
    destruct (m_bSendingConfig s); lia.
  - lia.
Qed.

Lemma Update_in_flight (ticks : Z) (io : PumpIO) (s : SMXDevice) :
  in_flight_ok s → in_flight_ok (Update ticks io s).
Proof.
  intros Hs. unfold Update.
  destruct (conn_IsConnected (m_pConnection s)); [| exact Hs].
  cbn [negb].
  set (pre := UpdateTestMode ticks (SendConfig (CheckActive s))).
  assert (in_flight_ok pre) as Hpre.
  { apply UpdateTestMode_in_flight, SendConfig_in_flight,
      CheckActive_in_flight, Hs. }
  pose proof (pump_in_flight io pre Hpre) as Hpump.
  destruct (conn_Update io (m_pConnection pre)) as [c completed].
  cbn [fst snd] in Hpump.
  set (t1 := foldl _ _ completed) in *.
  destruct (io_fail io); [exact Hpump |].
  match goal with
  | |- in_flight_ok (HandlePackets ?t) =>
      assert (in_flight_ok t) as Ht
        by (destruct (negb _);
            [apply CallUpdateCallback_in_flight |]; exact Hpump);
      destruct (HandlePackets_loop_frame _ t eq_refl)
        as (Hconn & _ & Hflag & _)
  end.
  revert Ht. apply in_flight_ok_same; [| exact Hflag].
  unfold HandlePackets. rewrite Hconn. reflexivity.
Qed.

Lemma call_in_flight (c : Call) (s : SMXDevice) :
  in_flight_ok s → in_flight_ok (call s c).
Proof.
  intros Hs. destruct c; cbn [call].
  - revert Hs. apply in_flight_ok_same; [| reflexivity].
    unfold OpenDeviceHandle, conn_Open. destruct ok; reflexivity.
  - unfold CloseDevice. apply CallUpdateCallback_in_flight.
    unfold in_flight_ok, writes_in_flight. cbn. lia.
  - revert Hs. apply in_flight_ok_same; reflexivity.
  - apply SendCommandLocked_in_flight; [discriminate | exact Hs].
  - revert Hs. apply in_flight_ok_same; reflexivity.
  - unfold FactoryReset.
    do 2 (apply SendCommandLocked_in_flight; [discriminate |]). exact Hs.
  - apply SendCommandLocked_in_flight; [discriminate | exact Hs].
  - revert Hs. apply in_flight_ok_same; reflexivity.
  - apply Update_in_flight, Hs.
Qed.

Lemma run_in_flight (calls : list Call) (s : SMXDevice) :
  in_flight_ok s → in_flight_ok (run s calls).
Proof.
  revert s. induction calls as [| c calls IH]; intros s Hs; [exact Hs |].
  unfold run. cbn [foldl]. apply IH, call_in_flight, Hs.
Qed.

Lemma in_flight_at_most_one (s : SMXDevice) :
  in_flight_ok s → (writes_in_flight s <= 1)%nat.
Proof. unfold in_flight_ok. destruct (m_bSendingConfig s); lia. Qed.

(** ** The steps of a cycle run with the transport open *)

Lemma Update_not_connected (ticks : Z) (io : PumpIO) (s : SMXDevice) :
  conn_IsConnected (m_pConnection s) = false → Update ticks io s = s.
Proof. intros Hc. unfold Update. rewrite Hc. reflexivity. Qed.

Lemma SendCommandLocked_connected (cmd : list byte) (k : Completion)
    (s : SMXDevice) :
  conn_IsConnected (m_pConnection (SendCommandLocked cmd k s))
  = conn_IsConnected (m_pConnection s).
Proof.
  unfold SendCommandLocked.
  destruct (conn_IsConnected (m_pConnection s)) eqn:Hc; exact Hc.
Qed.

Lemma CheckActive_connected (s : SMXDevice) :
  conn_IsConnected (m_pConnection (CheckActive s))
  = conn_IsConnected (m_pConnection s).
Proof.
  unfold CheckActive. destruct (_ || _); [reflexivity |].
  rewrite !SendCommandLocked_connected. reflexivity.
Qed.

Lemma SendConfig_connected (s : SMXDevice) :
  conn_IsConnected (m_pConnection (SendConfig s))
  = conn_IsConnected (m_pConnection s).
Proof.
  unfold SendConfig. destruct (_ || _); [reflexivity |].
  destruct (negb _); [reflexivity |].
  rewrite !SendCommandLocked_connected.
  cbn [set_config set_m_bSendConfig m_pConnection].
  rewrite !SendCommandLocked_connected. reflexivity.
Qed.

(** ** The properties of the configuration sync *)

Lemma byte_Z_Z_byte (x : Z) : byte_Z (Z_byte x) = x mod 256.
Proof.
  unfold byte_Z, Z_byte.
  pose proof (Z.mod_pos_bound x 256 ltac:(lia)) as Hx.
  destruct (Byte.of_N (Z.to_N (x mod 256))) as [b |] eqn:Hb.
  - apply Byte.to_of_N in Hb. rewrite Hb. lia.
  - apply Byte.of_N_None_iff in Hb. lia.
Qed.

(** C1. The per-cycle configuration step [SendConfig] does nothing when
    [m_bHaveConfig] is false, when no write is pending, or when a write is
    in flight. Otherwise (the cycle runs it only with the transport open:
    [Update] does nothing without, and the step before it leaves the
    transport as it is) it emits exactly one write command, ["w"], the length byte and the bytes
    of [wanted_config], with a completion that clears [m_bSendingConfig];
    it sets [m_bSendingConfig], sets [config] to [wanted_config] and clears
    [m_bSendConfig] at once; and it emits one readback request after the
    write. No run of calls leaves more than one configuration write in
    flight, and two [SetConfig] calls made before the write in flight
    completes produce no write until it completes and then exactly one
    write, carrying the value of the second call. *)
Theorem SendConfig_one_write_in_flight (s : SMXDevice) (a b : SMXConfig)
    (calls : list Call) (ticks : Z) (io : PumpIO) :
  (m_bHaveConfig s = false ∨ m_bSendConfig s = false
   ∨ m_bSendingConfig s = true → SendConfig s = s)
  ∧ (conn_IsConnected (m_pConnection s) = false → Update ticks io s = s)
  ∧ conn_IsConnected (m_pConnection (CheckActive s))
    = conn_IsConnected (m_pConnection s)
  ∧ (conn_IsConnected (m_pConnection s) = true → m_bHaveConfig s = true →
     m_bSendConfig s = true → m_bSendingConfig s = false →
     let s' := SendConfig s in
     emitted s'
     = emitted s
       ++ [x77 :: Z_byte (Z.of_nat sizeof_SMXConfig) :: wanted_config s; cmd_g]
     ∧ m_aPendingCommands (m_pConnection s')
       = m_aPendingCommands (m_pConnection s)
         ++ [(write_command (wanted_config s), SendConfigComplete);
             (cmd_g, NoCompletion)]
     ∧ (length (wanted_config s) = sizeof_SMXConfig →
        (sizeof_SMXConfig < 256)%nat →
        byte_Z (Z_byte (Z.of_nat sizeof_SMXConfig))
        = Z.of_nat (length (wanted_config s)))
     ∧ m_bSendingConfig s' = true
     ∧ m_bSendingConfig (run_completion SendConfigComplete s') = false
     ∧ config s' = wanted_config s
     ∧ wanted_config s' = wanted_config s
     ∧ m_bSendConfig s' = false
     ∧ m_bHaveConfig s' = true)
  ∧ (writes_in_flight (run SMXDevice_new calls) <= 1)%nat
  ∧ (in_flight_ok s → (writes_in_flight (run s calls) <= 1)%nat)
  ∧ (conn_IsConnected (m_pConnection s) = true → m_bHaveConfig s = true →
     m_bSendingConfig s = true →
     let s2 := SendConfig (SetConfig b (SendConfig (SetConfig a s))) in
     let s3 := SendConfig (run_completion SendConfigComplete s2) in
     emitted s2 = emitted s
     ∧ emitted s3 = emitted s ++ [write_command b; cmd_g]
     ∧ config s3 = b)
  ∧ (conn_IsConnected (m_pConnection s) = true → m_bHaveConfig s = true →
     m_bSendingConfig s = false →
     emitted (SendConfig (SetConfig b (SetConfig a s)))
     = emitted s ++ [write_command b; cmd_g]).
Proof.
  split; [| split; [| split; [| split; [| split; [| split; [| split]]]]]].
  - intros H. apply SendConfig_idle. tauto.
  - apply Update_not_connected.
  - apply CheckActive_connected.
  - intros Hc Hh Hp Hf s'. subst s'. rewrite SendConfig_writes by assumption.
    split; [reflexivity |].
    split.
    { cbn [set_emitted set_m_pConnection m_pConnection conn_SendCommand
           m_aPendingCommands].
      rewrite <- app_assoc. reflexivity. }
    split; [| repeat split; first [reflexivity | exact Hh]].
    intros Hlen Hsmall. rewrite byte_Z_Z_byte, Z.mod_small; lia.
  - apply in_flight_at_most_one, run_in_flight.
    unfold in_flight_ok, writes_in_flight. cbn. lia.
  - intros Hs. apply in_flight_at_most_one, run_in_flight, Hs.
  - intros Hc Hh Hf s2 s3.
    assert (s2 = SetConfig b (SetConfig a s)) as Hs2.
    { subst s2. rewrite (SendConfig_idle (SetConfig a s)) by auto.
      apply SendConfig_idle. auto. }
    subst s3. rewrite Hs2.
    rewrite SendConfig_writes by (first [exact Hc | exact Hh | reflexivity]).
    repeat split; reflexivity.
  - intros Hc Hh Hf.
    rewrite SendConfig_writes by (first [exact Hc | exact Hh | exact Hf | reflexivity]).
    reflexivity.
Qed.

(** C2. For every configuration value [c], [SetConfig c] stores [c] in
    [wanted_config] and sets [m_bSendConfig] whatever the state, also when
    [c] is the confirmed [config] and nothing is pending: the next step
    then still writes [c] and reads it back. [SetConfig] itself sends
    nothing. [GetConfig] returns [wanted_config] while [m_bSendConfig] is
    set and [config] otherwise; its boolean is [m_bHaveConfig], which is
    false on a new device and after [CloseDevice], stays false along every
    run of calls in which no configuration readback is accepted, and is true
    after a cycle that accepts one. *)
Theorem SetConfig_GetConfig (c : SMXConfig) (s : SMXDevice)
    (calls : list Call) (ticks : Z) (io : PumpIO) :
  let s' := SetConfig c s in
  wanted_config s' = c
  ∧ m_bSendConfig s' = true
  ∧ emitted s' = emitted s
  ∧ m_pConnection s' = m_pConnection s
  ∧ config s' = config s
  ∧ m_bHaveConfig s' = m_bHaveConfig s
  ∧ m_bSendingConfig s' = m_bSendingConfig s
  ∧ (c = config s → m_bSendConfig s = false →
     conn_IsConnected (m_pConnection s) = true → m_bHaveConfig s = true →
     m_bSendingConfig s = false →
     emitted (SendConfig s') = emitted s ++ [write_command c; cmd_g])
  ∧ (GetConfig s').1 = c
  ∧ (m_bSendConfig s = true → (GetConfig s).1 = wanted_config s)
  ∧ (m_bSendConfig s = false → (GetConfig s).1 = config s)
  ∧ (GetConfig s).2 = m_bHaveConfig s
  ∧ (GetConfig SMXDevice_new).2 = false
  ∧ (GetConfig (CloseDevice s)).2 = false
  ∧ (m_bHaveConfig s = false → readback_free s calls = true →
     (GetConfig (run s calls)).2 = false)
  ∧ (accepts_readback s (CallUpdate ticks io) = true →
     (GetConfig (Update ticks io s)).2 = true).
Proof.
  cbv zeta. repeat (split; [reflexivity |]).
  split; [| split; [reflexivity |]].
  { intros _ _ Hc Hh Hf.
    rewrite SendConfig_writes by (first [exact Hc | exact Hh | exact Hf | reflexivity]).
    reflexivity. }
  split; [intros H; unfold GetConfig; rewrite H; reflexivity |].
  split; [intros H; unfold GetConfig; rewrite H; reflexivity |].
  split; [reflexivity |]. split; [reflexivity |].
  split; [| split].
  - cbn [GetConfig snd]. unfold CloseDevice.
    match goal with
    | |- context [CallUpdateCallback ?r ?t] =>
        destruct (CallUpdateCallback_readback r t) as [-> _]
    end.
    reflexivity.
  - intros Hs Hfree. cbn [GetConfig snd]. apply run_no_readback; assumption.
  - intros Hacc. cbn [GetConfig snd]. apply Update_readback. exact Hacc.
Qed.

(** ** The sensor-test request step *)

(** C6. While the sensor-test mode is not Off, [UpdateTestMode] sends
    nothing when a request is outstanding and fewer than 2000 ms have
    elapsed since it was sent; otherwise, when no request is outstanding or
    2000 ms or more have elapsed (as at tick 2001 for a request sent at tick
    0), it sends exactly one request tagged with the mode and records the
    mode as outstanding together with the time of sending (the cycle runs
    the step only with the transport open). The elapsed time is the
    difference of the tick counts as a 32-bit unsigned number. *)
Theorem UpdateTestMode_request (ticks : Z) (s : SMXDevice) :
  m_SensorTestMode s ≠ SensorTestMode_Off →
  let now := to_uint32 ticks in
  let elapsed := to_uint32 (now - m_SentSensorTestModeRequestAtTicks s) in
  (m_WaitingForSensorTestModeResponse s ≠ SensorTestMode_Off →
   elapsed < 2000 → UpdateTestMode ticks s = s)
  ∧ (m_WaitingForSensorTestModeResponse s = SensorTestMode_Off
     ∨ 2000 <= elapsed →
     let s' := UpdateTestMode ticks s in
     m_WaitingForSensorTestModeResponse s' = m_SensorTestMode s
     ∧ m_SentSensorTestModeRequestAtTicks s' = now
     ∧ m_SensorTestMode s' = m_SensorTestMode s
     ∧ (conn_IsConnected (m_pConnection s) = true →
        emitted s'
        = emitted s ++ [[x79; Z_byte (m_SensorTestMode s); x0a]]
        ∧ m_aPendingCommands (m_pConnection s')
          = m_aPendingCommands (m_pConnection s)
            ++ [([x79; Z_byte (m_SensorTestMode s); x0a], NoCompletion)]))
  ∧ (0 <= m_SentSensorTestModeRequestAtTicks s <= ticks → ticks < 2 ^ 32 →
     elapsed = ticks - m_SentSensorTestModeRequestAtTicks s)
  ∧ (m_SentSensorTestModeRequestAtTicks s = 0 → ticks = 2001 →
     conn_IsConnected (m_pConnection s) = true →
     emitted (UpdateTestMode ticks s)
     = emitted s ++ [[x79; Z_byte (m_SensorTestMode s); x0a]])
  ∧ (∀ t, conn_IsConnected (m_pConnection (SendConfig (CheckActive t)))
          = conn_IsConnected (m_pConnection t)).
Proof.
  intros Hmode now elapsed.
  assert (m_WaitingForSensorTestModeResponse s = SensorTestMode_Off
          ∨ 2000 <= elapsed →
          UpdateTestMode ticks s
          = SendCommandLocked (test_mode_command (m_SensorTestMode s))
              NoCompletion
              (set_m_SentSensorTestModeRequestAtTicks now
                 (set_m_WaitingForSensorTestModeResponse
                    (m_SensorTestMode s) s))) as Hsend.
  { intros Hdue. unfold UpdateTestMode. fold now. fold elapsed.
    destruct (Z.eqb_spec (m_SensorTestMode s) SensorTestMode_Off)
      as [Heq | _]; [contradiction |].
    destruct (Z.eqb_spec (m_WaitingForSensorTestModeResponse s)
                SensorTestMode_Off) as [Hoff | Hwait]; [reflexivity |].
    destruct (Z.ltb_spec elapsed 2000) as [Hlt | Hge]; [| reflexivity].
    destruct Hdue as [Hoff | Hge]; [contradiction | lia]. }
  split; [| split; [| split; [| split]]].
  - intros Hwait Hlt. unfold UpdateTestMode. fold now. fold elapsed.
    destruct (Z.eqb_spec (m_SensorTestMode s) SensorTestMode_Off)
      as [Heq | _]; [contradiction |].
    destruct (Z.eqb_spec (m_WaitingForSensorTestModeResponse s)
                SensorTestMode_Off) as [Hoff | _]; [contradiction |].
    destruct (Z.ltb_spec elapsed 2000) as [_ | Hge]; [reflexivity | lia].
  - intros Hdue s'. subst s'. rewrite (Hsend Hdue).
    unfold SendCommandLocked.
    destruct (conn_IsConnected _) eqn:Hc.
    + cbn [set_m_SentSensorTestModeRequestAtTicks
           set_m_WaitingForSensorTestModeResponse m_pConnection] in Hc.
      do 3 (split; [reflexivity |]). intros _. split; reflexivity.
    + cbn [set_m_SentSensorTestModeRequestAtTicks
           set_m_WaitingForSensorTestModeResponse m_pConnection] in Hc.
      do 3 (split; [reflexivity |]). intros Hc'. congruence.
  - intros Hsent Hticks. subst elapsed now. unfold to_uint32.
    rewrite (Z.mod_small ticks) by lia. apply Z.mod_small. lia.
  - intros Hsent Hticks Hc.
    rewrite Hsend.
    + unfold SendCommandLocked.
      cbn [set_m_SentSensorTestModeRequestAtTicks
           set_m_WaitingForSensorTestModeResponse m_pConnection].
      rewrite Hc. reflexivity.
    + right. subst elapsed now. rewrite Hsent, Hticks. vm_compute.
      discriminate.
  - intros t. rewrite SendConfig_connected. apply CheckActive_connected.
Qed.

(** ** Malformed configuration readbacks *)

Lemma dispatch_packet_malformed (bad : list byte) (s : SMXDevice) :
  config_packet_malformed bad = true →
  dispatch_packet bad s = Log LogInvalidConfigurationPacket s.
Proof.
  intros Hbad. rewrite dispatch_packet_cases.
  assert (config_packet_malformed bad
          = match bad with
            | [] => false
            | tag :: _ => Byte.eqb tag x67 && negb (config_packet_ok bad)
            end) as Hcases
    by (destruct bad as [| tag rest]; [reflexivity |];
        destruct tag; reflexivity).
  rewrite Hcases in Hbad. destruct bad as [| tag rest]; [discriminate |].
  apply andb_true_iff in Hbad as [Hg Hnot].
  apply byte_dec_bl in Hg. subst tag. cbn [Byte.eqb].
  apply negb_true_iff in Hnot. rewrite config_packet_ok_cases in Hnot.
  apply handle_config_packet_bad. exact Hnot.
Qed.

(** C7, as the code has it. A configuration readback whose declared length
    exceeds the bytes of its packet is logged as a communication error and
    dropped, this packet only: the dispatch loop goes on with the packets
    queued behind it, and it always ends with the queue empty. *)
Theorem malformed_config_packet_dropped (bad : list byte)
    (rest : list (list byte)) (s : SMXDevice) :
  config_packet_malformed bad = true →
  dispatch_packet bad s = Log LogInvalidConfigurationPacket s
  ∧ HandlePackets (with_packets (bad :: rest) s)
    = HandlePackets (Log LogInvalidConfigurationPacket (with_packets rest s))
  ∧ m_sReadBuffers
      (m_pConnection (HandlePackets (with_packets (bad :: rest) s))) = [].
Proof.
  intros Hbad. split; [apply dispatch_packet_malformed, Hbad |]. split.
  - rewrite HandlePackets_cons, dispatch_packet_malformed by exact Hbad.
    reflexivity.
  - unfold HandlePackets.
    destruct (HandlePackets_loop_frame _ (with_packets (bad :: rest) s) eq_refl)
      as (-> & _).
    reflexivity.
Qed.

(** ** Closing the device *)

(** C8. [CloseDevice] sets [m_bHaveConfig] and [m_bSendConfig] to false and
    calls the update callback with reason Updated. Afterwards [IsConnected]
    is false and [GetConfig] reports no configuration, and both stay so
    along every run of calls in which no configuration readback is
    accepted; a cycle that accepts one makes [GetConfig] report a
    configuration again. [IsConnected] is the conjunction of the transport
    being connected with device info and [m_bHaveConfig]. *)
Theorem CloseDevice_resets_readiness (s t : SMXDevice) (calls : list Call)
    (ticks : Z) (io : PumpIO) :
  let s' := CloseDevice s in
  m_bHaveConfig s' = false
  ∧ m_bSendConfig s' = false
  ∧ s' = CallUpdateCallback SMXUpdateCallback_Updated
           (set_m_bSendConfig false
              (set_m_bHaveConfig false
                 (set_m_pConnection (conn_Close (m_pConnection s)) s)))
  ∧ (m_pUpdateCallback s = true →
     ∃ pad, delivered s' = delivered s ++ [(pad, SMXUpdateCallback_Updated)])
  ∧ (m_pUpdateCallback s = false → delivered s' = delivered s)
  ∧ IsConnected s' = false
  ∧ (GetConfig s').2 = false
  ∧ (readback_free s' calls = true →
     IsConnected (run s' calls) = false
     ∧ (GetConfig (run s' calls)).2 = false)
  ∧ (accepts_readback t (CallUpdate ticks io) = true →
     (GetConfig (Update ticks io t)).2 = true)
  ∧ IsConnected t
    = conn_IsConnectedWithDeviceInfo (m_pConnection t) && m_bHaveConfig t.
Proof.
  intros s'.
  assert (m_bHaveConfig s' = false) as Hh.
  { subst s'. unfold CloseDevice.
    match goal with
    | |- context [CallUpdateCallback ?r ?u] =>
        destruct (CallUpdateCallback_readback r u) as [-> _]
    end.
    reflexivity. }
  split; [exact Hh |]. split.
  { subst s'. unfold CloseDevice.
    match goal with
    | |- context [CallUpdateCallback ?r ?u] =>
        destruct (CallUpdateCallback_frame r u) as [d ->]
    end.
    reflexivity. }
  split; [reflexivity |]. split; [| split].
  - intros Hcb. subst s'. unfold CloseDevice, CallUpdateCallback.
    cbn [set_m_bSendConfig set_m_bHaveConfig set_m_pConnection
         m_pUpdateCallback]. rewrite Hcb. cbn [negb].
    eexists. reflexivity.
  - intros Hcb. subst s'. unfold CloseDevice, CallUpdateCallback.
    cbn [set_m_bSendConfig set_m_bHaveConfig set_m_pConnection
         m_pUpdateCallback]. rewrite Hcb. reflexivity.
  - split; [| split; [| split; [| split]]].
    + unfold IsConnected, IsConnectedLocked. rewrite Hh. apply andb_false_r.
    + exact Hh.
    + intros Hfree.
      pose proof (run_no_readback calls s' Hh Hfree) as Hrun.
      split; [| exact Hrun].
      unfold IsConnected, IsConnectedLocked. rewrite Hrun. apply andb_false_r.
    + intros Hacc. apply Update_readback. exact Hacc.
    + reflexivity.
Qed.

(** C9, as the code has it. [CloseDevice] keeps the sensor-test mode, and
    it keeps the rest of the sensor-test state as well: the outstanding
    request and the time it was sent, the have-data flag and the stored
    data are what they were, so [GetTestData] answers after the close as it
    did before. *)
Theorem CloseDevice_keeps_sensor_test_state (s : SMXDevice) :
  let s' := CloseDevice s in
  m_SensorTestMode s' = m_SensorTestMode s
  ∧ m_WaitingForSensorTestModeResponse s'
    = m_WaitingForSensorTestModeResponse s
  ∧ m_SentSensorTestModeRequestAtTicks s'
    = m_SentSensorTestModeRequestAtTicks s
  ∧ m_HaveSensorTestModeData s' = m_HaveSensorTestModeData s
  ∧ m_SensorTestData s' = m_SensorTestData s
  ∧ GetTestData s' = GetTestData s.
Proof.
  cbv zeta. unfold CloseDevice.
  match goal with
  | |- context [CallUpdateCallback ?r ?u] =>
      destruct (CallUpdateCallback_frame r u) as [d ->]
  end.
  repeat split; reflexivity.
Qed.

(** * Further properties of the device *)

(** ** Members and steps *)

(** [s'] has the configuration members of [s]. *)
Definition config_eq (s s' : SMXDevice) : Prop :=
  config s' = config s
  ∧ wanted_config s' = wanted_config s
  ∧ m_bHaveConfig s' = m_bHaveConfig s
  ∧ m_bSendConfig s' = m_bSendConfig s
  ∧ m_bSendingConfig s' = m_bSendingConfig s.

(** [s'] has the sensor-test members of [s]. *)
Definition sensor_eq (s s' : SMXDevice) : Prop :=
  m_SensorTestMode s' = m_SensorTestMode s
  ∧ m_WaitingForSensorTestModeResponse s'
    = m_WaitingForSensorTestModeResponse s
  ∧ m_SentSensorTestModeRequestAtTicks s'
    = m_SentSensorTestModeRequestAtTicks s
  ∧ m_HaveSensorTestModeData s' = m_HaveSensorTestModeData s
  ∧ m_SensorTestData s' = m_SensorTestData s.

(** A property of the configuration members alone, of the sensor-test
    members alone. *)
Definition config_only (P : SMXDevice → Prop) : Prop :=
  ∀ s s', config_eq s s' → P s → P s'.

Definition sensor_only (P : SMXDevice → Prop) : Prop :=
  ∀ s s', sensor_eq s s' → P s → P s'.

(** A packet the dispatcher has no case for: an empty one, or one whose
    tag is neither ['y'] nor ['g']. *)
Definition ignored_packet (buf : list byte) : bool :=
  match buf with
  | [] => true
  | x79 :: _ => false
  | x67 :: _ => false
  | _ :: _ => true
  end.

(** The tests a sensor-test response passes before its data is stored. *)
Definition response_accepted (buf : list byte) (s : SMXDevice) : bool :=
  response_complete buf
  && negb (m_WaitingForSensorTestModeResponse s =? SensorTestMode_Off)
  && (response_mode buf =? m_WaitingForSensorTestModeResponse s)
  && (response_mode buf =? m_SensorTestMode s).

(** The output after the four [memset]s. *)
Definition blank_output : SMXSensorTestModeData :=
  {| bHaveDataFromPanel := replicate 9 false;
     sensorLevel := replicate 9 (replicate 4 0);
     bBadSensorInput := replicate 9 (replicate 4 false);
     iDIPSwitchPerPanel := replicate 9 0 |}.

Lemma config_eq_refl (s : SMXDevice) : config_eq s s.
Proof. repeat split. Qed.

Lemma config_eq_trans (s1 s2 s3 : SMXDevice) :
  config_eq s1 s2 → config_eq s2 s3 → config_eq s1 s3.
Proof.
  intros (A1 & A2 & A3 & A4 & A5) (B1 & B2 & B3 & B4 & B5).
  repeat split; congruence.
Qed.

Lemma sensor_eq_refl (s : SMXDevice) : sensor_eq s s.
Proof. repeat split. Qed.

Lemma sensor_eq_trans (s1 s2 s3 : SMXDevice) :
  sensor_eq s1 s2 → sensor_eq s2 s3 → sensor_eq s1 s3.
Proof.
  intros (A1 & A2 & A3 & A4 & A5) (B1 & B2 & B3 & B4 & B5).
  repeat split; congruence.
Qed.

Lemma SendCommandLocked_members (cmd : list byte) (k : Completion)
    (s : SMXDevice) :
  config_eq s (SendCommandLocked cmd k s)
  ∧ sensor_eq s (SendCommandLocked cmd k s).
Proof.
  unfold SendCommandLocked.
  destruct (conn_IsConnected (m_pConnection s)); repeat split.
Qed.

Lemma CallUpdateCallback_members (r : SMXUpdateCallbackReason) (s : SMXDevice) :
  config_eq s (CallUpdateCallback r s) ∧ sensor_eq s (CallUpdateCallback r s).
Proof.
  destruct (CallUpdateCallback_frame r s) as [d ->]. repeat split.
Qed.

Lemma CheckActive_members (s : SMXDevice) :
  config_eq s (CheckActive s) ∧ sensor_eq s (CheckActive s).
Proof.
  unfold CheckActive. destruct (_ || _); [repeat split |].
  unfold SendCommandLocked. repeat case_match; repeat split.
Qed.

Lemma UpdateTestMode_config (ticks : Z) (s : SMXDevice) :
  config_eq s (UpdateTestMode ticks s).
Proof.
  unfold UpdateTestMode, SendCommandLocked. repeat case_match; repeat split.
Qed.

Lemma HandleSensorTestDataResponse_config (buf : list byte) (s : SMXDevice) :
  config_eq s (HandleSensorTestDataResponse buf s).
Proof.
  destruct (HandleSensorTestDataResponse_frame buf s)
    as (_ & H1 & H2 & H3 & H4 & H5 & _).
  repeat split; assumption.
Qed.

(** The two outcomes of [SendConfig]. *)
Lemma SendConfig_cases (s : SMXDevice) :
  SendConfig s = s
  ∨ (conn_IsConnected (m_pConnection s) = true ∧ m_bHaveConfig s = true
     ∧ m_bSendConfig s = true ∧ m_bSendingConfig s = false
     ∧ SendConfig s
       = set_emitted (emitted s ++ [write_command (wanted_config s); cmd_g])
           (set_m_pConnection
              (conn_SendCommand cmd_g NoCompletion
                 (conn_SendCommand (write_command (wanted_config s))
                    SendConfigComplete (m_pConnection s)))
              (set_config (wanted_config s)
                 (set_m_bSendConfig false (set_m_bSendingConfig true s))))).
Proof.
  destruct (conn_IsConnected (m_pConnection s)) eqn:Hc;
    [| left; apply SendConfig_idle; auto].
  destruct (m_bHaveConfig s) eqn:Hh; [| left; apply SendConfig_idle; auto].
  destruct (m_bSendConfig s) eqn:Hp; [| left; apply SendConfig_idle; auto].
  destruct (m_bSendingConfig s) eqn:Hf; [left; apply SendConfig_idle; auto |].
  right. repeat (split; [reflexivity |]).
  apply SendConfig_writes; assumption.
Qed.

Lemma SendConfig_sensor (s : SMXDevice) : sensor_eq s (SendConfig s).
Proof.
  destruct (SendConfig_cases s) as [-> | (_ & _ & _ & _ & ->)]; repeat split.
Qed.

Lemma handle_config_packet_sensor (buf : list byte) (s : SMXDevice) :
  sensor_eq s (handle_config_packet buf s).
Proof.
  unfold handle_config_packet, CallUpdateCallback, Log.
  repeat case_match; repeat split.
Qed.

Lemma run_completion_sensor (k : Completion) (s : SMXDevice) :
  sensor_eq s (run_completion k s).
Proof.
  destruct k; cbn [run_completion]; try (repeat split; fail).
  apply CallUpdateCallback_members.
Qed.

(** ** Properties kept by the dispatch loop and by a cycle *)

Lemma dispatch_packet_ignored (buf : list byte) (s : SMXDevice) :
  ignored_packet buf = true → dispatch_packet buf s = s.
Proof.
  destruct buf as [| tag rest]; [reflexivity |].
  destruct tag; cbn [ignored_packet]; intros H;
    first [reflexivity | discriminate H].
Qed.

Lemma HandlePackets_loop_preserves (P : SMXDevice → Prop)
    (Q : list byte → bool) (queue : list (list byte)) (s : SMXDevice) :
  (∀ q t, P t → P (with_packets q t)) →
  (∀ buf t, Q buf = true → P t → P (dispatch_packet buf t)) →
  m_sReadBuffers (m_pConnection s) = queue →
  forallb Q queue = true →
  P s → P (HandlePackets_loop queue s).
Proof.
  intros Hpk Hd. revert s.
  induction queue as [| buf rest IH]; intros s Hq HQ Hs; [exact Hs |].
  cbn [forallb] in HQ. apply andb_true_iff in HQ as [Hbuf Hrest].
  destruct (HandlePackets_loop_step buf rest s Hq) as [-> Hq'].
  apply IH; [exact Hq' | exact Hrest |].
  apply Hd; [exact Hbuf |]. apply Hpk, Hs.
Qed.

Lemma run_completions_preserves (P : SMXDevice → Prop)
    (ks : list Completion) (s : SMXDevice) :
  (∀ k t, P t → P (run_completion k t)) →
  P s → P (foldl (λ s k, run_completion k s) s ks).
Proof.
  intros Hk. revert s. induction ks as [| k ks IH]; intros s Hs; [exact Hs |].
  cbn [foldl]. apply IH, Hk, Hs.
Qed.

(** A property kept by every step of a cycle is kept by the cycle, when the
    packets it dispatches are among those ([Q]) that keep it. *)
Lemma Update_preserves_pump (P : SMXDevice → Prop) (Q : list byte → bool)
    (ticks : Z) (io : PumpIO) (s : SMXDevice) :
  (∀ q t, P t → P (with_packets q t)) →
  (∀ t, P t → P (CallUpdateCallback SMXUpdateCallback_Updated t)) →
  (∀ t, P t → P (CheckActive t)) →
  (∀ t, P t → P (SendConfig t)) →
  (∀ t, P t → P (UpdateTestMode ticks t)) →
  (∀ t, P t →
     P (foldl (λ s k, run_completion k s)
          (set_m_pConnection (conn_Update io (m_pConnection t)).1 t)
          (conn_Update io (m_pConnection t)).2)) →
  (∀ buf t, Q buf = true → P t → P (dispatch_packet buf t)) →
  (conn_IsConnected (m_pConnection s) = true → io_fail io = false →
   forallb Q (m_sReadBuffers (m_pConnection s) ++ io_received io) = true) →
  P s → P (Update ticks io s).
Proof.
  intros Hpk Hcb Hca Hsc Hut Hpump Hd HQ Hs.
  destruct (conn_IsConnected (m_pConnection s)) eqn:Hc;
    [| rewrite Update_not_connected by exact Hc; exact Hs].
  unfold Update. rewrite Hc. cbn [negb].
  set (pre := UpdateTestMode ticks (SendConfig (CheckActive s))).
  assert (P pre) as Hpre by (apply Hut, Hsc, Hca, Hs).
  assert (same_readback_state s pre) as [_ Hq].
  { eapply same_readback_state_trans; [apply CheckActive_readback |].
    eapply same_readback_state_trans; [apply SendConfig_readback |].
    apply UpdateTestMode_readback. }
  specialize (Hpump pre Hpre).
  unfold conn_Update in *. cbn [fst snd] in Hpump.
  match goal with
  | |- context [foldl ?f ?t0 ?ks] =>
      destruct (run_completions_readback ks t0) as [_ Hq1];
      set (t1 := foldl f t0 ks) in *
  end.
  cbn [set_m_pConnection m_pConnection m_sReadBuffers] in Hq1.
  rewrite Hq in Hq1.
  destruct (io_fail io) eqn:Hf; [exact Hpump |].
  specialize (HQ eq_refl eq_refl). rewrite <- Hq1 in HQ.
  destruct (negb _).
  - apply (HandlePackets_loop_preserves P Q); auto.
    destruct (CallUpdateCallback_readback SMXUpdateCallback_Updated t1)
      as [_ ->]. exact HQ.
  - apply (HandlePackets_loop_preserves P Q); auto.
Qed.

(** The same for a property that does not depend on the connection. *)
Lemma Update_preserves (P : SMXDevice → Prop) (Q : list byte → bool)
    (ticks : Z) (io : PumpIO) (s : SMXDevice) :
  (∀ c t, P t → P (set_m_pConnection c t)) →
  (∀ r t, P t → P (CallUpdateCallback r t)) →
  (∀ t, P t → P (CheckActive t)) →
  (∀ t, P t → P (SendConfig t)) →
  (∀ t, P t → P (UpdateTestMode ticks t)) →
  (∀ k t, P t → P (run_completion k t)) →
  (∀ buf t, Q buf = true → P t → P (dispatch_packet buf t)) →
  (conn_IsConnected (m_pConnection s) = true → io_fail io = false →
   forallb Q (m_sReadBuffers (m_pConnection s) ++ io_received io) = true) →
  P s → P (Update ticks io s).
Proof.
  intros Hconn Hcb Hca Hsc Hut Hk Hd HQ Hs.
  apply (Update_preserves_pump P Q); auto.
  - intros q t Ht. apply Hconn, Ht.
  - intros t Ht. apply run_completions_preserves; [exact Hk |].
    apply Hconn, Ht.
Qed.

(** ** Packets without a handler *)

(** X1. Packets that are empty or carry a tag other than ['y'] and ['g']
    are consumed without any effect: a queue of such packets is drained and
    the device is otherwise unchanged, and such a packet ahead of others
    does not affect how the others are handled. *)
Theorem HandlePackets_ignores_unknown (queue rest : list (list byte))
    (buf : list byte) (s : SMXDevice) :
  forallb ignored_packet queue = true → ignored_packet buf = true →
  HandlePackets (with_packets queue s) = with_packets [] s
  ∧ HandlePackets (with_packets (buf :: rest) s)
    = HandlePackets (with_packets rest s).
Proof.
  intros Hq Hbuf. split.
  - induction queue as [| b queue IH]; [reflexivity |].
    cbn [forallb] in Hq. apply andb_true_iff in Hq as [Hb Hq].
    rewrite HandlePackets_cons, dispatch_packet_ignored by exact Hb.
    apply IH, Hq.
  - rewrite HandlePackets_cons, dispatch_packet_ignored by exact Hbuf.
    reflexivity.
Qed.

(** ** Configuration readbacks *)

Lemma config_packet_ok_inv (buf : list byte) :
  config_packet_ok buf = true →
  (∃ rest, buf = x67 :: rest)
  ∧ negb (length buf <? 2)%nat
    && negb (Z.of_nat (length buf) <? byte_Z (at_byte buf 1) + 2) = true.
Proof.
  rewrite config_packet_ok_cases. destruct buf as [| tag rest]; [discriminate |].
  intros H. apply andb_true_iff in H as [Hg Hsize].
  apply byte_dec_bl in Hg. subst tag. split; [eexists; reflexivity | exact Hsize].
Qed.

Lemma dispatch_config_packet_ok (buf : list byte) (s : SMXDevice) :
  config_packet_ok buf = true →
  dispatch_packet buf s
  = CallUpdateCallback SMXUpdateCallback_Updated
      (set_m_bHaveConfig true
         (set_config
            (take (Z.to_nat (Z.min (byte_Z (at_byte buf 1))
                               (Z.of_nat sizeof_SMXConfig)))
                  (drop 2 buf)
             ++ drop (Z.to_nat (Z.min (byte_Z (at_byte buf 1))
                                  (Z.of_nat sizeof_SMXConfig)))
                     (config s)) s)).
Proof.
  intros Hok. destruct (config_packet_ok_inv buf Hok) as [[rest ->] Hsize].
  rewrite dispatch_packet_cases. cbn [Byte.eqb].
  apply handle_config_packet_ok. exact Hsize.
Qed.

(** X2. An accepted configuration readback overwrites the first
    [min(declared length, sizeof(SMXConfig))] bytes of [config] with the
    payload and keeps the rest, so [config] keeps its size: a payload longer
    than the record is truncated to the record, a shorter one leaves the tail
    of the previous configuration in place, and a readback declaring length 0
    changes no byte yet marks the configuration as known. The wanted
    configuration and the pending flag are not touched. *)
Theorem config_readback_copies (buf : list byte) (s : SMXDevice) :
  config_packet_ok buf = true →
  length (config s) = sizeof_SMXConfig →
  let declared := byte_Z (at_byte buf 1) in
  let n := Z.to_nat (Z.min declared (Z.of_nat sizeof_SMXConfig)) in
  let s' := dispatch_packet buf s in
  m_bHaveConfig s' = true
  ∧ length (config s') = sizeof_SMXConfig
  ∧ take n (config s') = take n (drop 2 buf)
  ∧ drop n (config s') = drop n (config s)
  ∧ (Z.of_nat sizeof_SMXConfig <= declared →
     config s' = take sizeof_SMXConfig (drop 2 buf))
  ∧ (declared = 0 → config s' = config s)
  ∧ wanted_config s' = wanted_config s
  ∧ m_bSendConfig s' = m_bSendConfig s.
Proof.
  intros Hok Hlen declared n s'.
  assert (s' = CallUpdateCallback SMXUpdateCallback_Updated
                 (set_m_bHaveConfig true
                    (set_config (take n (drop 2 buf) ++ drop n (config s)) s)))
    as Hs' by (apply dispatch_config_packet_ok, Hok).
  destruct (config_packet_ok_inv buf Hok) as [_ Hsize].
  apply andb_true_iff in Hsize as [_ Hsize]. apply negb_true_iff in Hsize.
  apply Z.ltb_ge in Hsize. fold declared in Hsize.
  pose proof (byte_Z_range (at_byte buf 1)) as Hd. fold declared in Hd.
  assert (length (take n (drop 2 buf)) = n) as Htake
    by (rewrite length_take, length_drop; lia).
  assert (config s' = take n (drop 2 buf) ++ drop n (config s)) as Hcfg.
  { rewrite Hs'.
    match goal with
    | |- context [CallUpdateCallback ?r ?t] =>
        destruct (CallUpdateCallback_frame r t) as [d ->]
    end.
    reflexivity. }
  assert (m_bHaveConfig s' = true ∧ wanted_config s' = wanted_config s
          ∧ m_bSendConfig s' = m_bSendConfig s) as (Hh & Hw & Hp).
  { rewrite Hs'.
    match goal with
    | |- context [CallUpdateCallback ?r ?t] =>
        destruct (CallUpdateCallback_frame r t) as [d ->]
    end.
    repeat split. }
  split; [exact Hh |]. split.
  { rewrite Hcfg, length_app, Htake, length_drop. lia. }
  split.
  { rewrite Hcfg, take_app_length'; [reflexivity | symmetry; exact Htake]. }
  split.
  { rewrite Hcfg, drop_app_length'; [reflexivity | symmetry; exact Htake]. }
  split.
  { intros Hbig. rewrite Hcfg.
    assert (n = sizeof_SMXConfig) as -> by lia.
    rewrite (drop_ge (config s)) by lia. apply app_nil_r. }
  split.
  { intros Hzero. rewrite Hcfg.
    assert (n = 0%nat) as -> by lia. reflexivity. }
  split; assumption.
Qed.

(** X3. Write and readback round trip: when the device echoes the payload
    of the write command [SendConfig] builds, as a ['g'] packet, the
    dispatcher accepts the packet and [config] becomes exactly the written
    [wanted_config]. This needs the record to fit the one-byte length
    ([sizeof(SMXConfig) < 256]). *)
Theorem written_config_read_back (s t : SMXDevice) :
  length (wanted_config s) = sizeof_SMXConfig →
  (sizeof_SMXConfig < 256)%nat →
  length (config t) = sizeof_SMXConfig →
  let echo := x67 :: tail (write_command (wanted_config s)) in
  config_packet_ok echo = true
  ∧ config (dispatch_packet echo t) = wanted_config s
  ∧ m_bHaveConfig (dispatch_packet echo t) = true.
Proof.
  intros Hw Hsmall Ht echo.
  assert (byte_Z (at_byte echo 1) = Z.of_nat sizeof_SMXConfig) as Hdecl.
  { subst echo. unfold write_command. cbn [app tail at_byte lookup list_lookup
      default from_option id].
    rewrite byte_Z_Z_byte. apply Z.mod_small. lia. }
  assert (length echo = (2 + sizeof_SMXConfig)%nat) as Hlen.
  { subst echo. unfold write_command. cbn [app tail length]. lia. }
  assert (negb (length echo <? 2)%nat
          && negb (Z.of_nat (length echo) <? byte_Z (at_byte echo 1) + 2)
          = true) as Hsize.
  { rewrite Hdecl, Hlen. apply andb_true_iff. split; apply negb_true_iff.
    - apply Nat.ltb_ge. lia.
    - apply Z.ltb_ge. lia. }
  assert (config_packet_ok echo = true) as Hok
    by (rewrite config_packet_ok_cases; exact Hsize).
  split; [exact Hok |].
  rewrite dispatch_config_packet_ok by exact Hok.
  match goal with
  | |- context [CallUpdateCallback ?r ?u] =>
      destruct (CallUpdateCallback_frame r u) as [d ->]
  end.
  cbn [set_delivered set_m_bHaveConfig set_config config m_bHaveConfig].
  split; [| reflexivity].
  rewrite Hdecl, Z.min_id, Nat2Z.id.
  assert (drop 2 echo = wanted_config s) as -> by reflexivity.
  rewrite take_ge, (drop_ge (config t)) by lia. apply app_nil_r.
Qed.

(** ** What [GetConfig] returns after [SetConfig] *)

(** A call that neither sets a configuration, nor closes the device, nor
    accepts a configuration readback. *)
Definition keeps_config_call (s : SMXDevice) (c : Call) : bool :=
  match c with
  | CallSetConfig _ => false
  | CallCloseDevice => false
  | _ => negb (accepts_readback s c)
  end.

Fixpoint keeps_config_run (s : SMXDevice) (calls : list Call) : bool :=
  match calls with
  | [] => true
  | c :: calls' => keeps_config_call s c && keeps_config_run (call s c) calls'
  end.

Lemma GetConfig_config_eq (s s' : SMXDevice) :
  config_eq s s' → (GetConfig s').1 = (GetConfig s).1.
Proof.
  intros (H1 & H2 & _ & H4 & _). unfold GetConfig. cbn [fst].
  rewrite H1, H2, H4. reflexivity.
Qed.

Lemma existsb_false_forallb {A} (f : A → bool) (l : list A) :
  existsb f l = false → forallb (λ x, negb (f x)) l = true.
Proof.
  induction l as [| x l IH]; [reflexivity |]. cbn [existsb forallb].
  intros H. apply orb_false_iff in H as [-> H]. cbn [negb andb]. apply IH, H.
Qed.

Lemma SendConfig_GetConfig (s : SMXDevice) :
  (GetConfig (SendConfig s)).1 = (GetConfig s).1.
Proof.
  destruct (SendConfig_cases s) as [-> | (_ & _ & Hp & _ & ->)];
    [reflexivity |].
  unfold GetConfig. rewrite Hp. reflexivity.
Qed.

Lemma call_GetConfig (c : Call) (s : SMXDevice) :
  keeps_config_call s c = true → (GetConfig (call s c)).1 = (GetConfig s).1.
Proof.
  intros Hkeep. destruct c; cbn [call keeps_config_call] in *;
    try discriminate Hkeep; try reflexivity.
  - apply GetConfig_config_eq, SendCommandLocked_members.
  - unfold FactoryReset.
    rewrite (GetConfig_config_eq (SendCommandLocked cmd_f NoCompletion s))
      by apply SendCommandLocked_members.
    apply GetConfig_config_eq, SendCommandLocked_members.
  - apply GetConfig_config_eq, SendCommandLocked_members.
  - apply negb_true_iff in Hkeep. cbn [accepts_readback] in Hkeep.
    apply (Update_preserves (λ t, (GetConfig t).1 = (GetConfig s).1)
             (λ buf, negb (config_packet_ok buf))).
    + intros c t Ht. exact Ht.
    + intros r t Ht. rewrite <- Ht.
      apply GetConfig_config_eq, CallUpdateCallback_members.
    + intros t Ht. rewrite <- Ht.
      apply GetConfig_config_eq, CheckActive_members.
    + intros t Ht. rewrite <- Ht. apply SendConfig_GetConfig.
    + intros t Ht. rewrite <- Ht.
      apply GetConfig_config_eq, UpdateTestMode_config.
    + intros k t Ht. rewrite <- Ht. destruct k; cbn [run_completion];
        try reflexivity.
      apply GetConfig_config_eq, CallUpdateCallback_members.
    + intros buf t Hbuf Ht. rewrite <- Ht. apply negb_true_iff in Hbuf.
      destruct (dispatch_packet_frame buf t)
        as (_ & Hp & _ & Hw & _ & _ & Hsame & _).
      destruct (Hsame Hbuf) as [_ Hcfg].
      unfold GetConfig. cbn [fst]. rewrite Hp, Hw, Hcfg. reflexivity.
    + intros Hc Hf. rewrite Hc, Hf in Hkeep. cbn [negb andb] in Hkeep.
      apply existsb_false_forallb, Hkeep.
    + reflexivity.
Qed.

Lemma run_GetConfig (calls : list Call) (s : SMXDevice) :
  keeps_config_run s calls = true →
  (GetConfig (run s calls)).1 = (GetConfig s).1.
Proof.
  revert s. induction calls as [| c calls IH]; intros s Hkeep; [reflexivity |].
  cbn [keeps_config_run] in Hkeep. apply andb_true_iff in Hkeep as [Hc Hrest].
  unfold run. cbn [foldl]. fold (run (call s c) calls).
  rewrite IH by exact Hrest. apply call_GetConfig, Hc.
Qed.

(** X4. After [SetConfig cfg], [GetConfig] returns [cfg] along every run of
    calls that contains no further [SetConfig], no [CloseDevice] and no
    cycle accepting a configuration readback: across the write, its
    completion, sensor-test traffic, failed cycles and reconnection of the
    transport. While a write is pending, a readback does not change what
    [GetConfig] returns either. [CloseDevice] drops a pending value:
    [GetConfig] then returns the last confirmed configuration. *)
Theorem GetConfig_returns_last_set (cfg : SMXConfig) (s : SMXDevice)
    (calls : list Call) (buf : list byte) :
  (keeps_config_run (SetConfig cfg s) calls = true →
   (GetConfig (run (SetConfig cfg s) calls)).1 = cfg)
  ∧ (GetConfig (dispatch_packet buf (SetConfig cfg s))).1 = cfg
  ∧ (GetConfig (CloseDevice (SetConfig cfg s))).1 = config s.
Proof.
  split; [| split].
  - intros Hkeep. rewrite run_GetConfig by exact Hkeep. reflexivity.
  - destruct (dispatch_packet_frame buf (SetConfig cfg s))
      as (_ & Hp & _ & Hw & _).
    unfold GetConfig. cbn [fst]. rewrite Hp, Hw. reflexivity.
  - unfold CloseDevice.
    match goal with
    | |- context [CallUpdateCallback ?r ?t] =>
        rewrite (GetConfig_config_eq t (CallUpdateCallback r t))
          by apply CallUpdateCallback_members
    end.
    reflexivity.
Qed.

(** ** Responses that are not accepted *)

Lemma HandleSensorTestDataResponse_rejected (buf : list byte) (s : SMXDevice) :
  response_accepted buf s = false →
  HandleSensorTestDataResponse buf s = s
  ∨ HandleSensorTestDataResponse buf s = Log LogUnexpectedSensorData s
  ∨ HandleSensorTestDataResponse buf s
    = Log (LogSensorModeMismatch (response_mode buf)
             (m_WaitingForSensorTestModeResponse s)) s
  ∨ (response_mode buf = m_WaitingForSensorTestModeResponse s
     ∧ response_mode buf ≠ m_SensorTestMode s
     ∧ HandleSensorTestDataResponse buf s
       = set_m_WaitingForSensorTestModeResponse SensorTestMode_Off s).
Proof.
  unfold response_accepted, response_complete, response_mode,
    HandleSensorTestDataResponse. intros Hrej.
  destruct (length buf <? 3)%nat; [left; reflexivity |].
  destruct (Z.of_nat (length buf) <? response_iSize buf + 3);
    [left; reflexivity |].
  destruct (m_WaitingForSensorTestModeResponse s =? SensorTestMode_Off);
    [right; left; reflexivity |].
  destruct (Z.eqb_spec (char_Z (at_byte buf 1))
              (m_WaitingForSensorTestModeResponse s)) as [Hm | Hm];
    [| right; right; left; reflexivity].
  cbn [negb andb set_m_WaitingForSensorTestModeResponse m_SensorTestMode]
    in *.
  destruct (Z.eqb_spec (char_Z (at_byte buf 1)) (m_SensorTestMode s))
    as [Ha | Ha]; [discriminate Hrej |].
  right; right; right. auto.
Qed.

(** X5. A sensor-test response is stored only when it is complete, a
    request is outstanding, and the echoed mode is both the outstanding and
    the currently selected mode. Every other response leaves the stored
    data, what [GetTestData] returns, the selected mode, the notifications
    and the commands sent untouched; the outstanding request is kept, except
    that a response echoing it after the selected mode has changed clears
    it. A complete response with no request outstanding is logged and
    changes nothing else. *)
Theorem rejected_response_keeps_data (buf : list byte) (s : SMXDevice) :
  response_accepted buf s = false →
  let s' := HandleSensorTestDataResponse buf s in
  GetTestData s' = GetTestData s
  ∧ m_SensorTestData s' = m_SensorTestData s
  ∧ m_SensorTestMode s' = m_SensorTestMode s
  ∧ delivered s' = delivered s
  ∧ emitted s' = emitted s
  ∧ (m_WaitingForSensorTestModeResponse s'
     = m_WaitingForSensorTestModeResponse s
     ∨ (response_mode buf = m_WaitingForSensorTestModeResponse s
        ∧ response_mode buf ≠ m_SensorTestMode s
        ∧ m_WaitingForSensorTestModeResponse s' = SensorTestMode_Off))
  ∧ (response_complete buf = true →
     m_WaitingForSensorTestModeResponse s = SensorTestMode_Off →
     s' = Log LogUnexpectedSensorData s).
Proof.
  intros Hrej s'.
  assert (response_complete buf = true →
          m_WaitingForSensorTestModeResponse s = SensorTestMode_Off →
          s' = Log LogUnexpectedSensorData s) as Hunexpected.
  { unfold response_complete. intros Hc Hoff. subst s'.
    apply andb_true_iff in Hc as [Hc1 Hc2]. apply negb_true_iff in Hc1, Hc2.
    unfold HandleSensorTestDataResponse.
    rewrite Hc1, Hc2, Hoff, Z.eqb_refl. reflexivity. }
  destruct (HandleSensorTestDataResponse_rejected buf s Hrej)
    as [H | [H | [H | (Hm & Ha & H)]]]; subst s'; rewrite H in *.
  - repeat (split; [reflexivity |]). split; [left; reflexivity | exact Hunexpected].
  - repeat (split; [reflexivity |]). split; [left; reflexivity | exact Hunexpected].
  - repeat (split; [reflexivity |]). split; [left; reflexivity | exact Hunexpected].
  - repeat (split; [reflexivity |]).
    split; [right; repeat split; assumption | exact Hunexpected].
Qed.

(** ** The request that follows a response *)

Lemma UpdateTestMode_due (ticks : Z) (s : SMXDevice) :
  m_SensorTestMode s ≠ SensorTestMode_Off →
  m_WaitingForSensorTestModeResponse s = SensorTestMode_Off
  ∨ 2000 <= to_uint32 (to_uint32 ticks - m_SentSensorTestModeRequestAtTicks s) →
  UpdateTestMode ticks s
  = SendCommandLocked (test_mode_command (m_SensorTestMode s)) NoCompletion
      (set_m_SentSensorTestModeRequestAtTicks (to_uint32 ticks)
         (set_m_WaitingForSensorTestModeResponse (m_SensorTestMode s) s)).
Proof.
  intros Hmode Hdue. unfold UpdateTestMode.
  destruct (Z.eqb_spec (m_SensorTestMode s) SensorTestMode_Off)
    as [Heq | _]; [contradiction |].
  destruct (Z.eqb_spec (m_WaitingForSensorTestModeResponse s)
              SensorTestMode_Off) as [Hoff | Hwait]; [reflexivity |].
  destruct (Z.ltb_spec
              (to_uint32 (to_uint32 ticks - m_SentSensorTestModeRequestAtTicks s))
              2000) as [Hlt | Hge]; [| reflexivity].
  destruct Hdue as [Hoff | Hge]; [contradiction | lia].
Qed.

Lemma UpdateTestMode_waits (ticks : Z) (s : SMXDevice) :
  m_WaitingForSensorTestModeResponse s ≠ SensorTestMode_Off →
  to_uint32 (to_uint32 ticks - m_SentSensorTestModeRequestAtTicks s) < 2000 →
  UpdateTestMode ticks s = s.
Proof.
  intros Hwait Hlt. unfold UpdateTestMode.
  destruct (m_SensorTestMode s =? SensorTestMode_Off); [reflexivity |].
  destruct (Z.eqb_spec (m_WaitingForSensorTestModeResponse s)
              SensorTestMode_Off) as [Hoff | _]; [contradiction |].
  destruct (Z.ltb_spec
              (to_uint32 (to_uint32 ticks - m_SentSensorTestModeRequestAtTicks s))
              2000) as [_ | Hge]; [reflexivity | lia].
Qed.

(** X6. The polling loop: once a complete response echoing the outstanding
    request has been handled, whether its data was stored or dropped because
    the selected mode had changed, the next [UpdateTestMode] sends a request
    for the selected mode at once, whatever the tick count, and records it
    as outstanding. *)
Theorem next_request_follows_response (buf : list byte) (ticks : Z)
    (s : SMXDevice) :
  response_complete buf = true →
  m_WaitingForSensorTestModeResponse s ≠ SensorTestMode_Off →
  response_mode buf = m_WaitingForSensorTestModeResponse s →
  m_SensorTestMode s ≠ SensorTestMode_Off →
  conn_IsConnected (m_pConnection s) = true →
  let s' := UpdateTestMode ticks (HandleSensorTestDataResponse buf s) in
  emitted s' = emitted s ++ [[x79; Z_byte (m_SensorTestMode s); x0a]]
  ∧ m_WaitingForSensorTestModeResponse s' = m_SensorTestMode s
  ∧ m_SentSensorTestModeRequestAtTicks s' = to_uint32 ticks.
Proof.
  intros Hc Hw Hm Hmode Hconn s'.
  set (t := HandleSensorTestDataResponse buf s) in *.
  assert (m_WaitingForSensorTestModeResponse t = SensorTestMode_Off
          ∧ m_SensorTestMode t = m_SensorTestMode s) as [Hoff Hsame].
  { subst t. unfold response_complete, response_mode in *.
    apply andb_true_iff in Hc as [Hc1 Hc2]. apply negb_true_iff in Hc1, Hc2.
    unfold HandleSensorTestDataResponse. rewrite Hc1, Hc2.
    destruct (Z.eqb_spec (m_WaitingForSensorTestModeResponse s)
                SensorTestMode_Off) as [Heq | _]; [contradiction |].
    destruct (Z.eqb_spec (char_Z (at_byte buf 1))
                (m_WaitingForSensorTestModeResponse s)) as [_ | Hne];
      [| contradiction].
    cbn [negb set_m_WaitingForSensorTestModeResponse m_SensorTestMode].
    destruct (char_Z (at_byte buf 1) =? m_SensorTestMode s); cbn [negb].
    - match goal with
      | |- context [CallUpdateCallback ?r ?u] =>
          destruct (CallUpdateCallback_frame r u) as [d ->]
      end.
      split; reflexivity.
    - split; reflexivity. }
  destruct (HandleSensorTestDataResponse_frame buf s) as (Hconn' & _ & _ & _ & _ & _ & Hemit).
  fold t in Hconn', Hemit.
  subst s'. rewrite UpdateTestMode_due by (rewrite ?Hsame; auto).
  unfold SendCommandLocked.
  cbn [set_m_SentSensorTestModeRequestAtTicks
       set_m_WaitingForSensorTestModeResponse m_pConnection].
  rewrite Hconn', Hconn, Hsame.
  cbn [set_emitted set_m_pConnection emitted
       m_WaitingForSensorTestModeResponse m_SentSensorTestModeRequestAtTicks].
  cbn [set_m_SentSensorTestModeRequestAtTicks
       set_m_WaitingForSensorTestModeResponse emitted].
  rewrite Hemit. repeat split.
Qed.

(** ** The request timeout across a wrap of the tick counter *)

(** X7. The 2000 ms timeout is measured correctly when the 32-bit tick
    counter wraps between the request and the check: with the request sent
    at tick [sent] and [elapsed] milliseconds gone by (less than 2^32), so
    that the counter reads [(sent + elapsed) mod 2^32], an outstanding
    request is left alone while [elapsed < 2000] and is sent again, with the
    new tick count recorded, once [elapsed >= 2000]. *)
Theorem UpdateTestMode_tick_wraparound (sent elapsed : Z) (s : SMXDevice) :
  0 <= sent < 2 ^ 32 → 0 <= elapsed < 2 ^ 32 →
  m_SentSensorTestModeRequestAtTicks s = sent →
  m_SensorTestMode s ≠ SensorTestMode_Off →
  m_WaitingForSensorTestModeResponse s ≠ SensorTestMode_Off →
  let ticks := (sent + elapsed) mod 2 ^ 32 in
  (elapsed < 2000 → UpdateTestMode ticks s = s)
  ∧ (2000 <= elapsed →
     m_SentSensorTestModeRequestAtTicks (UpdateTestMode ticks s) = ticks
     ∧ (conn_IsConnected (m_pConnection s) = true →
        emitted (UpdateTestMode ticks s)
        = emitted s ++ [[x79; Z_byte (m_SensorTestMode s); x0a]])).
Proof.
  intros Hsent Helapsed Hs Hmode Hwait ticks.
  assert (to_uint32 ticks = ticks) as Hticks
    by (unfold to_uint32, ticks; apply Z.mod_mod; lia).
  assert (to_uint32 (to_uint32 ticks - m_SentSensorTestModeRequestAtTicks s)
          = elapsed) as Hdiff.
  { rewrite Hticks, Hs. unfold to_uint32, ticks.
    rewrite Zminus_mod_idemp_l.
    replace (sent + elapsed - sent) with elapsed by lia.
    apply Z.mod_small. lia. }
  split.
  - intros Hlt. apply UpdateTestMode_waits; [exact Hwait | lia].
  - intros Hge. rewrite UpdateTestMode_due by (auto; right; lia).
    unfold SendCommandLocked.
    cbn [set_m_SentSensorTestModeRequestAtTicks
         set_m_WaitingForSensorTestModeResponse m_pConnection].
    destruct (conn_IsConnected (m_pConnection s)).
    + split; [cbn; exact Hticks |]. intros _. reflexivity.
    + split; [cbn; exact Hticks |]. intros Hc. discriminate Hc.
Qed.

(** ** The activation handshake *)

Lemma SendCommandLocked_active (cmd : list byte) (k : Completion)
    (s : SMXDevice) :
  m_bActive (m_pConnection (SendCommandLocked cmd k s))
  = m_bActive (m_pConnection s).
Proof.
  unfold SendCommandLocked.
  destruct (conn_IsConnected (m_pConnection s)); reflexivity.
Qed.

(** X8. The activation handshake runs once: [CheckActive] sends the panel
    reset ["R\n"] followed by the configuration request ["g\n"] and marks the
    connection active exactly when the connection has its device info and is
    not active yet; otherwise, and in particular when called again, it does
    nothing. *)
Theorem CheckActive_once (s : SMXDevice) :
  CheckActive (CheckActive s) = CheckActive s
  ∧ (conn_IsConnectedWithDeviceInfo (m_pConnection s) = true →
     m_bActive (m_pConnection s) = false →
     emitted (CheckActive s) = emitted s ++ [cmd_R; cmd_g]
     ∧ m_bActive (m_pConnection (CheckActive s)) = true)
  ∧ (conn_IsConnectedWithDeviceInfo (m_pConnection s) = false
     ∨ m_bActive (m_pConnection s) = true → CheckActive s = s).
Proof.
  assert (conn_IsConnectedWithDeviceInfo (m_pConnection s) = false
          ∨ m_bActive (m_pConnection s) = true → CheckActive s = s) as Hidle.
  { intros [H | H]; unfold CheckActive; rewrite H;
      [reflexivity | rewrite orb_true_r; reflexivity]. }
  assert (conn_IsConnectedWithDeviceInfo (m_pConnection s) = true →
          m_bActive (m_pConnection s) = false →
          emitted (CheckActive s) = emitted s ++ [cmd_R; cmd_g]
          ∧ m_bActive (m_pConnection (CheckActive s)) = true) as Hrun.
  { clear Hidle. destruct_device s.
    unfold conn_IsConnectedWithDeviceInfo, CheckActive, SendCommandLocked,
      conn_IsConnectedWithDeviceInfo, conn_IsConnected.
    cbn. intros Hinfo Hact. apply andb_true_iff in Hinfo as [-> ->].
    subst. cbn. rewrite <- app_assoc. split; reflexivity. }
  split; [| split; assumption].
  destruct (conn_IsConnectedWithDeviceInfo (m_pConnection s)) eqn:Hinfo;
    [| rewrite (Hidle (or_introl eq_refl)); apply Hidle; auto].
  destruct (m_bActive (m_pConnection s)) eqn:Hact;
    [rewrite (Hidle (or_intror eq_refl)); apply Hidle; auto |].
  destruct (Hrun eq_refl eq_refl) as [_ Hnow].
  unfold CheckActive at 1. rewrite Hnow, orb_true_r. reflexivity.
Qed.

(** ** Sensor-test data along runs *)

Lemma response_accepted_inv (buf : list byte) (s : SMXDevice) :
  response_accepted buf s = true →
  response_complete buf = true
  ∧ m_WaitingForSensorTestModeResponse s ≠ SensorTestMode_Off
  ∧ response_mode buf = m_WaitingForSensorTestModeResponse s
  ∧ response_mode buf = m_SensorTestMode s.
Proof.
  unfold response_accepted. intros H.
  apply andb_true_iff in H as [H Ha]. apply andb_true_iff in H as [H Hm].
  apply andb_true_iff in H as [Hc Hw]. apply negb_true_iff in Hw.
  apply Z.eqb_neq in Hw. apply Z.eqb_eq in Hm, Ha. auto.
Qed.

Lemma CloseDevice_sensor (s : SMXDevice) : sensor_eq s (CloseDevice s).
Proof.
  unfold CloseDevice.
  match goal with
  | |- context [CallUpdateCallback ?r ?t] =>
      destruct (CallUpdateCallback_frame r t) as [d ->]
  end.
  repeat split.
Qed.

(** A property of the sensor-test members kept by the request step, by the
    response handler and by the mode selection of a call is kept by the
    call. *)
Lemma call_preserves_sensor (P : SMXDevice → Prop) (c : Call) (s : SMXDevice) :
  sensor_only P →
  (∀ ticks t, P t → P (UpdateTestMode ticks t)) →
  (∀ buf t, P t → P (HandleSensorTestDataResponse buf t)) →
  (∀ m, c = CallSetSensorTestMode m → P s → P (SetSensorTestMode m s)) →
  P s → P (call s c).
Proof.
  intros Honly Hut Hresp Hmode Hs.
  assert (∀ cmd k t, P t → P (SendCommandLocked cmd k t)) as Hsend
    by (intros cmd k t; apply Honly, SendCommandLocked_members).
  destruct c; cbn [call].
  - revert Hs. apply Honly. repeat split.
  - revert Hs. apply Honly, CloseDevice_sensor.
  - revert Hs. apply Honly. repeat split.
  - apply Hsend, Hs.
  - revert Hs. apply Honly. repeat split.
  - apply Hsend, Hsend, Hs.
  - apply Hsend, Hs.
  - apply (Hmode mode eq_refl), Hs.
  - apply (Update_preserves P (λ _, true)); auto.
    + intros c t. apply Honly. repeat split.
    + intros r t. apply Honly, CallUpdateCallback_members.
    + intros t. apply Honly, CheckActive_members.
    + intros t. apply Honly, SendConfig_sensor.
    + intros k t. apply Honly, run_completion_sensor.
    + intros buf t _ Ht. rewrite dispatch_packet_cases.
      destruct buf as [| tag rest]; [exact Ht |].
      destruct (Byte.eqb tag x79); [apply Hresp, Ht |].
      destruct (Byte.eqb tag x67); [| exact Ht].
      revert Ht. apply Honly, handle_config_packet_sensor.
    + intros _ _. apply forallb_forall. reflexivity.
Qed.

Lemma HandleSensorTestDataResponse_keeps_have (buf : list byte) (s : SMXDevice) :
  m_HaveSensorTestModeData s = true →
  m_HaveSensorTestModeData (HandleSensorTestDataResponse buf s) = true.
Proof.
  intros Hs. destruct (response_accepted buf s) eqn:Hacc.
  - destruct (response_accepted_inv buf s Hacc) as (Hc & Hw & Hm & Ha).
    rewrite HandleSensorTestDataResponse_accepted by assumption.
    match goal with
    | |- context [CallUpdateCallback ?r ?t] =>
        destruct (CallUpdateCallback_frame r t) as [d ->]
    end.
    reflexivity.
  - destruct (HandleSensorTestDataResponse_rejected buf s Hacc)
      as [-> | [-> | [-> | (_ & _ & ->)]]]; exact Hs.
Qed.

(** X9. Sensor-test data is never forgotten: once a response has been
    stored, [GetTestData] returns data after every further run of calls,
    whether the test mode is switched off, the device is closed and opened
    again, or responses are rejected. *)
Theorem GetTestData_never_forgets (s : SMXDevice) (calls : list Call) :
  GetTestData s ≠ None →
  GetTestData (run s calls) = Some (m_SensorTestData (run s calls)).
Proof.
  intros Hsome.
  assert (m_HaveSensorTestModeData s = true) as Hs.
  { unfold GetTestData in Hsome.
    destruct (m_HaveSensorTestModeData s); [reflexivity | contradiction]. }
  clear Hsome.
  assert (m_HaveSensorTestModeData (run s calls) = true) as Hrun.
  { revert s Hs. induction calls as [| c calls IH]; intros s Hs; [exact Hs |].
    unfold run. cbn [foldl]. apply IH.
    apply (call_preserves_sensor (λ t, m_HaveSensorTestModeData t = true));
      auto.
    - intros t t' (_ & _ & _ & H & _) Ht. congruence.
    - intros ticks t Ht. unfold UpdateTestMode, SendCommandLocked.
      repeat case_match; exact Ht.
    - intros buf t. apply HandleSensorTestDataResponse_keeps_have. }
  unfold GetTestData. rewrite Hrun. reflexivity.
Qed.

(** A call that selects no sensor-test mode. *)
Definition selects_no_mode (c : Call) : Prop :=
  match c with
  | CallSetSensorTestMode mode => mode = SensorTestMode_Off
  | _ => True
  end.

(** X10. Without a sensor-test mode selected nothing is requested and
    nothing is stored: along every run of calls on a new device in which
    [SetSensorTestMode] is only called with Off, no request is ever
    outstanding and [GetTestData] returns nothing, whatever responses
    arrive. *)
Theorem no_test_data_without_mode (calls : list Call) :
  Forall selects_no_mode calls →
  let s := run SMXDevice_new calls in
  GetTestData s = None
  ∧ m_WaitingForSensorTestModeResponse s = SensorTestMode_Off
  ∧ m_SensorTestMode s = SensorTestMode_Off.
Proof.
  intros Hcalls.
  set (P := λ t : SMXDevice,
         m_SensorTestMode t = SensorTestMode_Off
         ∧ m_WaitingForSensorTestModeResponse t = SensorTestMode_Off
         ∧ m_HaveSensorTestModeData t = false).
  assert (∀ s, P s → P (run s calls)) as Hrun.
  { induction Hcalls as [| c calls Hc _ IH]; intros s Hs; [exact Hs |].
    unfold run. cbn [foldl]. apply IH.
    apply (call_preserves_sensor P); auto.
    - intros t t' (H1 & H2 & _ & H4 & _) (A & B & C). repeat split; congruence.
    - intros ticks t (A & B & C). unfold UpdateTestMode.
      rewrite A, Z.eqb_refl. repeat split; assumption.
    - intros buf t (A & B & C).
      assert (response_accepted buf t = false) as Hrej.
      { unfold response_accepted. rewrite B, Z.eqb_refl. cbn [negb].
        rewrite andb_false_r. reflexivity. }
      destruct (HandleSensorTestDataResponse_rejected buf t Hrej)
        as [-> | [-> | [-> | (_ & _ & ->)]]]; repeat split; assumption.
    - intros m -> (A & B & C). cbn [selects_no_mode] in Hc. subst m.
      repeat split; assumption. }
  intros s. destruct (Hrun SMXDevice_new) as (A & B & C);
    [repeat split |].
  fold s in A, B, C. unfold GetTestData. rewrite C. repeat split; assumption.
Qed.

(** ** A cycle whose pump fails *)

(** [s'] has the log, the readiness flag and the sensor-test data of [s]. *)
Definition quiet_eq (s s' : SMXDevice) : Prop :=
  logged s' = logged s
  ∧ m_bHaveConfig s' = m_bHaveConfig s
  ∧ m_HaveSensorTestModeData s' = m_HaveSensorTestModeData s
  ∧ m_SensorTestData s' = m_SensorTestData s.

Lemma quiet_eq_trans (s1 s2 s3 : SMXDevice) :
  quiet_eq s1 s2 → quiet_eq s2 s3 → quiet_eq s1 s3.
Proof.
  intros (A1 & A2 & A3 & A4) (B1 & B2 & B3 & B4). repeat split; congruence.
Qed.

Lemma SendCommandLocked_quiet (cmd : list byte) (k : Completion) (s : SMXDevice) :
  quiet_eq s (SendCommandLocked cmd k s).
Proof.
  unfold SendCommandLocked.
  destruct (conn_IsConnected (m_pConnection s)); repeat split.
Qed.

Lemma before_pump_quiet (ticks : Z) (s : SMXDevice) :
  quiet_eq s (UpdateTestMode ticks (SendConfig (CheckActive s))).
Proof.
  apply (quiet_eq_trans _ (CheckActive s)).
  { unfold CheckActive. destruct (_ || _); [repeat split |].
    eapply quiet_eq_trans; [| apply SendCommandLocked_quiet].
    eapply quiet_eq_trans; [| apply SendCommandLocked_quiet].
    repeat split. }
  apply (quiet_eq_trans _ (SendConfig (CheckActive s))).
  { destruct (SendConfig_cases (CheckActive s))
      as [-> | (_ & _ & _ & _ & ->)]; repeat split. }
  unfold UpdateTestMode. destruct (_ =? _); [repeat split |].
  destruct (_ && _); [repeat split |].
  eapply quiet_eq_trans; [| apply SendCommandLocked_quiet]. repeat split.
Qed.

Lemma run_completions_quiet (ks : list Completion) (s : SMXDevice) :
  quiet_eq s (foldl (λ s k, run_completion k s) s ks).
Proof.
  revert s. induction ks as [| k ks IH]; intros s; [repeat split |].
  cbn [foldl]. eapply quiet_eq_trans; [| apply IH].
  destruct k; cbn [run_completion]; try (repeat split; fail).
  destruct (CallUpdateCallback_frame
              SMXUpdateCallback_FactoryResetCommandComplete s) as [d ->].
  repeat split.
Qed.

(** X11. A cycle whose I/O pump reports an error dispatches no packet:
    whatever arrived during the pump, nothing is logged, the readiness flag
    is unchanged and [GetTestData] returns what it returned before. *)
Theorem Update_failed_pump_dispatches_nothing (ticks : Z) (io : PumpIO)
    (s : SMXDevice) :
  io_fail io = true →
  let s' := Update ticks io s in
  logged s' = logged s
  ∧ m_bHaveConfig s' = m_bHaveConfig s
  ∧ (GetConfig s').2 = (GetConfig s).2
  ∧ GetTestData s' = GetTestData s.
Proof.
  intros Hf s'.
  assert (quiet_eq s s') as (H1 & H2 & H3 & H4).
  { subst s'.
    destruct (conn_IsConnected (m_pConnection s)) eqn:Hc;
      [| rewrite Update_not_connected by exact Hc; repeat split].
    unfold Update. rewrite Hc, Hf. cbn [negb]. unfold conn_Update.
    eapply quiet_eq_trans; [apply (before_pump_quiet ticks) |].
    eapply quiet_eq_trans; [| apply run_completions_quiet].
    repeat split. }
  unfold GetTestData, GetConfig. cbn [snd]. rewrite H1, H2, H3, H4.
  repeat split.
Qed.

(** ** Responses with fewer than two words *)

Lemma reports_output_short (data : list Z) :
  (length data <= 1)%nat → reports_output data = blank_output.
Proof.
  intros Hlen.
  assert (∀ p, panel_report data p = no_report) as Hno.
  { intros p. unfold panel_report, panel_bit.
    rewrite (lookup_ge_None_2 data 1) by lia.
    rewrite andb_false_r. reflexivity. }
  unfold reports_output, blank_output.
  cbn [seq fmap list_fmap]. rewrite !Hno. reflexivity.
Qed.

(** X12. An accepted response that carries fewer than two words still
    counts as data received: [GetTestData] then returns a record in which
    no panel has data and every reading, flag and DIP value is zero, and the
    update callback is called. *)
Theorem short_response_has_no_panel (buf : list byte) (s : SMXDevice) :
  response_accepted buf s = true →
  (length (response_words buf) <= 1)%nat →
  let s' := HandleSensorTestDataResponse buf s in
  GetTestData s' = Some blank_output
  ∧ (m_pUpdateCallback s = true →
     ∃ pad, delivered s' = delivered s ++ [(pad, SMXUpdateCallback_Updated)]).
Proof.
  intros Hacc Hshort s'.
  destruct (response_accepted_inv buf s Hacc) as (Hc & Hw & Hm & Ha).
  subst s'. rewrite HandleSensorTestDataResponse_accepted by assumption.
  rewrite reports_output_short by exact Hshort. split.
  - match goal with
    | |- context [CallUpdateCallback ?r ?t] =>
        destruct (CallUpdateCallback_frame r t) as [d ->]
    end.
    reflexivity.
  - intros Hcb. unfold CallUpdateCallback.
    cbn [set_m_SensorTestData set_m_HaveSensorTestModeData
         set_m_WaitingForSensorTestModeResponse m_pUpdateCallback].
    rewrite Hcb. cbn [negb]. eexists. reflexivity.
Qed.

(** ** Completions that are not queued *)

(** No command with completion [k0] waits in the transport. *)
Definition not_queued (k0 : Completion) (s : SMXDevice) : Prop :=
  k0 ∉ (m_aPendingCommands (m_pConnection s)).*2.

(** No factory reset is under way and none was ever reported complete. *)
Definition no_factory_reset (s : SMXDevice) : Prop :=
  not_queued FactoryResetReadback s
  ∧ ∀ pad, (pad, SMXUpdateCallback_FactoryResetCommandComplete) ∉ delivered s.

(** The in-flight flag is set although no configuration write is queued. *)
Definition write_flag_orphaned (s : SMXDevice) : Prop :=
  m_bSendingConfig s = true ∧ not_queued SendConfigComplete s.

Lemma not_queued_SendCommandLocked (k0 k : Completion) (cmd : list byte)
    (s : SMXDevice) :
  k ≠ k0 → not_queued k0 s → not_queued k0 (SendCommandLocked cmd k s).
Proof.
  unfold not_queued, SendCommandLocked. intros Hk Hs.
  destruct (conn_IsConnected (m_pConnection s)); [| exact Hs].
  cbn [set_emitted set_m_pConnection m_pConnection conn_SendCommand
       m_aPendingCommands].
  rewrite fmap_app. cbn [fmap list_fmap snd].
  rewrite not_elem_of_app, not_elem_of_cons. repeat split; auto.
  apply not_elem_of_nil.
Qed.

Lemma SendCommandLocked_traces (cmd : list byte) (k : Completion)
    (s : SMXDevice) :
  delivered (SendCommandLocked cmd k s) = delivered s
  ∧ m_bSendingConfig (SendCommandLocked cmd k s) = m_bSendingConfig s.
Proof.
  unfold SendCommandLocked.
  destruct (conn_IsConnected (m_pConnection s)); split; reflexivity.
Qed.

Lemma not_queued_CheckActive (k0 : Completion) (s : SMXDevice) :
  k0 ≠ NoCompletion → not_queued k0 s → not_queued k0 (CheckActive s).
Proof.
  intros Hk Hs. unfold CheckActive. destruct (_ || _); [exact Hs |].
  do 2 (apply not_queued_SendCommandLocked; [congruence |]). exact Hs.
Qed.

Lemma not_queued_UpdateTestMode (k0 : Completion) (ticks : Z) (s : SMXDevice) :
  k0 ≠ NoCompletion → not_queued k0 s → not_queued k0 (UpdateTestMode ticks s).
Proof.
  intros Hk Hs. unfold UpdateTestMode.
  destruct (_ =? _); [exact Hs |]. destruct (_ && _); [exact Hs |].
  apply not_queued_SendCommandLocked; [congruence | exact Hs].
Qed.

Lemma CheckActive_traces (s : SMXDevice) :
  delivered (CheckActive s) = delivered s
  ∧ m_bSendingConfig (CheckActive s) = m_bSendingConfig s.
Proof.
  unfold CheckActive, SendCommandLocked. repeat case_match; split; reflexivity.
Qed.

Lemma UpdateTestMode_traces (ticks : Z) (s : SMXDevice) :
  delivered (UpdateTestMode ticks s) = delivered s
  ∧ m_bSendingConfig (UpdateTestMode ticks s) = m_bSendingConfig s.
Proof.
  unfold UpdateTestMode, SendCommandLocked. repeat case_match; split; reflexivity.
Qed.

(** The pump drops commands from the front of the queue; a completion that
    was not queued is neither left in the queue nor run. *)
Lemma not_queued_pump (k0 : Completion) (io : PumpIO) (s : SMXDevice) :
  not_queued k0 s →
  (k0 ∉ snd (conn_Update io (m_pConnection s)))
  ∧ (k0 ∉ (m_aPendingCommands (fst (conn_Update io (m_pConnection s)))).*2).
Proof.
  unfold not_queued, conn_Update. cbn [fst snd m_aPendingCommands].
  intros Hs.
  rewrite <- (take_drop (io_sent io) (m_aPendingCommands (m_pConnection s)))
    in Hs.
  rewrite fmap_app, not_elem_of_app in Hs. exact Hs.
Qed.

Lemma run_completions_without_reset (ks : list Completion) (s : SMXDevice) :
  FactoryResetReadback ∉ ks →
  delivered (foldl (λ s k, run_completion k s) s ks) = delivered s.
Proof.
  revert s. induction ks as [| k ks IH]; intros s Hks; [reflexivity |].
  apply not_elem_of_cons in Hks as [Hk Hks]. cbn [foldl].
  rewrite IH by exact Hks. destruct k; try reflexivity. congruence.
Qed.

Lemma dispatch_packet_delivered (buf : list byte) (s : SMXDevice) :
  delivered (dispatch_packet buf s) = delivered s
  ∨ ∃ pad, delivered (dispatch_packet buf s)
           = delivered s ++ [(pad, SMXUpdateCallback_Updated)].
Proof.
  assert (∀ t, delivered t = delivered s →
               delivered (CallUpdateCallback SMXUpdateCallback_Updated t)
               = delivered s
               ∨ ∃ pad, delivered (CallUpdateCallback SMXUpdateCallback_Updated t)
                        = delivered s ++ [(pad, SMXUpdateCallback_Updated)])
    as Hcb.
  { intros t Ht. unfold CallUpdateCallback.
    destruct (m_pUpdateCallback t); cbn [negb]; [| left; exact Ht].
    right. eexists. cbn [set_delivered delivered]. rewrite Ht. reflexivity. }
  rewrite dispatch_packet_cases. destruct buf as [| tag rest]; [left; reflexivity |].
  destruct (Byte.eqb tag x79).
  - destruct (response_accepted (tag :: rest) s) eqn:Hacc.
    + destruct (response_accepted_inv _ s Hacc) as (Hc & Hw & Hm & Ha).
      rewrite HandleSensorTestDataResponse_accepted by assumption.
      apply Hcb. reflexivity.
    + left.
      destruct (HandleSensorTestDataResponse_rejected _ s Hacc)
        as [-> | [-> | [-> | (_ & _ & ->)]]]; reflexivity.
  - destruct (Byte.eqb tag x67); [| left; reflexivity].
    destruct (negb (length (tag :: rest) <? 2)%nat
              && negb (Z.of_nat (length (tag :: rest))
                       <? byte_Z (at_byte (tag :: rest) 1) + 2)) eqn:Hok.
    + rewrite handle_config_packet_ok by exact Hok. apply Hcb. reflexivity.
    + rewrite handle_config_packet_bad by exact Hok. left. reflexivity.
Qed.

(** ** Factory reset *)

Lemma no_factory_reset_same (s s' : SMXDevice) :
  m_aPendingCommands (m_pConnection s') = m_aPendingCommands (m_pConnection s) →
  delivered s' = delivered s →
  no_factory_reset s → no_factory_reset s'.
Proof.
  unfold no_factory_reset, not_queued. intros -> ->. auto.
Qed.

Lemma no_factory_reset_Updated (s : SMXDevice) :
  no_factory_reset s →
  no_factory_reset (CallUpdateCallback SMXUpdateCallback_Updated s).
Proof.
  intros [Hq Hd]. unfold CallUpdateCallback.
  destruct (m_pUpdateCallback s); cbn [negb]; [| split; assumption].
  split; [exact Hq |]. intros pad. cbn [set_delivered delivered].
  rewrite not_elem_of_app, not_elem_of_cons.
  repeat split; auto; apply not_elem_of_nil.
Qed.

Lemma no_factory_reset_SendCommandLocked (cmd : list byte) (k : Completion)
    (s : SMXDevice) :
  k ≠ FactoryResetReadback →
  no_factory_reset s → no_factory_reset (SendCommandLocked cmd k s).
Proof.
  intros Hk [Hq Hd]. split.
  - apply not_queued_SendCommandLocked; assumption.
  - destruct (SendCommandLocked_traces cmd k s) as [-> _]. exact Hd.
Qed.

Lemma call_no_factory_reset (c : Call) (s : SMXDevice) :
  c ≠ CallFactoryReset →
  no_factory_reset s → no_factory_reset (call s c).
Proof.
  intros Hc Hs. destruct c; cbn [call]; try congruence.
  - revert Hs. apply no_factory_reset_same; [| reflexivity].
    unfold OpenDeviceHandle, conn_Open. destruct ok; reflexivity.
  - unfold CloseDevice. apply no_factory_reset_Updated.
    destruct Hs as [_ Hd]. split; [| exact Hd].
    unfold not_queued. cbn. apply not_elem_of_nil.
  - revert Hs. apply no_factory_reset_same; reflexivity.
  - apply no_factory_reset_SendCommandLocked; [discriminate | exact Hs].
  - revert Hs. apply no_factory_reset_same; reflexivity.
  - apply no_factory_reset_SendCommandLocked; [discriminate | exact Hs].
  - revert Hs. apply no_factory_reset_same; reflexivity.
  - apply (Update_preserves_pump no_factory_reset (λ _, true));
      [ | | | | | | | | exact Hs].
    + intros q t. apply (no_factory_reset_same t); reflexivity.
    + apply no_factory_reset_Updated.
    + intros t [Hq Hd]. split;
        [apply not_queued_CheckActive; [discriminate | exact Hq] |].
      destruct (CheckActive_traces t) as [-> _]. exact Hd.
    + intros t Ht.
      destruct (SendConfig_cases t) as [-> | (_ & _ & _ & _ & ->)];
        [exact Ht |].
      destruct Ht as [Hq Hd]. split; [| exact Hd].
      unfold not_queued in *.
      cbn [set_emitted set_m_pConnection m_pConnection conn_SendCommand
           m_aPendingCommands].
      rewrite !fmap_app. cbn [fmap list_fmap snd].
      rewrite !not_elem_of_app, !not_elem_of_cons.
      repeat split; auto; try discriminate; apply not_elem_of_nil.
    + intros t [Hq Hd]. split;
        [apply not_queued_UpdateTestMode; [discriminate | exact Hq] |].
      destruct (UpdateTestMode_traces ticks t) as [-> _]. exact Hd.
    + intros t [Hq Hd].
      destruct (not_queued_pump FactoryResetReadback io t Hq) as [Hks Hrest].
      match goal with
      | |- no_factory_reset (foldl ?f ?t0 ?ks) =>
          destruct (run_completions_sending ks t0) as [Hconn _];
          pose proof (run_completions_without_reset ks t0 Hks) as Hdel
      end.
      split.
      * unfold not_queued. rewrite Hconn. exact Hrest.
      * intros pad. rewrite Hdel. apply Hd.
    + intros buf t _ [Hq Hd].
      destruct (dispatch_packet_frame buf t) as (Hconn & _).
      split; [unfold not_queued; rewrite Hconn; exact Hq |].
      intros pad.
      destruct (dispatch_packet_delivered buf t) as [-> | [p ->]];
        [apply Hd |].
      rewrite not_elem_of_app, not_elem_of_cons.
      repeat split; auto; apply not_elem_of_nil.
    + intros _ _. apply forallb_forall. reflexivity.
Qed.

(** X13. [FactoryReset] sends ["f\n"] and then ["g\n"], the latter with
    the completion that reports the reset as complete, when the transport is
    open, and does nothing otherwise; the completion calls the update
    callback with reason FactoryResetCommandComplete. That reason is never
    delivered along a run of calls on a new device that contains no
    [FactoryReset]. *)
Theorem FactoryReset_completion (s : SMXDevice) (calls : list Call) :
  (conn_IsConnected (m_pConnection s) = true →
   emitted (FactoryReset s) = emitted s ++ [cmd_f; cmd_g]
   ∧ m_aPendingCommands (m_pConnection (FactoryReset s))
     = m_aPendingCommands (m_pConnection s)
       ++ [(cmd_f, NoCompletion); (cmd_g, FactoryResetReadback)])
  ∧ (conn_IsConnected (m_pConnection s) = false → FactoryReset s = s)
  ∧ (m_pUpdateCallback s = true →
     ∃ pad, delivered (run_completion FactoryResetReadback s)
            = delivered s
              ++ [(pad, SMXUpdateCallback_FactoryResetCommandComplete)])
  ∧ (Forall (λ c, c ≠ CallFactoryReset) calls →
     ∀ pad, (pad, SMXUpdateCallback_FactoryResetCommandComplete)
            ∉ delivered (run SMXDevice_new calls)).
Proof.
  split; [| split; [| split]].
  - intros Hc. unfold FactoryReset, SendCommandLocked, conn_IsConnected in *.
    rewrite Hc. cbn [set_emitted set_m_pConnection m_pConnection
                     conn_SendCommand m_bOpen]. rewrite Hc.
    cbn [set_emitted set_m_pConnection m_pConnection conn_SendCommand
         emitted m_aPendingCommands].
    rewrite <- !app_assoc. split; reflexivity.
  - intros Hc. unfold FactoryReset, SendCommandLocked. rewrite Hc, Hc.
    reflexivity.
  - intros Hcb. cbn [run_completion]. unfold CallUpdateCallback.
    rewrite Hcb. cbn [negb]. eexists. reflexivity.
  - intros Hcalls.
    assert (∀ t, no_factory_reset t → no_factory_reset (run t calls)) as Hrun.
    { induction Hcalls as [| c calls Hc _ IH]; intros t Ht; [exact Ht |].
      unfold run. cbn [foldl]. apply IH, call_no_factory_reset; assumption. }
    apply Hrun. split.
    + unfold not_queued. cbn. apply not_elem_of_nil.
    + intros pad. cbn. apply not_elem_of_nil.
Qed.

(** ** The in-flight flag after a close *)

Lemma write_flag_orphaned_same (s s' : SMXDevice) :
  m_aPendingCommands (m_pConnection s') = m_aPendingCommands (m_pConnection s) →
  m_bSendingConfig s' = m_bSendingConfig s →
  write_flag_orphaned s → write_flag_orphaned s'.
Proof.
  unfold write_flag_orphaned, not_queued. intros -> ->. auto.
Qed.

Lemma write_flag_orphaned_SendCommandLocked (cmd : list byte) (k : Completion)
    (s : SMXDevice) :
  k ≠ SendConfigComplete →
  write_flag_orphaned s → write_flag_orphaned (SendCommandLocked cmd k s).
Proof.
  intros Hk [Hf Hq]. split.
  - destruct (SendCommandLocked_traces cmd k s) as [_ ->]. exact Hf.
  - apply not_queued_SendCommandLocked; assumption.
Qed.

Lemma call_write_flag_orphaned (c : Call) (s : SMXDevice) :
  write_flag_orphaned s → write_flag_orphaned (call s c).
Proof.
  intros Hs. destruct c; cbn [call].
  - revert Hs. apply write_flag_orphaned_same; [| reflexivity].
    unfold OpenDeviceHandle, conn_Open. destruct ok; reflexivity.
  - unfold CloseDevice.
    match goal with
    | |- context [CallUpdateCallback ?r ?t] =>
        destruct (CallUpdateCallback_frame r t) as [d ->]
    end.
    destruct Hs as [Hf _]. split; [exact Hf |].
    unfold not_queued. cbn. apply not_elem_of_nil.
  - revert Hs. apply write_flag_orphaned_same; reflexivity.
  - apply write_flag_orphaned_SendCommandLocked; [discriminate | exact Hs].
  - revert Hs. apply write_flag_orphaned_same; reflexivity.
  - unfold FactoryReset.
    do 2 (apply write_flag_orphaned_SendCommandLocked; [discriminate |]).
    exact Hs.
  - apply write_flag_orphaned_SendCommandLocked; [discriminate | exact Hs].
  - revert Hs. apply write_flag_orphaned_same; reflexivity.
  - apply (Update_preserves_pump write_flag_orphaned (λ _, true));
      [ | | | | | | | | exact Hs].
    + intros q t. apply (write_flag_orphaned_same t); reflexivity.
    + intros t Ht.
      destruct (CallUpdateCallback_frame SMXUpdateCallback_Updated t) as [d ->].
      revert Ht. apply write_flag_orphaned_same; reflexivity.
    + intros t [Hf Hq]. split;
        [| apply not_queued_CheckActive; [discriminate | exact Hq]].
      destruct (CheckActive_traces t) as [_ ->]. exact Hf.
    + intros t [Hf Hq]. rewrite SendConfig_idle by auto. split; assumption.
    + intros t [Hf Hq]. split;
        [| apply not_queued_UpdateTestMode; [discriminate | exact Hq]].
      destruct (UpdateTestMode_traces ticks t) as [_ ->]. exact Hf.
    + intros t [Hf Hq].
      destruct (not_queued_pump SendConfigComplete io t Hq) as [Hks Hrest].
      match goal with
      | |- write_flag_orphaned (foldl ?f ?t0 ?ks) =>
          destruct (run_completions_sending ks t0) as [Hconn Hflag]
      end.
      split.
      * rewrite Hflag. destruct (decide _) as [Hin | _]; [contradiction |].
        exact Hf.
      * unfold not_queued. rewrite Hconn. exact Hrest.
    + intros buf t _ [Hf Hq].
      destruct (dispatch_packet_frame buf t) as (Hconn & _ & Hflag & _).
      split; [rewrite Hflag; exact Hf |].
      unfold not_queued. rewrite Hconn. exact Hq.
    + intros _ _. apply forallb_forall. reflexivity.
Qed.

(** What the steps before the pump add to the transport's queue carries no
    completion. *)
Lemma SendCommandLocked_queue (cmd : list byte) (k : Completion)
    (s : SMXDevice) :
  ∃ extra,
    m_aPendingCommands (m_pConnection (SendCommandLocked cmd k s))
    = m_aPendingCommands (m_pConnection s) ++ extra
    ∧ Forall (λ p, p.2 = k) extra.
Proof.
  unfold SendCommandLocked. destruct (conn_IsConnected (m_pConnection s)).
  - exists [(cmd, k)]. split; [reflexivity |]. repeat constructor.
  - exists []. rewrite app_nil_r. split; [reflexivity | constructor].
Qed.

Lemma before_pump_queue (ticks : Z) (s : SMXDevice) :
  m_bSendingConfig s = true →
  let pre := UpdateTestMode ticks (SendConfig (CheckActive s)) in
  m_bSendingConfig pre = true
  ∧ ∃ extra,
      m_aPendingCommands (m_pConnection pre)
      = m_aPendingCommands (m_pConnection s) ++ extra
      ∧ Forall (λ p, p.2 = NoCompletion) extra.
Proof.
  intros Hf pre.
  assert (Hca : ∃ extra,
            m_aPendingCommands (m_pConnection (CheckActive s))
            = m_aPendingCommands (m_pConnection s) ++ extra
            ∧ Forall (λ p, p.2 = NoCompletion) extra).
  { unfold CheckActive. case_match.
    - exists []. rewrite app_nil_r. split; [reflexivity | constructor].
    - match goal with
      | |- context [SendCommandLocked cmd_g NoCompletion ?t] =>
          destruct (SendCommandLocked_queue cmd_g NoCompletion t)
            as (e2 & -> & H2)
      end.
      match goal with
      | |- context [SendCommandLocked cmd_R NoCompletion ?t] =>
          destruct (SendCommandLocked_queue cmd_R NoCompletion t)
            as (e1 & -> & H1)
      end.
      exists (e1 ++ e2). rewrite <- app_assoc. split; [reflexivity |].
      apply Forall_app. auto. }
  destruct (CheckActive_traces s) as [_ Hf1]. rewrite Hf in Hf1.
  assert (Hsc : SendConfig (CheckActive s) = CheckActive s)
    by (apply SendConfig_idle; auto).
  assert (Hut : ∃ extra,
            m_aPendingCommands (m_pConnection pre)
            = m_aPendingCommands (m_pConnection (CheckActive s)) ++ extra
            ∧ Forall (λ p, p.2 = NoCompletion) extra).
  { subst pre. rewrite Hsc. unfold UpdateTestMode.
    repeat case_match;
      try (exists []; rewrite app_nil_r; split; [reflexivity | constructor]).
    all: match goal with
         | |- context [SendCommandLocked ?cmd NoCompletion ?t] =>
             destruct (SendCommandLocked_queue cmd NoCompletion t)
               as (e & -> & He)
         end; exists e; split; [reflexivity | exact He]. }
  split.
  - subst pre. rewrite Hsc.
    destruct (UpdateTestMode_traces ticks (CheckActive s)) as [_ ->].
    exact Hf1.
  - destruct Hca as (e1 & Hq1 & H1), Hut as (e2 & Hq2 & H2).
    exists (e1 ++ e2). rewrite Hq2, Hq1, <- app_assoc.
    split; [reflexivity |]. apply Forall_app. auto.
Qed.

(** The in-flight flag after a cycle on an open connection. *)
Lemma Update_sending_flag (ticks : Z) (io : PumpIO) (s : SMXDevice) :
  conn_IsConnected (m_pConnection s) = true →
  m_bSendingConfig s = true →
  m_bSendingConfig (Update ticks io s)
  = if decide (SendConfigComplete
               ∈ (take (io_sent io) (m_aPendingCommands (m_pConnection s))).*2)
    then false else true.
Proof.
  intros Hc Hf.
  destruct (before_pump_queue ticks s Hf) as (Hpre & extra & Hq & Hextra).
  unfold Update. rewrite Hc. cbn [negb].
  set (pre := UpdateTestMode ticks (SendConfig (CheckActive s))) in *.
  unfold conn_Update.
  match goal with
  | |- context [foldl ?f ?t0 ?ks] =>
      destruct (run_completions_sending ks t0) as [Hconn Hflag];
      set (t1 := foldl f t0 ks) in *
  end.
  cbn [set_m_pConnection m_bSendingConfig m_pConnection] in Hconn, Hflag.
  rewrite Hpre, Hq in Hflag.
  assert (m_bSendingConfig t1
          = if decide (SendConfigComplete
                       ∈ (take (io_sent io)
                            (m_aPendingCommands (m_pConnection s))).*2)
            then false else true) as Ht1.
  { rewrite Hflag. rewrite take_app, fmap_app.
    destruct (decide (SendConfigComplete
                      ∈ (take (io_sent io)
                           (m_aPendingCommands (m_pConnection s))).*2))
      as [Hin | Hnin].
    - rewrite decide_True by (apply elem_of_app; left; exact Hin).
      reflexivity.
    - rewrite decide_False; [reflexivity |].
      intros Hin. apply elem_of_app in Hin as [Hin | Hin]; [auto |].
      apply list_elem_of_fmap in Hin as ([cmd k] & Hk & Hin).
      cbn in Hk. subst k.
      pose proof (proj1 (Forall_forall _ _) Hextra (cmd, SendConfigComplete))
        as Hno.
      assert ((cmd, SendConfigComplete) ∈ extra) as Hmem.
      { apply (subseteq_take _ _ _ Hin). }
      specialize (Hno Hmem). discriminate Hno. }
  destruct (io_fail io); [exact Ht1 |].
  match goal with
  | |- m_bSendingConfig (HandlePackets ?t) = _ =>
      assert (m_bSendingConfig t = m_bSendingConfig t1) as Ht;
      [| rewrite <- Ht1, <- Ht; generalize t; intros u ]
  end.
  { destruct (negb _); [| reflexivity].
    destruct (CallUpdateCallback_frame SMXUpdateCallback_Updated t1) as [d ->].
    reflexivity. }
  unfold HandlePackets.
  apply (HandlePackets_loop_preserves
           (λ v, m_bSendingConfig v = m_bSendingConfig u) (λ _, true)).
  - intros q v Hv. exact Hv.
  - intros buf v _ Hv.
    destruct (dispatch_packet_frame buf v) as (_ & _ & -> & _). exact Hv.
  - reflexivity.
  - apply forallb_forall. reflexivity.
  - reflexivity.
Qed.

(** A call other than [Update] leaves the in-flight flag alone. *)
Lemma call_keeps_sending_flag (c : Call) (s : SMXDevice) :
  (∀ ticks io, c ≠ CallUpdate ticks io) →
  m_bSendingConfig (call s c) = m_bSendingConfig s.
Proof.
  intros Hc. destruct c; cbn [call].
  - unfold OpenDeviceHandle. reflexivity.
  - unfold CloseDevice.
    match goal with
    | |- context [CallUpdateCallback ?r ?t] =>
        destruct (CallUpdateCallback_frame r t) as [d ->]
    end.
    reflexivity.
  - reflexivity.
  - apply SendCommandLocked_traces.
  - reflexivity.
  - unfold FactoryReset.
    destruct (SendCommandLocked_traces cmd_g FactoryResetReadback
                (SendCommandLocked cmd_f NoCompletion s)) as [_ ->].
    apply SendCommandLocked_traces.
  - apply SendCommandLocked_traces.
  - reflexivity.
  - exfalso. exact (Hc ticks io eq_refl).
Qed.

(** X14. Once set, [m_bSendingConfig] is cleared by one thing only: an
    [Update] on an open connection whose pump reports the command carrying
    the write's completion fully sent. No other call clears it,
    [CloseDevice] included, and while it is set [SendConfig] does nothing,
    so a configuration given to [SetConfig] is not written. Hence, if the
    flag is set while no queued command carries that completion, it stays
    set along every run of calls and no configuration is written again. *)
Theorem write_flag_cleared_only_by_completion (s : SMXDevice) (c : Call)
    (calls : list Call) (cfg : SMXConfig) :
  m_bSendingConfig s = true →
  (m_bSendingConfig (call s c) = false ↔
     ∃ ticks io,
       c = CallUpdate ticks io
       ∧ conn_IsConnected (m_pConnection s) = true
       ∧ SendConfigComplete
         ∈ (take (io_sent io) (m_aPendingCommands (m_pConnection s))).*2)
  ∧ m_bSendingConfig (CloseDevice s) = true
  ∧ SendConfig s = s
  ∧ SendConfig (SetConfig cfg s) = SetConfig cfg s
  ∧ (not_queued SendConfigComplete s →
     let t := run s calls in
     m_bSendingConfig t = true
     ∧ SendConfig t = t
     ∧ SendConfig (SetConfig cfg t) = SetConfig cfg t).
Proof.
  intros Hf. split; [| split; [| split; [| split]]].
  - split.
    + intros Hclear.
      destruct c;
        try (rewrite call_keeps_sending_flag in Hclear by discriminate;
             congruence).
      exists ticks, io. split; [reflexivity |]. cbn [call] in Hclear.
      destruct (conn_IsConnected (m_pConnection s)) eqn:Hc.
      * split; [reflexivity |].
        rewrite (Update_sending_flag ticks io s Hc Hf) in Hclear.
        destruct (decide _) as [Hin | _]; [exact Hin | discriminate].
      * rewrite Update_not_connected in Hclear by exact Hc. congruence.
    + intros (ticks & io & -> & Hc & Hin). cbn [call].
      rewrite (Update_sending_flag ticks io s Hc Hf).
      rewrite decide_True by exact Hin. reflexivity.
  - rewrite <- Hf. apply (call_keeps_sending_flag CallCloseDevice s).
    discriminate.
  - apply SendConfig_idle. auto.
  - apply SendConfig_idle. auto.
  - intros Hq t.
    assert (write_flag_orphaned t) as [Hft _].
    { subst t. assert (write_flag_orphaned s) as H0 by (split; assumption).
      revert H0. generalize s.
      induction calls as [| c0 calls IH]; intros u Hu; [exact Hu |].
      unfold run. cbn [foldl]. apply IH, call_write_flag_orphaned, Hu. }
    split; [exact Hft |]. split; apply SendConfig_idle; auto.
Qed.

(** ** The notification of an input change *)

(** The pad number [CallUpdateCallback] reports: [deviceInfo.m_bP2 ? 1 : 0]. *)
Definition PadNumber (s : SMXDevice) : Z :=
  if m_bP2 (m_pConnection s) then 1 else 0.

(** [s'] has the input bitmask, the unit flag, the buffered packets, the
    callback registration and the notifications of [s]. *)
Definition input_eq (s s' : SMXDevice) : Prop :=
  m_iInputState (m_pConnection s') = m_iInputState (m_pConnection s)
  ∧ m_bP2 (m_pConnection s') = m_bP2 (m_pConnection s)
  ∧ m_sReadBuffers (m_pConnection s') = m_sReadBuffers (m_pConnection s)
  ∧ m_pUpdateCallback s' = m_pUpdateCallback s
  ∧ delivered s' = delivered s.

Lemma before_pump_input (ticks : Z) (s : SMXDevice) :
  input_eq s (UpdateTestMode ticks (SendConfig (CheckActive s))).
Proof.
  assert (∀ t, input_eq t (CheckActive t)) as Hca.
  { intros t. unfold CheckActive, SendCommandLocked.
    repeat case_match; repeat split. }
  assert (∀ t, input_eq t (SendConfig t)) as Hsc.
  { intros t. destruct (SendConfig_cases t) as [-> | (_ & _ & _ & _ & ->)];
      repeat split. }
  assert (∀ t, input_eq t (UpdateTestMode ticks t)) as Hut.
  { intros t. unfold UpdateTestMode, SendCommandLocked.
    repeat case_match; repeat split. }
  destruct (Hca s) as (A1 & A2 & A3 & A4 & A5).
  destruct (Hsc (CheckActive s)) as (B1 & B2 & B3 & B4 & B5).
  destruct (Hut (SendConfig (CheckActive s))) as (C1 & C2 & C3 & C4 & C5).
  repeat split; congruence.
Qed.

(** The completions run in a pump deliver one FactoryResetCommandComplete
    for each factory-reset readback among them, and nothing else. *)
Lemma run_completions_resets (ks : list Completion) (s : SMXDevice) :
  m_pUpdateCallback s = true →
  let s' := foldl (λ s k, run_completion k s) s ks in
  m_pConnection s' = m_pConnection s
  ∧ m_pUpdateCallback s' = true
  ∧ delivered s'
    = delivered s
      ++ ((λ _, (PadNumber s, SMXUpdateCallback_FactoryResetCommandComplete))
          <$> filter (λ k, k = FactoryResetReadback) ks).
Proof.
  cbv zeta. revert s. induction ks as [| k ks IH]; intros s Hcb.
  - cbn. rewrite app_nil_r. auto.
  - cbn [foldl].
    assert (m_pConnection (run_completion k s) = m_pConnection s
            ∧ m_pUpdateCallback (run_completion k s) = true
            ∧ delivered (run_completion k s)
              = delivered s
                ++ (if decide (k = FactoryResetReadback)
                    then [(PadNumber s,
                           SMXUpdateCallback_FactoryResetCommandComplete)]
                    else [])) as (Hconn & Hcb' & Hdel).
    { destruct k; cbn [run_completion]; unfold CallUpdateCallback;
        rewrite ?Hcb; cbn [negb]; rewrite ?app_nil_r; repeat split;
        try assumption. }
    destruct (IH (run_completion k s) Hcb') as (-> & -> & ->).
    split; [exact Hconn |]. split; [reflexivity |].
    rewrite Hdel. unfold PadNumber. rewrite Hconn.
    destruct (decide (k = FactoryResetReadback)) as [Hk | Hk].
    + rewrite filter_cons_True by exact Hk. rewrite <- app_assoc. reflexivity.
    + rewrite filter_cons_False by exact Hk. rewrite app_nil_r. reflexivity.
Qed.

(** A dispatched packet delivers nothing or one Updated. *)
Lemma dispatch_packet_update (buf : list byte) (s : SMXDevice) :
  m_pConnection (dispatch_packet buf s) = m_pConnection s
  ∧ (delivered (dispatch_packet buf s) = delivered s
     ∨ delivered (dispatch_packet buf s)
       = delivered s ++ [(PadNumber s, SMXUpdateCallback_Updated)]).
Proof.
  split; [apply (dispatch_packet_frame buf s) |].
  assert (∀ t, delivered t = delivered s → m_pConnection t = m_pConnection s →
               delivered (CallUpdateCallback SMXUpdateCallback_Updated t)
               = delivered s
               ∨ delivered (CallUpdateCallback SMXUpdateCallback_Updated t)
                 = delivered s ++ [(PadNumber s, SMXUpdateCallback_Updated)])
    as Hcb.
  { intros t Ht Hconn. unfold CallUpdateCallback, PadNumber.
    destruct (m_pUpdateCallback t); cbn [negb]; [| left; exact Ht].
    right. cbn [set_delivered delivered]. rewrite Ht, Hconn. reflexivity. }
  rewrite dispatch_packet_cases.
  destruct buf as [| tag rest]; [left; reflexivity |].
  destruct (Byte.eqb tag x79).
  - destruct (response_accepted (tag :: rest) s) eqn:Hacc.
    + destruct (response_accepted_inv _ s Hacc) as (Hc & Hw & Hm & Ha).
      rewrite HandleSensorTestDataResponse_accepted by assumption.
      apply Hcb; reflexivity.
    + left.
      destruct (HandleSensorTestDataResponse_rejected _ s Hacc)
        as [-> | [-> | [-> | (_ & _ & ->)]]]; reflexivity.
  - destruct (Byte.eqb tag x67); [| left; reflexivity].
    destruct (negb (length (tag :: rest) <? 2)%nat
              && negb (Z.of_nat (length (tag :: rest))
                       <? byte_Z (at_byte (tag :: rest) 1) + 2)) eqn:Hok.
    + rewrite handle_config_packet_ok by exact Hok. apply Hcb; reflexivity.
    + rewrite handle_config_packet_bad by exact Hok. left. reflexivity.
Qed.

(** The packet loop only appends Updated notifications, at most one for
    each packet. *)
Lemma HandlePackets_loop_updates (queue : list (list byte)) (s : SMXDevice) :
  m_sReadBuffers (m_pConnection s) = queue →
  ∃ after,
    delivered (HandlePackets_loop queue s) = delivered s ++ after
    ∧ Forall (λ e, e = (PadNumber s, SMXUpdateCallback_Updated)) after
    ∧ (length after <= length queue)%nat.
Proof.
  revert s. induction queue as [| buf rest IH]; intros s Hq.
  - exists []. cbn. rewrite app_nil_r. repeat split; [constructor | lia].
  - destruct (HandlePackets_loop_step buf rest s Hq) as [-> Hq'].
    destruct (IH _ Hq') as (after & -> & Hall & Hlen).
    destruct (dispatch_packet_update buf (with_packets rest s))
      as [Hconn Hdel].
    assert (PadNumber (dispatch_packet buf (with_packets rest s))
            = PadNumber s) as Hpad
      by (unfold PadNumber; rewrite Hconn; reflexivity).
    rewrite Hpad in Hall.
    change (PadNumber (with_packets rest s)) with (PadNumber s) in Hdel.
    change (delivered (with_packets rest s)) with (delivered s) in Hdel.
    destruct Hdel as [-> | ->].
    + exists after. repeat split; [exact Hall | cbn [length]; lia].
    + exists ((PadNumber s, SMXUpdateCallback_Updated) :: after).
      rewrite <- app_assoc. repeat split.
      * constructor; [reflexivity | exact Hall].
      * cbn [length]. lia.
Qed.

(** X15. When the input bitmask the transport reports after the pump
    differs from the one before it, the pump did not fail and a callback is
    registered, a cycle calls the update callback with reason Updated at a
    fixed place: on the device [t1] as the completions run by the pump left
    it, whose notifications are those of the start followed by one
    FactoryResetCommandComplete for each factory-reset readback completed;
    and the packets are dispatched from the device [t2] that this call
    leaves. The dispatch only appends Updated notifications, at most one
    for each packet queued. All are reported for the pad the pump
    identified. *)
Theorem Update_input_change_notifies (ticks : Z) (io : PumpIO) (s : SMXDevice) :
  conn_IsConnected (m_pConnection s) = true →
  io_fail io = false →
  m_pUpdateCallback s = true →
  io_input io ≠ m_iInputState (m_pConnection s) →
  let pre := UpdateTestMode ticks (SendConfig (CheckActive s)) in
  let pumped := conn_Update io (m_pConnection pre) in
  let t1 := foldl (λ s k, run_completion k s)
              (set_m_pConnection pumped.1 pre) pumped.2 in
  let t2 := CallUpdateCallback SMXUpdateCallback_Updated t1 in
  let pad := if default (m_bP2 (m_pConnection s)) (io_identity io)
             then 1 else 0 in
  Update ticks io s = HandlePackets t2
  ∧ delivered t1
    = delivered s
      ++ ((λ _, (pad, SMXUpdateCallback_FactoryResetCommandComplete))
          <$> filter (λ k, k = FactoryResetReadback) pumped.2)
  ∧ delivered t2 = delivered t1 ++ [(pad, SMXUpdateCallback_Updated)]
  ∧ ∃ after,
      delivered (Update ticks io s) = delivered t2 ++ after
      ∧ Forall (λ e, e = (pad, SMXUpdateCallback_Updated)) after
      ∧ (length after
         <= length (m_sReadBuffers (m_pConnection s) ++ io_received io))%nat.
Proof.
  intros Hc Hf Hcb Hin pre pumped t1 t2 pad.
  destruct (before_pump_input ticks s) as (Hinput & Hp2 & Hbuf & Hcb' & Hdel).
  fold pre in Hinput, Hp2, Hbuf, Hcb', Hdel.
  destruct (run_completions_resets pumped.2 (set_m_pConnection pumped.1 pre))
    as (Hconn1 & Hcb1 & Hdel1).
  { cbn [set_m_pConnection m_pUpdateCallback]. congruence. }
  fold t1 in Hconn1, Hcb1, Hdel1.
  cbn [set_m_pConnection m_pConnection delivered] in Hconn1, Hdel1.
  assert (PadNumber (set_m_pConnection pumped.1 pre) = pad) as Hpad.
  { unfold PadNumber, pad, pumped, conn_Update.
    cbn [set_m_pConnection m_pConnection fst m_bP2]. rewrite Hp2.
    reflexivity. }
  rewrite Hpad, Hdel in Hdel1.
  assert (PadNumber t1 = pad) as Hpad1.
  { rewrite <- Hpad. unfold PadNumber. rewrite Hconn1. reflexivity. }
  assert (delivered t2 = delivered t1 ++ [(pad, SMXUpdateCallback_Updated)])
    as Hdel2.
  { unfold t2, CallUpdateCallback. rewrite Hcb1. cbn [negb].
    cbn [set_delivered delivered]. fold (PadNumber t1). rewrite Hpad1.
    reflexivity. }
  assert (Update ticks io s = HandlePackets t2) as Hupd.
  { unfold Update. rewrite Hc, Hf. cbn [negb]. fold pre.
    change (conn_Update io (m_pConnection pre)) with pumped.
    destruct pumped as [c completed] eqn:Hpumped. cbn [fst snd] in *.
    fold t1. rewrite Hconn1.
    assert (m_iInputState c = io_input io) as ->.
    { unfold conn_Update in Hpumped. injection Hpumped as <- _. reflexivity. }
    rewrite Hinput.
    destruct (Z.eqb_spec (m_iInputState (m_pConnection s)) (io_input io))
      as [Heq | _]; [congruence |].
    reflexivity. }
  split; [exact Hupd |]. split; [exact Hdel1 |]. split; [exact Hdel2 |].
  rewrite Hupd. unfold HandlePackets.
  destruct (HandlePackets_loop_updates (m_sReadBuffers (m_pConnection t2)) t2
              eq_refl) as (after & Hafter & Hall & Hlen).
  exists after. split; [exact Hafter |].
  assert (m_pConnection t2 = pumped.1) as Hconn2.
  { unfold t2.
    destruct (CallUpdateCallback_frame SMXUpdateCallback_Updated t1) as [d ->].
    exact Hconn1. }
  assert (PadNumber t2 = pad) as Hpad2.
  { rewrite <- Hpad. unfold PadNumber. rewrite Hconn2. reflexivity. }
  rewrite Hpad2 in Hall. split; [exact Hall |].
  rewrite Hconn2 in Hlen. unfold pumped, conn_Update in Hlen.
  cbn [fst m_sReadBuffers] in Hlen. rewrite Hbuf in Hlen. exact Hlen.
Qed.

End Device.

(** ** Concrete devices *)

(** The examples use a 4-byte [SMXConfig] and [SensorTestMode_Off = 0];
    the sensor-test modes are the characters ['0'] (48) and ['1'] (49). *)
Definition pad_config : SMXConfig := [x01; x02; x03; x04].

(** A cycle in which the identity and a configuration readback arrive. *)
Definition first_cycle : PumpIO :=
  {| io_fail := false; io_identity := Some false; io_input := 0;
     io_received := [x67 :: x04 :: pad_config]; io_sent := 0 |}.

(** A cycle in which nothing arrives and nothing is sent. *)
Definition quiet_cycle : PumpIO :=
  {| io_fail := false; io_identity := None; io_input := 0;
     io_received := []; io_sent := 0 |}.

(** A pad that was opened and has read its configuration. *)
Definition pad_ready : SMXDevice :=
  run 4 0 (SMXDevice_new 4 0)
    [CallSetUpdateCallback true; CallOpenDeviceHandle true;
     CallUpdate 0 first_cycle].

(** The same pad after a sensor-test request for mode ['0'] at tick 0. *)
Definition pad_requested : SMXDevice :=
  UpdateTestMode 0 0 (SetSensorTestMode 48 pad_ready).

(** A response echoing mode ['1'], with no words. *)
Definition stale_response : list byte := [x79; x31; x00].

(** A response echoing mode ['0'] with the three words 2, 3, 0: panel 0
    reads the header 0,1,0 and panel 1 reads 1,1,0. *)
Definition good_response : list byte :=
  [x79; x30; x03; x02; x00; x03; x00; x00; x00].

(** The pad with sensor-test data received and a new request outstanding
    since tick 7. *)
Definition pad_with_data : SMXDevice :=
  UpdateTestMode 0 7 (HandleSensorTestDataResponse 0 good_response pad_requested).

(** A configuration readback that declares 5 bytes and carries 1, and a
    well-formed one. *)
Definition short_readback : list byte := [x67; x05; x09].
Definition full_readback : list byte := [x67; x04; x0a; x0b; x0c; x0d].

Example pad_ready_state :
  IsConnected pad_ready = true
  ∧ GetConfig pad_ready = (pad_config, true)
  ∧ emitted pad_ready = []
  ∧ delivered pad_ready = [(0, SMXUpdateCallback_Updated)].
Proof. vm_compute. repeat split; reflexivity. Qed.

Example pad_requested_state :
  m_WaitingForSensorTestModeResponse pad_requested = 48
  ∧ emitted pad_requested = [[x79; x30; x0a]].
Proof. vm_compute. split; reflexivity. Qed.

Example ReadDataForPanel_example :
  ReadDataForPanel [1; 0; 1; 1; 0; 0; 0; 0; 1; 2] 0 2 = [13; 1]
  ∧ ReadDataForPanel [1; 2; 3; 2] 1 3 = [14; 0; 0].
Proof. split; reflexivity. Qed.

Example good_response_decoded :
  GetTestData (HandleSensorTestDataResponse 0 good_response pad_requested)
  = Some {| bHaveDataFromPanel :=
              [true; false; false; false; false; false; false; false; false];
            sensorLevel := replicate 9 [0; 0; 0; 0];
            bBadSensorInput := replicate 9 [false; false; false; false];
            iDIPSwitchPerPanel := replicate 9 0 |}.
Proof. vm_compute. reflexivity. Qed.

(** ** The properties at concrete devices *)

(** C1 on the ready pad with a new configuration set, and on a run with two
    [SetConfig] calls. *)
Lemma SendConfig_one_write_in_flight_witness :
  emitted (SendConfig 4 (SetConfig [x05; x06; x07; x08] pad_ready))
  = [[x77; x04; x05; x06; x07; x08]; [x67; x0a]]
  ∧ (writes_in_flight
       (run 4 0 (SMXDevice_new 4 0)
          [CallOpenDeviceHandle true; CallUpdate 0 first_cycle;
           CallSetConfig [x05; x06; x07; x08]; CallUpdate 1 quiet_cycle;
           CallSetConfig [x09; x09; x09; x09]; CallUpdate 2 quiet_cycle])
     <= 1)%nat.
Proof.
  pose proof (SendConfig_one_write_in_flight 4 0
                (SetConfig [x05; x06; x07; x08] pad_ready) [] []
                [CallOpenDeviceHandle true; CallUpdate 0 first_cycle;
                 CallSetConfig [x05; x06; x07; x08]; CallUpdate 1 quiet_cycle;
                 CallSetConfig [x09; x09; x09; x09]; CallUpdate 2 quiet_cycle]
                0 quiet_cycle)
    as (_ & _ & _ & Hwrite & Hone & _).
  split; [| exact Hone].
  destruct Hwrite as (Hemit & _); [reflexivity .. |].
  exact Hemit.
Defined.

(** C2 with the confirmed configuration set again, and after a close. *)
Lemma SetConfig_GetConfig_witness :
  emitted (SendConfig 4 (SetConfig pad_config pad_ready))
  = [[x77; x04; x01; x02; x03; x04]; [x67; x0a]]
  ∧ (GetConfig
       (run 4 0 (CloseDevice pad_ready)
          [CallOpenDeviceHandle true; CallSetConfig pad_config;
           CallUpdate 5 quiet_cycle])).2 = false.
Proof.
  pose proof (SetConfig_GetConfig 4 0 pad_config pad_ready [] 0 quiet_cycle)
    as (_ & _ & _ & _ & _ & _ & _ & Hsame & _).
  pose proof (SetConfig_GetConfig 4 0 pad_config (CloseDevice pad_ready)
                [CallOpenDeviceHandle true; CallSetConfig pad_config;
                 CallUpdate 5 quiet_cycle] 0 quiet_cycle)
    as (_ & _ & _ & _ & _ & _ & _ & _ & _ & _ & _ & _ & _ & _ & Hfalse & _).
  split.
  - apply Hsame; reflexivity.
  - apply Hfalse; reflexivity.
Defined.

(** C3 for panel 1 of four words and three output bytes. *)
Lemma ReadDataForPanel_unpacks_witness :
  length (ReadDataForPanel [1; 2; 3; 2] 1 3) = 3%nat
  ∧ ∀ i, (i < 3)%nat →
      ∃ out_i, ReadDataForPanel [1; 2; 3; 2] 1 3 !! i = Some out_i
        ∧ 0 <= out_i < 256
        ∧ ∀ j, (j < 8)%nat →
            Z.testbit out_i (Z.of_nat j)
            = match [1; 2; 3; 2] !! (8 * i + j)%nat with
              | Some w => Z.testbit w 1
              | None => false
              end.
Proof. apply (ReadDataForPanel_unpacks [1; 2; 3; 2] 1 3). lia. Defined.

(** C4 on a response whose panel 0 has the header and whose panel 1 reads
    1,1,0. *)
Lemma sensor_test_response_decoded_witness :
  let s' := HandleSensorTestDataResponse 0 good_response pad_requested in
  m_HaveSensorTestModeData s' = true
  ∧ m_SensorTestData s' = reports_output [2; 3; 0]
  ∧ bHaveDataFromPanel (m_SensorTestData s') !! 0%nat = Some true
  ∧ sensorLevel (m_SensorTestData s') !! 0%nat = Some [0; 0; 0; 0]
  ∧ bHaveDataFromPanel (m_SensorTestData s') !! 1%nat = Some false.
Proof.
  destruct (sensor_test_response_decoded 0 good_response pad_requested)
    as (Hhave & Hout & Hpanels);
    [reflexivity | discriminate | reflexivity | reflexivity |].
  split; [exact Hhave |]. split; [exact Hout |].
  destruct (Hpanels 0%nat ltac:(lia)) as (_ & _ & _ & Hzero & _).
  destruct (Hpanels 1%nat ltac:(lia)) as (_ & _ & _ & _ & Hbad).
  destruct Hzero as (H0 & _ & H0' & _);
    [reflexivity | reflexivity | reflexivity | |].
  { intros k Hk. unfold panel_bit.
    change (response_words good_response) with [2; 3; 0].
    destruct k as [| [| [| k]]]; [lia | lia | lia | reflexivity]. }
  destruct Hbad as (H1 & _); [reflexivity | reflexivity | reflexivity |].
  split; [exact H0 |]. split; [exact H0' | exact H1].
Defined.

(** C5: a stale response, then the awaited one, with no request between. *)
Lemma mismatched_response_keeps_request_witness :
  let s1 := HandleSensorTestDataResponse 0 stale_response pad_requested in
  let s2 := HandleSensorTestDataResponse 0 good_response s1 in
  m_WaitingForSensorTestModeResponse s1 = 48
  ∧ emitted s2 = emitted pad_requested
  ∧ m_HaveSensorTestModeData s2 = true.
Proof.
  destruct (mismatched_response_keeps_request 0 stale_response good_response
              pad_requested)
    as (_ & Hkept & _ & _ & _ & _ & Hnext);
    [reflexivity | discriminate | discriminate |].
  split; [exact Hkept |].
  destruct Hnext as (_ & Hhave & _ & Hemit); [reflexivity .. |].
  split; [exact Hemit | exact Hhave].
Defined.

(** C6 at ticks 1999 and 2001 for a request sent at tick 0. *)
Lemma UpdateTestMode_request_witness :
  UpdateTestMode 0 1999 pad_requested = pad_requested
  ∧ emitted (UpdateTestMode 0 2001 pad_requested)
    = [[x79; x30; x0a]; [x79; x30; x0a]]
  ∧ m_SentSensorTestModeRequestAtTicks (UpdateTestMode 0 2001 pad_requested)
    = 2001.
Proof.
  destruct (UpdateTestMode_request 4 0 1999 pad_requested) as (Hwait & _);
    [discriminate |].
  destruct (UpdateTestMode_request 4 0 2001 pad_requested)
    as (_ & Hsend & _ & Hlate & _); [discriminate |].
  split; [apply Hwait; [discriminate | reflexivity] |].
  split; [apply Hlate; reflexivity |].
  destruct Hsend as (_ & Hticks & _); [right; discriminate |].
  exact Hticks.
Defined.

(** C7 with a short readback followed by a full one. *)
Lemma malformed_config_packet_dropped_witness :
  let s := HandlePackets 4 0
             (with_packets [short_readback; full_readback] pad_ready) in
  dispatch_packet 4 0 short_readback pad_ready
  = Log LogInvalidConfigurationPacket pad_ready
  ∧ s = HandlePackets 4 0
          (Log LogInvalidConfigurationPacket
             (with_packets [full_readback] pad_ready))
  ∧ m_sReadBuffers (m_pConnection s) = [].
Proof.
  apply (malformed_config_packet_dropped 4 0 short_readback [full_readback]
           pad_ready).
  reflexivity.
Defined.

(** C8 on the ready pad: closed, reopened, and after the next readback. *)
Lemma CloseDevice_resets_readiness_witness :
  IsConnected (CloseDevice pad_ready) = false
  ∧ delivered (CloseDevice pad_ready)
    = delivered pad_ready ++ [(0, SMXUpdateCallback_Updated)]
  ∧ IsConnected
      (run 4 0 (CloseDevice pad_ready)
         [CallOpenDeviceHandle true; CallUpdate 9 quiet_cycle]) = false
  ∧ (GetConfig
       (Update 4 0 9 first_cycle
          (OpenDeviceHandle true (CloseDevice pad_ready)))).2 = true.
Proof.
  pose proof (CloseDevice_resets_readiness 4 0 pad_ready
                (OpenDeviceHandle true (CloseDevice pad_ready))
                [CallOpenDeviceHandle true; CallUpdate 9 quiet_cycle]
                9 first_cycle)
    as (_ & _ & _ & _ & _ & Hclosed & _ & Hrun & Hback & _).
  split; [exact Hclosed |]. split; [reflexivity |].
  split; [apply Hrun; reflexivity | apply Hback; reflexivity].
Defined.

(** C10 on a response declaring 130 words. *)
Lemma sensor_test_response_word_count_witness :
  let buf := [x79; x30; x82; x01; x02; x03; x04] in
  byte_Z (at_byte buf 2) = 130
  ∧ response_iSize buf = 4
  ∧ Z.of_nat (length (response_words buf)) = 2
  ∧ response_words buf = [513; 1027]
  ∧ m_HaveSensorTestModeData (HandleSensorTestDataResponse 0 buf pad_requested)
    = true
  ∧ m_SensorTestData (HandleSensorTestDataResponse 0 buf pad_requested)
    = reports_output [513; 1027]
  ∧ HandleSensorTestDataResponse 0 [x79; x30; x82; x01; x02; x03] pad_requested
    = pad_requested.
Proof.
  pose proof (sensor_test_response_word_count 0
                [x79; x30; x82; x01; x02; x03; x04] pad_requested)
    as (Hsize & _ & Hbig & _ & _ & _ & Hfull).
  pose proof (sensor_test_response_word_count 0
                [x79; x30; x82; x01; x02; x03] pad_requested)
    as (_ & _ & _ & _ & _ & Hshort & _).
  destruct Hfull as (_ & Hstored); [vm_compute; discriminate |].
  destruct Hstored as (Hhave & Hdata & _);
    [discriminate | reflexivity | reflexivity |].
  split; [reflexivity |]. split; [exact Hsize |].
  split; [apply Hbig; discriminate |]. split; [reflexivity |].
  split; [exact Hhave |]. split; [exact Hdata |].
  apply Hshort. reflexivity.
Defined.

(** ** Where the code departs from the specification *)

(** C5. A response echoing mode ['1'] while the request for mode ['0'] is
    outstanding leaves the request outstanding. *)
Lemma mismatch_keeps_request_counterexample :
  response_complete stale_response = true
  ∧ m_WaitingForSensorTestModeResponse pad_requested = 48
  ∧ response_mode stale_response = 49
  ∧ m_WaitingForSensorTestModeResponse
      (HandleSensorTestDataResponse 0 stale_response pad_requested) = 48
  ∧ ¬ mismatch_clears_request 0 stale_response pad_requested.
Proof.
  repeat (split; [vm_compute; reflexivity |]).
  intros Hclaim. unfold mismatch_clears_request in Hclaim.
  assert (m_WaitingForSensorTestModeResponse
            (HandleSensorTestDataResponse 0 stale_response pad_requested) = 0)
    as Hoff
    by (apply Hclaim; vm_compute; [reflexivity | discriminate | discriminate]).
  vm_compute in Hoff. discriminate Hoff.
Qed.

(** C7. With a malformed readback followed by a well-formed one in the
    queue, the loop logs the first, accepts the second and empties the
    queue. *)
Lemma malformed_packet_counterexample :
  let s := HandlePackets 4 0
             (with_packets [short_readback; full_readback] pad_ready) in
  config_packet_malformed short_readback = true
  ∧ logged s = [LogInvalidConfigurationPacket]
  ∧ config s = [x0a; x0b; x0c; x0d]
  ∧ m_sReadBuffers (m_pConnection s) = []
  ∧ ¬ malformed_stops_dispatch 4 0 short_readback [full_readback] pad_ready.
Proof.
  cbv zeta. repeat (split; [vm_compute; reflexivity |]).
  intros Hclaim. unfold malformed_stops_dispatch in Hclaim.
  specialize (Hclaim eq_refl).
  apply (f_equal config) in Hclaim. vm_compute in Hclaim.
  discriminate Hclaim.
Qed.

(** C9. Closing a pad that has sensor-test data and an outstanding request
    keeps both. *)
Lemma close_keeps_sensor_test_counterexample :
  let s' := CloseDevice pad_with_data in
  m_WaitingForSensorTestModeResponse s' = 48
  ∧ m_SentSensorTestModeRequestAtTicks s' = 7
  ∧ m_HaveSensorTestModeData s' = true
  ∧ GetTestData s' = GetTestData pad_with_data
  ∧ GetTestData s' ≠ None
  ∧ ¬ close_resets_sensor_test 4 0 pad_with_data.
Proof.
  cbv zeta. repeat (split; [vm_compute; reflexivity |]).
  split; [vm_compute; discriminate |].
  intros (_ & Hoff & _). vm_compute in Hoff. discriminate Hoff.
Qed.

(** ** Further properties at concrete devices *)

(** A cycle in which the pump fails after a sensor-test response arrived. *)
Definition failed_cycle : PumpIO :=
  {| io_fail := true; io_identity := None; io_input := 0;
     io_received := [good_response]; io_sent := 0 |}.

(** A cycle in which the pad reports panels 0 and 2 pressed. *)
Definition pressed_cycle : PumpIO :=
  {| io_fail := false; io_identity := None; io_input := 5;
     io_received := []; io_sent := 0 |}.

(** The same cycle with a configuration readback arriving as well. *)
Definition pressed_readback_cycle : PumpIO :=
  {| io_fail := false; io_identity := None; io_input := 5;
     io_received := [full_readback]; io_sent := 0 |}.

(** The ready pad with a configuration write in flight. *)
Definition pad_writing : SMXDevice :=
  SendConfig 4 (SetConfig [x05; x06; x07; x08] pad_ready).

(** A cycle in which the first three queued commands are fully sent. *)
Definition sent_three_cycle : PumpIO :=
  {| io_fail := false; io_identity := None; io_input := 0;
     io_received := []; io_sent := 3 |}.

(** The ready pad with the in-flight flag set and no write queued. *)
Definition pad_flag_orphaned : SMXDevice :=
  set_m_bSendingConfig true pad_ready.

(** The ready pad with a request sent 1000 ms before the tick counter
    wraps. *)
Definition pad_requested_late : SMXDevice :=
  UpdateTestMode 0 4294966296 (SetSensorTestMode 48 pad_ready).

(** X1 with an empty packet and packets tagged ['z'] and ['I']. *)
Lemma HandlePackets_ignores_unknown_witness :
  HandlePackets 4 0 (with_packets [[]; [x7a; x01]] pad_ready)
  = with_packets [] pad_ready
  ∧ HandlePackets 4 0 (with_packets ([x49; x00] :: [full_readback]) pad_ready)
    = HandlePackets 4 0 (with_packets [full_readback] pad_ready).
Proof.
  apply (HandlePackets_ignores_unknown 4 0 [[]; [x7a; x01]] [full_readback]
           [x49; x00] pad_ready); reflexivity.
Defined.

(** X2 with a readback of two bytes on a four-byte configuration. *)
Lemma config_readback_copies_witness :
  let s' := dispatch_packet 4 0 [x67; x02; x0a; x0b] pad_ready in
  m_bHaveConfig s' = true
  ∧ List.length (config s') = 4%nat
  ∧ take 2 (config s') = [x0a; x0b]
  ∧ drop 2 (config s') = [x03; x04].
Proof.
  destruct (config_readback_copies 4 0 [x67; x02; x0a; x0b] pad_ready)
    as (Hhave & Hlen & Htake & Hdrop & _); [reflexivity .. |].
  split; [exact Hhave |]. split; [exact Hlen |].
  split; [exact Htake | exact Hdrop].
Defined.

(** X3 with the write of the configuration 5, 6, 7, 8. *)
Lemma written_config_read_back_witness :
  config (dispatch_packet 4 0 [x67; x04; x05; x06; x07; x08] pad_ready)
  = [x05; x06; x07; x08].
Proof.
  destruct (written_config_read_back 4 0
              (SetConfig [x05; x06; x07; x08] pad_ready) pad_ready)
    as (_ & Hconfig & _); [reflexivity | lia | reflexivity |].
  exact Hconfig.
Defined.

(** X5 with a response echoing a mode that was not requested. *)
Lemma rejected_response_keeps_data_witness :
  let s' := HandleSensorTestDataResponse 0 stale_response pad_requested in
  GetTestData s' = GetTestData pad_requested
  ∧ delivered s' = delivered pad_requested
  ∧ emitted s' = emitted pad_requested.
Proof.
  destruct (rejected_response_keeps_data 0 stale_response pad_requested)
    as (Hget & _ & _ & Hdelivered & Hemitted & _); [reflexivity |].
  split; [exact Hget |]. split; [exact Hdelivered | exact Hemitted].
Defined.

(** X6 with the awaited response handled at tick 7. *)
Lemma next_request_follows_response_witness :
  emitted pad_with_data = [[x79; x30; x0a]; [x79; x30; x0a]]
  ∧ m_WaitingForSensorTestModeResponse pad_with_data = 48
  ∧ m_SentSensorTestModeRequestAtTicks pad_with_data = 7.
Proof.
  destruct (next_request_follows_response 0 good_response 7 pad_requested)
    as (Hemit & Hwait & Hsent);
    [reflexivity | discriminate | reflexivity | discriminate | reflexivity |].
  split; [exact Hemit |]. split; [exact Hwait | exact Hsent].
Defined.

(** X7 with a request sent at tick 2^32 - 1000, checked 1500 ms and
    2500 ms later. *)
Lemma UpdateTestMode_tick_wraparound_witness :
  UpdateTestMode 0 500 pad_requested_late = pad_requested_late
  ∧ m_SentSensorTestModeRequestAtTicks
      (UpdateTestMode 0 1500 pad_requested_late) = 1500.
Proof.
  destruct (UpdateTestMode_tick_wraparound 0 4294966296 1500
              pad_requested_late) as (Hwait & _);
    [lia | lia | reflexivity | discriminate | discriminate |].
  destruct (UpdateTestMode_tick_wraparound 0 4294966296 2500
              pad_requested_late) as (_ & Hsend);
    [lia | lia | reflexivity | discriminate | discriminate |].
  split; [apply Hwait; lia |].
  destruct Hsend as (Hticks & _); [lia |]. exact Hticks.
Defined.

(** X9 with the test mode switched off and the device closed and opened
    again after data was stored. *)
Lemma GetTestData_never_forgets_witness :
  let s := run 4 0 pad_with_data
             [CallSetSensorTestMode 0; CallCloseDevice;
              CallOpenDeviceHandle true; CallUpdate 9 quiet_cycle] in
  GetTestData s = Some (m_SensorTestData s).
Proof.
  apply (GetTestData_never_forgets 4 0 pad_with_data). discriminate.
Defined.

(** X10 with a response arriving on a pad that never selected a mode. *)
Lemma no_test_data_without_mode_witness :
  let s := run 4 0 (SMXDevice_new 4 0)
             [CallOpenDeviceHandle true; CallSetSensorTestMode 0;
              CallUpdate 0 {| io_fail := false; io_identity := Some false;
                              io_input := 0;
                              io_received := [good_response];
                              io_sent := 0 |}] in
  GetTestData s = None
  ∧ m_WaitingForSensorTestModeResponse s = 0
  ∧ m_SensorTestMode s = 0.
Proof.
  apply (no_test_data_without_mode 4 0).
  repeat constructor.
Defined.

(** X11 with the awaited response arriving in a cycle whose pump fails. *)
Lemma Update_failed_pump_dispatches_nothing_witness :
  let s' := Update 4 0 5 failed_cycle pad_requested in
  logged s' = logged pad_requested
  ∧ m_bHaveConfig s' = m_bHaveConfig pad_requested
  ∧ (GetConfig s').2 = (GetConfig pad_requested).2
  ∧ GetTestData s' = GetTestData pad_requested.
Proof.
  apply (Update_failed_pump_dispatches_nothing 4 0 5 failed_cycle
           pad_requested).
  reflexivity.
Defined.

(** X12 with an awaited response that carries no word. *)
Lemma short_response_has_no_panel_witness :
  GetTestData (HandleSensorTestDataResponse 0 [x79; x30; x00] pad_requested)
  = Some blank_output.
Proof.
  destruct (short_response_has_no_panel 0 [x79; x30; x00] pad_requested)
    as (Hget & _); [reflexivity | vm_compute; lia |].
  exact Hget.
Defined.

(** X14 on the pad with its write in flight: a cycle that completes three
    commands clears the flag, a close does not; and, with the flag set
    on the idle pad, nothing is written after further calls. *)
Lemma write_flag_cleared_only_by_completion_witness :
  m_bSendingConfig (call 4 0 pad_writing (CallUpdate 1 sent_three_cycle))
  = false
  ∧ m_bSendingConfig (CloseDevice pad_writing) = true
  ∧ (let t := run 4 0 pad_flag_orphaned
                [CallSetConfig [x09; x09; x09; x09];
                 CallUpdate 1 sent_three_cycle] in
     m_bSendingConfig t = true
     ∧ SendConfig 4 t = t
     ∧ SendConfig 4 (SetConfig [x09; x09; x09; x09] t)
       = SetConfig [x09; x09; x09; x09] t).
Proof.
  destruct (write_flag_cleared_only_by_completion 4 0 pad_writing
              (CallUpdate 1 sent_three_cycle) [] [])
    as (Hclear & Hclose & _); [vm_compute; reflexivity |].
  destruct (write_flag_cleared_only_by_completion 4 0 pad_flag_orphaned
              (CallUpdate 1 quiet_cycle)
              [CallSetConfig [x09; x09; x09; x09];
               CallUpdate 1 sent_three_cycle] [x09; x09; x09; x09])
    as (_ & _ & _ & _ & Hrun); [vm_compute; reflexivity |].
  assert (Hsent : (take (io_sent sent_three_cycle)
                     (m_aPendingCommands (m_pConnection pad_writing))).*2
                  = [SendConfigComplete; NoCompletion])
    by (vm_compute; reflexivity).
  assert (Hnone : m_aPendingCommands (m_pConnection pad_flag_orphaned) = [])
    by (vm_compute; reflexivity).
  split.
  - apply (proj2 Hclear). exists 1, sent_three_cycle.
    split; [reflexivity |]. split; [vm_compute; reflexivity |].
    rewrite Hsent. apply list_elem_of_here.
  - split; [exact Hclose |].
    apply Hrun. unfold not_queued. rewrite Hnone. apply not_elem_of_nil.
Defined.

(** X15 with a cycle in which the pad reports two panels pressed and a
    configuration readback arrives. *)
Lemma Update_input_change_notifies_witness :
  delivered (Update 4 0 1 pressed_cycle pad_ready)
  = delivered pad_ready ++ [(0, SMXUpdateCallback_Updated)]
  ∧ ∃ after,
      delivered (Update 4 0 1 pressed_readback_cycle pad_ready)
      = (delivered pad_ready ++ [(0, SMXUpdateCallback_Updated)]) ++ after
      ∧ Forall (λ e, e = (0, SMXUpdateCallback_Updated)) after
      ∧ (length after <= 1)%nat.
Proof.
  destruct (Update_input_change_notifies 4 0 1 pressed_cycle pad_ready)
    as (_ & _ & Hcall & after & Hafter & _ & Hlen);
    [reflexivity | reflexivity | reflexivity | discriminate |].
  destruct (Update_input_change_notifies 4 0 1 pressed_readback_cycle
              pad_ready)
    as (_ & _ & _ & after' & Hafter' & Hall' & Hlen');
    [reflexivity | reflexivity | reflexivity | discriminate |].
  split.
  - change (m_sReadBuffers (m_pConnection pad_ready)
            ++ io_received pressed_cycle) with (@nil (list byte)) in Hlen.
    destruct after as [| e after]; [| cbn [length] in Hlen; lia].
    rewrite Hafter, app_nil_r. exact Hcall.
  - exists after'. split; [exact Hafter' |]. split; [exact Hall' | exact Hlen'].
Defined.

(** * The settings tool: pad selection, command assembly, panel masks *)

Module SmxConfig.

(** ** ActivePad *)

Inductive SelectedPad := P1 | P2 | Both.

(** What [ActivePads] reads of [args.controller[i]]: [info.connected] and
    [config]. *)
Record Controller (Config : Type) := {
  connected : bool;
  controller_config : Config
}.
Arguments connected {Config} _.
Arguments controller_config {Config} _.

(** [ActivePads(args)], with the static [selectedPad] and the two entries
    of [args.controller] as arguments; the result lists what the iterator
    yields, in order. *)
Definition ActivePads {Config} (selectedPad : SelectedPad)
    (controller0 controller1 : Controller Config) : list (Z * Config) :=
  let Pad1Connected := connected controller0 in
  let Pad2Connected := connected controller1 in
  let '(Pad1Connected, Pad2Connected) :=
    if Pad1Connected && Pad2Connected
    then
      let Pad2Connected :=
        match selectedPad with P1 => false | _ => Pad2Connected end in
      let Pad1Connected :=
        match selectedPad with P2 => false | _ => Pad1Connected end in
      (Pad1Connected, Pad2Connected)
    else (Pad1Connected, Pad2Connected) in
  (if Pad1Connected then [(0, controller_config controller0)] else [])
  ++ (if Pad2Connected then [(1, controller_config controller1)] else []).

(** [GetFirstActivePadConfig(args)]; [dummy] is [new SMX.SMXConfig()]. *)
Definition GetFirstActivePadConfig {Config} (dummy : Config)
    (selectedPad : SelectedPad) (controller0 controller1 : Controller Config)
    : Config :=
  match ActivePads selectedPad controller0 controller1 with
  | activePad :: _ => activePad.2
  | [] => dummy
  end.

(** ** CommandBuffer *)

(** [parts], first to last. *)
Definition CommandBuffer := list (list byte).

(** [Write(byte[] s)]. *)
Definition Write (s : list byte) (parts : CommandBuffer) : CommandBuffer :=
  parts ++ [s].

(** [Write(byte b)]. *)
Definition Write_byte (b : byte) (parts : CommandBuffer) : CommandBuffer :=
  Write [b] parts.

(** [Write(char b)]: the cast to [byte] keeps the low eight bits of the
    UTF-16 code unit. *)
Definition Write_char (b : Z) (parts : CommandBuffer) : CommandBuffer :=
  Write_byte (Z_byte b) parts.

(** [Write(string s)], the string given by its code units. *)
Definition Write_string (s : list Z) (parts : CommandBuffer) : CommandBuffer :=
  Write (Z_byte <$> s) parts.

(** [Buffer.BlockCopy(src, srcOffset, dst, dstOffset, count)], within the
    bounds of both arrays. *)
Definition BlockCopy (src : list byte) (srcOffset : nat) (dst : list byte)
    (dstOffset count : nat) : list byte :=
  take dstOffset dst ++ take count (drop srcOffset src)
  ++ drop (dstOffset + count) dst.

(** [Get()]: the first loop sums the lengths, the second copies each part
    to the offset [next] of the zeroed [result]. *)
Definition Get (parts : CommandBuffer) : list byte :=
  let length := foldl (λ length part, (length + List.length part)%nat) 0%nat parts in
  let result := replicate length x00 in
  (foldl (λ '(result, next) part,
            (BlockCopy part 0 result next (List.length part),
             (next + List.length part)%nat))
         (result, 0%nat) parts).1.

(** ** ShowAutoLightsColor *)

(** The body of the loops of [AutoLightsColorRefreshColor] for one pad whose
    [GetConfig] succeeded, [color] being [config.stepColor]. *)
Definition write_pad_colors (color : list byte) (cmd : CommandBuffer)
    : CommandBuffer :=
  foldl (λ cmd iPanel,
           foldl (λ cmd _,
                    Write_byte (at_byte color (iPanel * 3 + 2))
                      (Write_byte (at_byte color (iPanel * 3 + 1))
                         (Write_byte (at_byte color (iPanel * 3 + 0)) cmd)))
                 cmd (seq 0 16))
        cmd (seq 0 9).

(** [AutoLightsColorRefreshColor()]: the bytes handed to [SetLights].
    [GetConfig pad] is [config.stepColor] when [SMX.SMX.GetConfig(pad, out
    config)] returns true, and nothing when it returns false. *)
Definition AutoLightsColorRefreshColor (GetConfig : nat → option (list byte))
    : list byte :=
  Get (foldl (λ cmd pad,
                match GetConfig pad with
                | None => cmd
                | Some color => write_pad_colors color cmd
                end)
             [] (seq 0 2)).

(** The lights of one pad: for each of the 9 panels, 16 times its colour. *)
Definition pad_lights (color : list byte) : list byte :=
  mjoin ((λ iPanel,
            mjoin (replicate 16 [at_byte color (iPanel * 3);
                                 at_byte color (iPanel * 3 + 1);
                                 at_byte color (iPanel * 3 + 2)]))
         <$> seq 0 9).

(** ** The enabled-panel list of the settings export and import *)

(** The loop of [ExportSettingsToJSON] that builds [enabledPanelList] from
    [config.GetEnabledPanels()]. *)
Definition export_enabledPanels (enabledPanels : list bool) : list Z :=
  foldl (λ enabledPanelList panel,
           if default false (enabledPanels !! panel)
           then enabledPanelList ++ [Z.of_nat panel]
           else enabledPanelList)
        [] (seq 0 9).

(** The loop of [ImportSettingsFromJSON] that builds the array given to
    [config.SetEnabledPanels], the entries of the list read as integers. *)
Definition import_enabledPanels (enabledPanelList : list Z) : list bool :=
  foldl (λ enabledPanels panel,
           if (panel <? 0) || (panel >=? 9) then enabledPanels
           else <[Z.to_nat panel := true]> enabledPanels)
        (replicate 9 false) enabledPanelList.

(** ** Pad selection *)

(** X16. [ActivePads] yields only connected pads, each with its own
    configuration and in pad order, and yields none exactly when no pad is
    connected: the selection hides a pad only when both are connected, so a
    single connected pad is yielded whatever is selected.
    [GetFirstActivePadConfig] returns the configuration of the first pad
    yielded: pad 1's when pad 1 is connected alone or both are connected
    and P2 is selected, pad 0's in every other case with pad 0 connected,
    and the dummy configuration exactly when no pad is connected. *)
Theorem ActivePads_selection {Config} (selectedPad : SelectedPad)
    (controller0 controller1 : Controller Config) (dummy : Config) :
  let pads := ActivePads selectedPad controller0 controller1 in
  (∀ i c, (i, c) ∈ pads →
     (i = 0 ∧ connected controller0 = true
      ∧ c = controller_config controller0)
     ∨ (i = 1 ∧ connected controller1 = true
        ∧ c = controller_config controller1))
  ∧ (pads = [] ↔
     connected controller0 = false ∧ connected controller1 = false)
  ∧ (connected controller0 = true → connected controller1 = false →
     pads = [(0, controller_config controller0)])
  ∧ (connected controller0 = false → connected controller1 = true →
     pads = [(1, controller_config controller1)])
  ∧ (connected controller0 = true → connected controller1 = true →
     pads = match selectedPad with
            | P1 => [(0, controller_config controller0)]
            | P2 => [(1, controller_config controller1)]
            | Both => [(0, controller_config controller0);
                       (1, controller_config controller1)]
            end)
  ∧ GetFirstActivePadConfig dummy selectedPad controller0 controller1
    = default dummy (snd <$> head pads)
  ∧ GetFirstActivePadConfig dummy selectedPad controller0 controller1
    = match connected controller0, connected controller1, selectedPad with
      | true, true, P2 => controller_config controller1
      | true, _, _ => controller_config controller0
      | false, true, _ => controller_config controller1
      | false, false, _ => dummy
      end.
Proof.
  destruct controller0 as [c0 cfg0], controller1 as [c1 cfg1].
  unfold GetFirstActivePadConfig, ActivePads. cbn [connected controller_config].
  destruct selectedPad, c0, c1; cbn.
  all: split;
    [ intros i c Hin;
      repeat (apply elem_of_cons in Hin as [[= -> ->] | Hin]; [tauto |]);
      apply elem_of_nil in Hin; contradiction
    | split; [split; [intros H; try discriminate H; auto | intros [H1 H2]; try discriminate H1; try discriminate H2; reflexivity] |] ].
  all: repeat (split; [intros H1 H2; try discriminate H1; try discriminate H2; reflexivity |]).
  all: split; reflexivity.
Qed.

(** ** Command assembly *)

Lemma total_length_from (parts : CommandBuffer) (n : nat) :
  foldl (λ length part, (length + List.length part)%nat) n parts
  = (n + foldl (λ length part, (length + List.length part)%nat) 0 parts)%nat.
Proof.
  revert n. induction parts as [| part parts IH]; intros n.
  - cbn [foldl]. lia.
  - cbn [foldl]. rewrite IH, (IH (0 + List.length part)%nat). lia.
Qed.

(** One copy of the loop: the part lands right after what is written. *)
Lemma BlockCopy_next (part written : list byte) (n : nat) :
  BlockCopy part 0 (written ++ replicate (List.length part + n) x00)
    (List.length written) (List.length part)
  = (written ++ part) ++ replicate n x00.
Proof.
  unfold BlockCopy.
  rewrite drop_0, firstn_all, take_app_length.
  rewrite drop_app_add', replicate_add by reflexivity.
  rewrite drop_app_length' by (rewrite length_replicate; reflexivity).
  rewrite <- app_assoc. reflexivity.
Qed.

(** The copy loop, with [written] already in place and zeroes after it. *)
Lemma Get_loop (parts : CommandBuffer) (written : list byte) :
  (foldl (λ '(result, next) part,
            (BlockCopy part 0 result next (List.length part),
             (next + List.length part)%nat))
         (written
          ++ replicate
               (foldl (λ length part, (length + List.length part)%nat) 0%nat
                  parts) x00,
          List.length written) parts).1
  = written ++ mjoin parts.
Proof.
  revert written. induction parts as [| part parts IH]; intros written.
  - cbn [foldl fst mjoin list_join replicate]. reflexivity.
  - cbn [foldl mjoin list_join].
    rewrite (total_length_from parts (0 + List.length part)).
    rewrite Nat.add_0_l, BlockCopy_next.
    replace (List.length written + List.length part)%nat
      with (List.length (written ++ part)) by (rewrite length_app; reflexivity).
    rewrite IH, <- app_assoc. reflexivity.
Qed.

(** X17. [Get] returns the written parts one after another, in the order
    they were written: a write appends its bytes to what [Get] returned
    before, and the length is the sum of the lengths of the parts. *)
Theorem CommandBuffer_Get_concat (parts : CommandBuffer) (s : list byte)
    (b : byte) (c : Z) (str : list Z) :
  Get parts = mjoin parts
  ∧ Get [] = []
  ∧ Get (Write s parts) = Get parts ++ s
  ∧ Get (Write_byte b parts) = Get parts ++ [b]
  ∧ Get (Write_char c parts) = Get parts ++ [Z_byte c]
  ∧ Get (Write_string str parts) = Get parts ++ (Z_byte <$> str)
  ∧ List.length (Get parts) = sum_list (List.length <$> parts).
Proof.
  assert (Hget : ∀ parts, Get parts = mjoin parts).
  { intros q. unfold Get. exact (Get_loop q []). }
  assert (Hwrite : ∀ t q, Get (Write t q) = Get q ++ t).
  { intros t q. rewrite !Hget. unfold Write.
    rewrite join_app. cbn [mjoin list_join]. rewrite app_nil_r. reflexivity. }
  split; [apply Hget |]. split; [reflexivity |].
  split; [apply Hwrite |]. split; [apply Hwrite |].
  split.
  { unfold Write_char, Write_byte. apply Hwrite. }
  split; [apply Hwrite |].
  rewrite Hget. induction parts as [| part parts IH].
  - reflexivity.
  - change (mjoin (part :: parts)) with (part ++ mjoin parts).
    rewrite length_app, IH. reflexivity.
Qed.

Lemma Get_join (parts : CommandBuffer) : Get parts = mjoin parts.
Proof. unfold Get. exact (Get_loop parts []). Qed.

(** X18. The command [AutoLightsColorRefreshColor] hands to [SetLights] is
    the lights of the pads whose configuration could be read, pad 0 before
    pad 1: 432 bytes per such pad, byte [k] being component [k mod 3] of
    the colour of panel [k / 48].  When only pad 1 answers, its lights are
    the whole command and start at offset 0, and when no pad answers the
    command is empty. *)
Theorem AutoLightsColorRefreshColor_command
    (GetConfig : nat → option (list byte)) :
  AutoLightsColorRefreshColor GetConfig
  = from_option pad_lights [] (GetConfig 0%nat)
    ++ from_option pad_lights [] (GetConfig 1%nat)
  ∧ (∀ color k, (k < 432)%nat →
       pad_lights color !! k
       = Some (at_byte color (k / 48 * 3 + k mod 3)%nat))
  ∧ List.length (AutoLightsColorRefreshColor GetConfig)
    = (432 * List.length (filter (λ pad, is_Some (GetConfig pad))
                            [0%nat; 1%nat]))%nat
  ∧ (∀ color, GetConfig 0%nat = None → GetConfig 1%nat = Some color →
       AutoLightsColorRefreshColor GetConfig = pad_lights color).
Proof.
  assert (Hpad : ∀ color cmd,
            mjoin (write_pad_colors color cmd) = mjoin cmd ++ pad_lights color).
  { intros color cmd. unfold write_pad_colors, Write_byte, Write.
    cbn [seq foldl]. rewrite !join_app. cbn [mjoin list_join].
    rewrite <- !app_assoc. reflexivity. }
  assert (Hindex : ∀ color,
            pad_lights color
            = (λ k, at_byte color (k / 48 * 3 + k mod 3)%nat) <$> seq 0 432).
  { intros color. unfold at_byte. vm_compute. reflexivity. }
  assert (Hlen : ∀ color, List.length (pad_lights color) = 432%nat).
  { intros color. rewrite Hindex, length_fmap, length_seq. reflexivity. }
  assert (Hcmd : AutoLightsColorRefreshColor GetConfig
                 = from_option pad_lights [] (GetConfig 0%nat)
                   ++ from_option pad_lights [] (GetConfig 1%nat)).
  { unfold AutoLightsColorRefreshColor. rewrite Get_join. cbn [seq foldl].
    destruct (GetConfig 0%nat) as [color0 |],
             (GetConfig 1%nat) as [color1 |];
      cbn [from_option]; rewrite ?Hpad; cbn [mjoin list_join];
      rewrite ?app_nil_r; reflexivity. }
  split; [exact Hcmd |]. split.
  { intros color k Hk. rewrite Hindex, list_lookup_fmap, lookup_seq_lt by lia.
    reflexivity. }
  split.
  { rewrite Hcmd, length_app.
    destruct (GetConfig 0%nat) as [color0 |] eqn:H0,
             (GetConfig 1%nat) as [color1 |] eqn:H1;
      cbn [from_option]; rewrite ?Hlen.
    - rewrite filter_cons_True by (rewrite H0; eauto).
      rewrite filter_cons_True by (rewrite H1; eauto). reflexivity.
    - rewrite filter_cons_True by (rewrite H0; eauto).
      rewrite filter_cons_False
        by (rewrite H1; intros Hs; apply is_Some_None in Hs; exact Hs).
      reflexivity.
    - rewrite filter_cons_False
        by (rewrite H0; intros Hs; apply is_Some_None in Hs; exact Hs).
      rewrite filter_cons_True by (rewrite H1; eauto). reflexivity.
    - rewrite filter_cons_False
        by (rewrite H0; intros Hs; apply is_Some_None in Hs; exact Hs).
      rewrite filter_cons_False
        by (rewrite H1; intros Hs; apply is_Some_None in Hs; exact Hs).
      reflexivity. }
  intros color H0 H1. rewrite Hcmd, H0, H1. reflexivity.
Qed.

(** ** Panel masks *)

(** The export loop keeps, in order, the positions that satisfy the test. *)
Lemma export_loop (f : nat → bool) (panels : list nat) (acc : list Z) :
  foldl (λ enabledPanelList panel,
           if f panel then enabledPanelList ++ [Z.of_nat panel]
           else enabledPanelList) acc panels
  = acc ++ (Z.of_nat <$> filter (λ panel, f panel = true) panels).
Proof.
  revert acc. induction panels as [| panel panels IH]; intros acc.
  - cbn. rewrite app_nil_r. reflexivity.
  - cbn [foldl]. rewrite IH. destruct (f panel) eqn:Hf.
    + rewrite filter_cons_True by exact Hf.
      rewrite <- app_assoc. reflexivity.
    + rewrite filter_cons_False by (rewrite Hf; discriminate). reflexivity.
Qed.

Lemma export_enabledPanels_filter (enabledPanels : list bool) :
  export_enabledPanels enabledPanels
  = Z.of_nat <$> filter (λ panel, default false (enabledPanels !! panel) = true)
                   (seq 0 9).
Proof.
  unfold export_enabledPanels.
  exact (export_loop (λ panel, default false (enabledPanels !! panel))
           (seq 0 9) []).
Qed.

Lemma export_enabledPanels_elem (enabledPanels : list bool) (panel : nat) :
  Z.of_nat panel ∈ export_enabledPanels enabledPanels
  ↔ (panel < 9)%nat ∧ enabledPanels !! panel = Some true.
Proof.
  rewrite export_enabledPanels_filter, list_elem_of_fmap. split.
  - intros (q & Hq & Hin). apply Nat2Z.inj in Hq. subst q.
    apply list_elem_of_filter in Hin as [Hon Hin].
    apply elem_of_seq in Hin. split; [lia |].
    destruct (enabledPanels !! panel) as [[] |]; try discriminate Hon.
    reflexivity.
  - intros [Hlt Hon]. exists panel. split; [reflexivity |].
    apply list_elem_of_filter. split.
    + rewrite Hon. reflexivity.
    + apply elem_of_seq. lia.
Qed.

Lemma filter_agree {A} (P1 P2 : A → Prop) `{!∀ x, Decision (P1 x)}
    `{!∀ x, Decision (P2 x)} (l : list A) :
  (∀ x, x ∈ l → P1 x ↔ P2 x) → filter P1 l = filter P2 l.
Proof.
  induction l as [| a l IH]; intros Hagree; [reflexivity |].
  assert (Htail : filter P1 l = filter P2 l).
  { apply IH. intros x Hx. apply Hagree. apply elem_of_cons. auto. }
  destruct (decide (P1 a)) as [H1 | H1].
  - rewrite !filter_cons_True, Htail; try assumption; [reflexivity |].
    apply Hagree; [apply elem_of_cons; auto | exact H1].
  - rewrite !filter_cons_False, Htail; try assumption; [reflexivity |].
    intros H2. apply H1. apply Hagree; [apply elem_of_cons; auto | exact H2].
Qed.

(** The import loop from any array of nine flags. *)
Lemma import_loop (enabledPanelList : list Z) (enabledPanels : list bool) :
  List.length enabledPanels = 9%nat →
  let result :=
    foldl (λ enabledPanels panel,
             if (panel <? 0) || (panel >=? 9) then enabledPanels
             else <[Z.to_nat panel := true]> enabledPanels)
          enabledPanels enabledPanelList in
  List.length result = 9%nat
  ∧ ∀ panel, (panel < 9)%nat →
      result !! panel
      = Some (default false (enabledPanels !! panel)
              || bool_decide (Z.of_nat panel ∈ enabledPanelList)).
Proof.
  revert enabledPanels.
  induction enabledPanelList as [| x l IH]; intros a Hlen; cbn zeta.
  - cbn [foldl]. split; [exact Hlen |]. intros panel Hp.
    destruct (lookup_lt_is_Some_2 a panel ltac:(lia)) as [b Hb].
    rewrite Hb. cbn [default].
    rewrite bool_decide_eq_false_2 by apply not_elem_of_nil.
    rewrite orb_false_r. reflexivity.
  - cbn [foldl].
    destruct ((x <? 0) || (x >=? 9)) eqn:Hout.
    + destruct (IH a Hlen) as [Hl Hget]. split; [exact Hl |].
      intros panel Hp. rewrite (Hget panel Hp). f_equal. f_equal.
      apply bool_decide_ext. rewrite elem_of_cons.
      apply orb_true_iff in Hout. split; [tauto |].
      intros [Heq | Hin]; [| exact Hin]. exfalso.
      destruct Hout as [Hneg | Hbig]; lia.
    + apply orb_false_iff in Hout as [Hneg Hbig].
      assert (Hx : (Z.to_nat x < 9)%nat) by lia.
      destruct (IH (<[Z.to_nat x := true]> a)
                  ltac:(rewrite length_insert; exact Hlen)) as [Hl Hget].
      split; [exact Hl |].
      intros panel Hp. rewrite (Hget panel Hp). f_equal.
      destruct (decide (panel = Z.to_nat x)) as [-> | Hne].
      * rewrite list_lookup_insert_eq by lia. cbn [default orb].
        rewrite (bool_decide_eq_true_2 (Z.of_nat (Z.to_nat x) ∈ x :: l))
          by (apply elem_of_cons; left; lia).
        rewrite orb_true_r. reflexivity.
      * rewrite list_lookup_insert_ne by congruence. f_equal.
        apply bool_decide_ext. rewrite elem_of_cons.
        split; [tauto |]. intros [Heq | Hin]; [| exact Hin].
        exfalso. lia.
Qed.

Lemma import_enabledPanels_lookup (enabledPanelList : list Z) :
  List.length (import_enabledPanels enabledPanelList) = 9%nat
  ∧ ∀ panel, (panel < 9)%nat →
      import_enabledPanels enabledPanelList !! panel
      = Some (bool_decide (Z.of_nat panel ∈ enabledPanelList)).
Proof.
  destruct (import_loop enabledPanelList (replicate 9 false)
              ltac:(apply length_replicate)) as [Hl Hget].
  split; [exact Hl |]. intros panel Hp.
  unfold import_enabledPanels. rewrite (Hget panel Hp).
  rewrite lookup_replicate_2 by exact Hp. reflexivity.
Qed.

(** X19. The imported panel mask always has nine flags, and flag [panel]
    is set exactly when [panel] occurs in the list: entries below 0 or
    above 8 are skipped, repeated entries and their order make no
    difference, and an empty list disables every panel. *)
Theorem import_enabledPanels_mask (enabledPanelList : list Z) :
  List.length (import_enabledPanels enabledPanelList) = 9%nat
  ∧ (∀ panel, (panel < 9)%nat →
       import_enabledPanels enabledPanelList !! panel
       = Some (bool_decide (Z.of_nat panel ∈ enabledPanelList)))
  ∧ (∀ other, (∀ x, 0 <= x < 9 → x ∈ enabledPanelList ↔ x ∈ other) →
       import_enabledPanels other = import_enabledPanels enabledPanelList)
  ∧ import_enabledPanels [] = replicate 9 false.
Proof.
  destruct (import_enabledPanels_lookup enabledPanelList) as [Hl Hget].
  split; [exact Hl |]. split; [exact Hget |]. split; [| reflexivity].
  intros other Hsame.
  destruct (import_enabledPanels_lookup other) as [Hl' Hget'].
  apply list_eq. intros panel.
  destruct (decide (panel < 9)%nat) as [Hp | Hp].
  - rewrite (Hget panel Hp), (Hget' panel Hp). f_equal.
    apply bool_decide_ext. symmetry. apply Hsame. lia.
  - rewrite !lookup_ge_None_2 by lia. reflexivity.
Qed.

(** X20. Exporting a mask of nine flags and importing the list again gives
    the mask back; importing a list and exporting the result gives the
    list's entries between 0 and 8, each once and in increasing order. *)
Theorem enabledPanels_round_trip (enabledPanels : list bool)
    (enabledPanelList : list Z) :
  (List.length enabledPanels = 9%nat →
   import_enabledPanels (export_enabledPanels enabledPanels) = enabledPanels)
  ∧ export_enabledPanels (import_enabledPanels enabledPanelList)
    = Z.of_nat <$> filter (λ panel, Z.of_nat panel ∈ enabledPanelList)
                     (seq 0 9).
Proof.
  split.
  - intros Hlen.
    destruct (import_enabledPanels_lookup (export_enabledPanels enabledPanels))
      as [Hl Hget].
    apply list_eq. intros panel.
    destruct (decide (panel < 9)%nat) as [Hp | Hp].
    + rewrite (Hget panel Hp).
      destruct (lookup_lt_is_Some_2 enabledPanels panel ltac:(lia)) as [b Hb].
      rewrite Hb. f_equal. destruct b.
      * apply bool_decide_eq_true_2, export_enabledPanels_elem. auto.
      * apply bool_decide_eq_false_2. intros Hin.
        apply export_enabledPanels_elem in Hin as [_ Hin]. congruence.
    + rewrite !lookup_ge_None_2 by lia. reflexivity.
  - destruct (import_enabledPanels_lookup enabledPanelList) as [Hl Hget].
    rewrite export_enabledPanels_filter. f_equal.
    apply filter_agree. intros panel Hin.
    apply elem_of_seq in Hin. rewrite (Hget panel) by lia.
    cbn [default from_option]. unfold id.
    apply bool_decide_eq_true.
Qed.

End SmxConfig.
